(** * NoC placement cost engine (vpr/src/place/noc_place_utils.cpp)

    A shallow embedding of the NoC cost handler of the placer: the cost
    kernels, the transactional surface (delta evaluation, commit, revert),
    the initial routing, the normalisation factors and the router-swap
    proposer, followed by the properties established about them.

    Conventions of the embedding.
    - Strong ids ([NocLinkId], [NocRouterId], [NocTrafficFlowId],
      [ClusterBlockId]) are dense indices, modelled as [nat].
    - [vtr::vector] and [std::vector] are lists; [v[i]] is an unchecked
      access in the source, so reading or writing out of range has no defined
      result.  Every operation therefore lives in the [option] monad:
      [None] stands for "no defined result" (an out-of-range access or a
      failed [VTR_ASSERT]).  [VTR_ASSERT_SAFE] is compiled out at the default
      assertion level and is not modelled.
    - [double] arithmetic is taken through the interface [Scalar]; the
      instance [double] is IEEE binary64 (primitive floats), the instance
      [exactZ] is exact integer arithmetic. *)

From Stdlib Require Import ZArith Floats.
From stdpp Require Import base option list sorting gmap.

(** ** Scalars *)

Class Scalar (R : Type) := {
  s_zero : R;
  s_add : R → R → R;
  s_sub : R → R → R;
  s_mul : R → R → R;
  s_div : R → R → R;
  s_ltb : R → R → bool;
  s_of_int : Z → R
}.

(** Conversion of a (machine) integer to binary64. *)
Definition float_of_Z (z : Z) : float :=
  if (z <? 0)%Z then PrimFloat.opp (PrimFloat.of_uint63 (Uint63.of_Z (- z)))
  else PrimFloat.of_uint63 (Uint63.of_Z z).

#[export] Instance double : Scalar float := {|
  s_zero := PrimFloat.zero;
  s_add := PrimFloat.add;
  s_sub := PrimFloat.sub;
  s_mul := PrimFloat.mul;
  s_div := PrimFloat.div;
  s_ltb := PrimFloat.ltb;
  s_of_int := float_of_Z
|}.

Definition exactZ : Scalar Z := {|
  s_zero := 0%Z;
  s_add := Z.add;
  s_sub := Z.sub;
  s_mul := Z.mul;
  s_div := Z.div;
  s_ltb := Z.ltb;
  s_of_int := λ z, z
|}.

(** [std::max(a, b)] is [(a < b) ? b : a]; [std::min(a, b)] is
    [(b < a) ? b : a]. *)
Definition std_max `{Scalar R} (a b : R) : R := if s_ltb a b then b else a.
Definition std_min `{Scalar R} (a b : R) : R := if s_ltb b a then b else a.

(** ** Identifiers and containers *)

Abbreviation NocLinkId := nat (only parsing).
Abbreviation NocRouterId := nat (only parsing).
Abbreviation NocTrafficFlowId := nat (only parsing).
Abbreviation ClusterBlockId := nat (only parsing).

(** [v[i] = x] on a vector: defined only in range. *)
Definition vec_write {A} (v : list A) (i : nat) (x : A) : option (list A) :=
  if decide (i < length v) then Some (<[i := x]> v) else None.

(** A loop [for (x : xs) { s = body(s, x); }] whose body may fail. *)
Fixpoint foldM {A S} (body : S → A → option S) (s : S) (xs : list A) : option S :=
  match xs with
  | [] => Some s
  | x :: xs' => s' ← body s x; foldM body s' xs'
  end.

(** ** Data model *)

Record t_pl_loc := {
  loc_x : Z;
  loc_y : Z;
  loc_sub_tile : Z;
  loc_layer : Z
}.

Record t_block_loc := {
  loc : t_pl_loc;
  is_fixed : bool
}.

Section DataModel.
Context {R : Type}.

Record NocRouter := {
  router_latency : R
}.

Record NocLink := {
  link_id : NocLinkId;
  source_router : NocRouterId;
  sink_router : NocRouterId;
  link_bandwidth : R;
  link_latency : R
}.

(** [NocStorage]: the read-only topology.  [grid_location_to_router_id]
    stands for [get_router_at_grid_location], which asserts that a router
    exists at the location. *)
Record NocStorage := {
  router_storage : list NocRouter;
  link_storage : list NocLink;
  noc_link_latency : R;
  noc_router_latency : R;
  detailed_link_latency : bool;
  detailed_router_latency : bool;
  grid_location_to_router_id : t_pl_loc → option NocRouterId
}.

Record t_noc_traffic_flow := {
  source_router_cluster_id : ClusterBlockId;
  sink_router_cluster_id : ClusterBlockId;
  traffic_flow_bandwidth : R;
  max_traffic_flow_latency : R;
  traffic_flow_priority : Z
}.

(** [NocTrafficFlows]: the traffic-flow storage. *)
Record NocTrafficFlows := {
  list_of_noc_traffic_flows : list t_noc_traffic_flow;
  traffic_flows_associated_to_router_blocks :
    gmap ClusterBlockId (list NocTrafficFlowId);
  router_cluster_in_netlist : list ClusterBlockId
}.

Record NocCostTerms := {
  aggregate_bandwidth : R;
  latency : R;
  latency_overrun : R;
  congestion : R
}.

Record TrafficFlowPlaceCost := {
  flow_aggregate_bandwidth : R;
  flow_latency : R;
  flow_latency_overrun : R
}.

Record t_placer_costs := {
  noc_cost_terms : NocCostTerms;
  noc_cost_norm_factors : NocCostTerms
}.

(** The mutable state owned by [NocCostHandler]. *)
Record NocCostHandler := {
  traffic_flow_costs : list TrafficFlowPlaceCost;
  proposed_traffic_flow_costs : list TrafficFlowPlaceCost;
  traffic_flow_routes : list (list NocLinkId);
  traffic_flow_routes_backup : list (list NocLinkId);
  link_congestion_costs : list R;
  proposed_link_congestion_costs : list R;
  link_bandwidth_usages : list R;
  affected_traffic_flows : list NocTrafficFlowId;
  affected_noc_links : gset NocLinkId
}.
End DataModel.

Arguments NocRouter : clear implicits.
Arguments NocLink : clear implicits.
Arguments NocStorage : clear implicits.
Arguments t_noc_traffic_flow : clear implicits.
Arguments NocTrafficFlows : clear implicits.
Arguments NocCostTerms : clear implicits.
Arguments TrafficFlowPlaceCost : clear implicits.
Arguments t_placer_costs : clear implicits.
Arguments NocCostHandler : clear implicits.

(** ** Storage accessors *)

Section Accessors.
Context {R : Type}.

Definition get_number_of_traffic_flows (st : NocTrafficFlows R) : nat :=
  length (list_of_noc_traffic_flows st).

(** Modelled from the spec: the ids of all traffic flows, which are the
    dense range from 0 to the number of traffic flows, in ascending order. *)
Definition get_all_traffic_flow_id (st : NocTrafficFlows R) : list NocTrafficFlowId :=
  seq 0 (get_number_of_traffic_flows st).

Definition get_single_noc_traffic_flow (st : NocTrafficFlows R)
    (f : NocTrafficFlowId) : option (t_noc_traffic_flow R) :=
  list_of_noc_traffic_flows st !! f.

(** Modelled from the spec: [is_router_cluster]; a cluster block is a NoC
    router when the association table has an entry for it. *)
Definition check_if_cluster_block_has_traffic_flows (st : NocTrafficFlows R)
    (blk : ClusterBlockId) : bool :=
  bool_decide (is_Some (traffic_flows_associated_to_router_blocks st !! blk)).

(** Modelled from the spec: [associated_flows], in stored order; empty for
    a block with no entry. *)
Definition get_traffic_flows_associated_to_router_block (st : NocTrafficFlows R)
    (blk : ClusterBlockId) : list NocTrafficFlowId :=
  default [] (traffic_flows_associated_to_router_blocks st !! blk).

Definition get_router_clusters_in_netlist (st : NocTrafficFlows R) : list ClusterBlockId :=
  router_cluster_in_netlist st.

Definition get_single_noc_link (m : NocStorage R) (id : NocLinkId) : option (NocLink R) :=
  link_storage m !! id.

Definition get_single_noc_router (m : NocStorage R) (id : NocRouterId) : option (NocRouter R) :=
  router_storage m !! id.

(** [get_noc_links(ids)]: the links with the given ids, in the order of
    the ids. *)
Definition get_noc_links (m : NocStorage R) (ids : list NocLinkId) : option (list (NocLink R)) :=
  mapM (get_single_noc_link m) ids.

Definition get_router_at_grid_location (m : NocStorage R) (l : t_pl_loc) : option NocRouterId :=
  grid_location_to_router_id m l.
End Accessors.

(** ** Cost kernels *)

Section Kernels.
Context `{Scalar R}.

Definition calculate_traffic_flow_aggregate_bandwidth_cost
    (traffic_flow_route : list NocLinkId) (traffic_flow_info : t_noc_traffic_flow R) : R :=
  let num_of_links_in_traffic_flow := Z.of_nat (length traffic_flow_route) in
  s_mul (s_mul (s_of_int (traffic_flow_priority traffic_flow_info))
               (traffic_flow_bandwidth traffic_flow_info))
        (s_of_int num_of_links_in_traffic_flow).

Definition noc_link_latency_component (noc_model : NocStorage R)
    (traffic_flow_route : list NocLinkId) : option R :=
  if detailed_link_latency noc_model then
    links ← get_noc_links noc_model traffic_flow_route;
    Some (fold_left (λ acc link, s_add acc (link_latency link)) links s_zero)
  else
    let num_of_links_in_traffic_flow := s_of_int (Z.of_nat (length traffic_flow_route)) in
    Some (s_mul (noc_link_latency noc_model) num_of_links_in_traffic_flow).

Definition noc_router_latency_component (noc_model : NocStorage R)
    (traffic_flow_route : list NocLinkId) : option R :=
  if detailed_router_latency noc_model then
    first_noc_link_id ← traffic_flow_route !! 0;
    first_noc_link ← get_single_noc_link noc_model first_noc_link_id;
    source_noc_router ← get_single_noc_router noc_model (source_router first_noc_link);
    links ← get_noc_links noc_model traffic_flow_route;
    foldM (λ acc link,
             sink_router ← get_single_noc_router noc_model (sink_router link);
             Some (s_add acc (router_latency sink_router)))
          (router_latency source_noc_router) links
  else
    let num_of_routers_in_traffic_flow :=
      s_add (s_of_int (Z.of_nat (length traffic_flow_route))) (s_of_int 1) in
    Some (s_mul (noc_router_latency noc_model) num_of_routers_in_traffic_flow).

Definition calculate_traffic_flow_latency_cost
    (traffic_flow_route : list NocLinkId) (noc_model : NocStorage R)
    (traffic_flow_info : t_noc_traffic_flow R) : option (R * R) :=
  link_component ← noc_link_latency_component noc_model traffic_flow_route;
  router_component ← noc_router_latency_component noc_model traffic_flow_route;
  let latency := s_add router_component link_component in
  let max_latency := max_traffic_flow_latency traffic_flow_info in
  let latency_overrun := std_max (s_sub latency max_latency) s_zero in
  let priority := s_of_int (traffic_flow_priority traffic_flow_info) in
  Some (s_mul latency priority, s_mul latency_overrun priority).
End Kernels.

(** ** Field updates of the handler state *)

Section Setters.
Context {R : Type}.
Implicit Type h : NocCostHandler R.

Definition set_traffic_flow_costs v h : NocCostHandler R :=
  {| traffic_flow_costs := v;
     proposed_traffic_flow_costs := proposed_traffic_flow_costs h;
     traffic_flow_routes := traffic_flow_routes h;
     traffic_flow_routes_backup := traffic_flow_routes_backup h;
     link_congestion_costs := link_congestion_costs h;
     proposed_link_congestion_costs := proposed_link_congestion_costs h;
     link_bandwidth_usages := link_bandwidth_usages h;
     affected_traffic_flows := affected_traffic_flows h;
     affected_noc_links := affected_noc_links h |}.

Definition set_proposed_traffic_flow_costs v h : NocCostHandler R :=
  {| traffic_flow_costs := traffic_flow_costs h;
     proposed_traffic_flow_costs := v;
     traffic_flow_routes := traffic_flow_routes h;
     traffic_flow_routes_backup := traffic_flow_routes_backup h;
     link_congestion_costs := link_congestion_costs h;
     proposed_link_congestion_costs := proposed_link_congestion_costs h;
     link_bandwidth_usages := link_bandwidth_usages h;
     affected_traffic_flows := affected_traffic_flows h;
     affected_noc_links := affected_noc_links h |}.

Definition set_traffic_flow_routes v h : NocCostHandler R :=
  {| traffic_flow_costs := traffic_flow_costs h;
     proposed_traffic_flow_costs := proposed_traffic_flow_costs h;
     traffic_flow_routes := v;
     traffic_flow_routes_backup := traffic_flow_routes_backup h;
     link_congestion_costs := link_congestion_costs h;
     proposed_link_congestion_costs := proposed_link_congestion_costs h;
     link_bandwidth_usages := link_bandwidth_usages h;
     affected_traffic_flows := affected_traffic_flows h;
     affected_noc_links := affected_noc_links h |}.

Definition set_traffic_flow_routes_backup v h : NocCostHandler R :=
  {| traffic_flow_costs := traffic_flow_costs h;
     proposed_traffic_flow_costs := proposed_traffic_flow_costs h;
     traffic_flow_routes := traffic_flow_routes h;
     traffic_flow_routes_backup := v;
     link_congestion_costs := link_congestion_costs h;
     proposed_link_congestion_costs := proposed_link_congestion_costs h;
     link_bandwidth_usages := link_bandwidth_usages h;
     affected_traffic_flows := affected_traffic_flows h;
     affected_noc_links := affected_noc_links h |}.

Definition set_link_congestion_costs v h : NocCostHandler R :=
  {| traffic_flow_costs := traffic_flow_costs h;
     proposed_traffic_flow_costs := proposed_traffic_flow_costs h;
     traffic_flow_routes := traffic_flow_routes h;
     traffic_flow_routes_backup := traffic_flow_routes_backup h;
     link_congestion_costs := v;
     proposed_link_congestion_costs := proposed_link_congestion_costs h;
     link_bandwidth_usages := link_bandwidth_usages h;
     affected_traffic_flows := affected_traffic_flows h;
     affected_noc_links := affected_noc_links h |}.

Definition set_proposed_link_congestion_costs v h : NocCostHandler R :=
  {| traffic_flow_costs := traffic_flow_costs h;
     proposed_traffic_flow_costs := proposed_traffic_flow_costs h;
     traffic_flow_routes := traffic_flow_routes h;
     traffic_flow_routes_backup := traffic_flow_routes_backup h;
     link_congestion_costs := link_congestion_costs h;
     proposed_link_congestion_costs := v;
     link_bandwidth_usages := link_bandwidth_usages h;
     affected_traffic_flows := affected_traffic_flows h;
     affected_noc_links := affected_noc_links h |}.

Definition set_link_bandwidth_usages v h : NocCostHandler R :=
  {| traffic_flow_costs := traffic_flow_costs h;
     proposed_traffic_flow_costs := proposed_traffic_flow_costs h;
     traffic_flow_routes := traffic_flow_routes h;
     traffic_flow_routes_backup := traffic_flow_routes_backup h;
     link_congestion_costs := link_congestion_costs h;
     proposed_link_congestion_costs := proposed_link_congestion_costs h;
     link_bandwidth_usages := v;
     affected_traffic_flows := affected_traffic_flows h;
     affected_noc_links := affected_noc_links h |}.

Definition set_affected_traffic_flows v h : NocCostHandler R :=
  {| traffic_flow_costs := traffic_flow_costs h;
     proposed_traffic_flow_costs := proposed_traffic_flow_costs h;
     traffic_flow_routes := traffic_flow_routes h;
     traffic_flow_routes_backup := traffic_flow_routes_backup h;
     link_congestion_costs := link_congestion_costs h;
     proposed_link_congestion_costs := proposed_link_congestion_costs h;
     link_bandwidth_usages := link_bandwidth_usages h;
     affected_traffic_flows := v;
     affected_noc_links := affected_noc_links h |}.

Definition set_affected_noc_links v h : NocCostHandler R :=
  {| traffic_flow_costs := traffic_flow_costs h;
     proposed_traffic_flow_costs := proposed_traffic_flow_costs h;
     traffic_flow_routes := traffic_flow_routes h;
     traffic_flow_routes_backup := traffic_flow_routes_backup h;
     link_congestion_costs := link_congestion_costs h;
     proposed_link_congestion_costs := proposed_link_congestion_costs h;
     link_bandwidth_usages := link_bandwidth_usages h;
     affected_traffic_flows := affected_traffic_flows h;
     affected_noc_links := v |}.
End Setters.

(** ** Sorted set difference, as [std::set_difference] on sorted ranges *)

Fixpoint set_difference (a : list NocLinkId) : list NocLinkId → list NocLinkId :=
  match a with
  | [] => λ _, []
  | x :: a' =>
      fix scan (b : list NocLinkId) : list NocLinkId :=
        match b with
        | [] => x :: a'
        | y :: b' =>
            if x <? y then x :: set_difference a' b
            else if y <? x then scan b'
            else set_difference a' b'
        end
  end.

(** [find_affected_links_by_flow_reroute]: links that appear in only one of
    the two routes. *)
Definition find_affected_links_by_flow_reroute
    (prev_links curr_links : list NocLinkId) : list NocLinkId :=
  let prev_links := merge_sort Nat.le prev_links in
  let curr_links := merge_sort Nat.le curr_links in
  set_difference prev_links curr_links ++ set_difference curr_links prev_links.

Record t_pl_moved_block := {
  block_num : ClusterBlockId;
  old_loc : t_pl_loc;
  new_loc : t_pl_loc
}.

(** ** The cost handler *)

Section Handler.
Context `{Scalar R}.

(** The sentinel of uninitialised and not-proposed cost slots; its value
    is declared in the header. *)
Variable INVALID_NOC_COST_TERM : R.

(** The NoC context: the model and the traffic-flow storage. *)
Variable noc_model : NocStorage R.
Variable noc_traffic_flows_storage : NocTrafficFlows R.

(** The routing collaborator [NocRouting]: [route_flow] receives the two
    physical routers, the flow, the current contents of the route slot it
    overwrites and the model; it may keep state of its own. *)
Variable RoutingState : Type.
Variable route_flow :
  RoutingState → NocRouterId → NocRouterId → NocTrafficFlowId →
  list NocLinkId → NocStorage R → list NocLinkId * RoutingState.

Implicit Type h : NocCostHandler R.
Implicit Type block_locs : list t_block_loc.

Definition invalid_traffic_flow_cost : TrafficFlowPlaceCost R :=
  {| flow_aggregate_bandwidth := INVALID_NOC_COST_TERM;
     flow_latency := INVALID_NOC_COST_TERM;
     flow_latency_overrun := INVALID_NOC_COST_TERM |}.

(** The constructor: every table sized from the model and the storage. *)
Definition NocCostHandler_new : NocCostHandler R :=
  let number_of_traffic_flows := get_number_of_traffic_flows noc_traffic_flows_storage in
  let number_of_noc_links := length (link_storage noc_model) in
  {| traffic_flow_costs := replicate number_of_traffic_flows invalid_traffic_flow_cost;
     proposed_traffic_flow_costs := replicate number_of_traffic_flows invalid_traffic_flow_cost;
     traffic_flow_routes := replicate number_of_traffic_flows [];
     traffic_flow_routes_backup := replicate number_of_traffic_flows [];
     link_congestion_costs := replicate number_of_noc_links INVALID_NOC_COST_TERM;
     proposed_link_congestion_costs := replicate number_of_noc_links INVALID_NOC_COST_TERM;
     link_bandwidth_usages := replicate number_of_noc_links s_zero;
     affected_traffic_flows := [];
     affected_noc_links := ∅ |}.

(** One iteration of the loop of [update_traffic_flow_link_usage]. *)
Definition update_link_usage (inc_or_dec : Z) (traffic_flow_bandwidth : R)
    (usages : list R) (link_in_route_id : NocLinkId) : option (list R) :=
  curr_link_bandwidth_usage ← usages !! link_in_route_id;
  vec_write usages link_in_route_id
    (s_add curr_link_bandwidth_usage (s_mul (s_of_int inc_or_dec) traffic_flow_bandwidth)).

Definition update_traffic_flow_link_usage (traffic_flow_route : list NocLinkId)
    (inc_or_dec : Z) (traffic_flow_bandwidth : R) h : option (NocCostHandler R) :=
  usages ← foldM (update_link_usage inc_or_dec traffic_flow_bandwidth)
                 (link_bandwidth_usages h) traffic_flow_route;
  Some (set_link_bandwidth_usages usages h).

(** [route_traffic_flow]: the collaborator writes the new route into the
    committed-route slot of the flow; the route is also returned. *)
Definition route_traffic_flow (traffic_flow_id : NocTrafficFlowId) block_locs
    h (rs : RoutingState) : option (list NocLinkId * NocCostHandler R * RoutingState) :=
  curr_traffic_flow ← get_single_noc_traffic_flow noc_traffic_flows_storage traffic_flow_id;
  source_loc ← block_locs !! source_router_cluster_id curr_traffic_flow;
  sink_loc ← block_locs !! sink_router_cluster_id curr_traffic_flow;
  source_router_block_id ← get_router_at_grid_location noc_model (loc source_loc);
  sink_router_block_id ← get_router_at_grid_location noc_model (loc sink_loc);
  curr_traffic_flow_route ← traffic_flow_routes h !! traffic_flow_id;
  let '(new_route, rs') :=
    route_flow rs source_router_block_id sink_router_block_id traffic_flow_id
               curr_traffic_flow_route noc_model in
  routes ← vec_write (traffic_flow_routes h) traffic_flow_id new_route;
  Some (new_route, set_traffic_flow_routes routes h, rs').

(** [std::swap(traffic_flow_routes[f], traffic_flow_routes_backup[f])]. *)
Definition swap_route_with_backup (traffic_flow_id : NocTrafficFlowId) h
    : option (NocCostHandler R) :=
  route ← traffic_flow_routes h !! traffic_flow_id;
  backup ← traffic_flow_routes_backup h !! traffic_flow_id;
  routes ← vec_write (traffic_flow_routes h) traffic_flow_id backup;
  backups ← vec_write (traffic_flow_routes_backup h) traffic_flow_id route;
  Some (set_traffic_flow_routes_backup backups (set_traffic_flow_routes routes h)).

Definition re_route_traffic_flow (traffic_flow_id : NocTrafficFlowId) block_locs
    h (rs : RoutingState) : option (NocCostHandler R * RoutingState) :=
  curr_traffic_flow ← get_single_noc_traffic_flow noc_traffic_flows_storage traffic_flow_id;
  curr_traffic_flow_route ← traffic_flow_routes h !! traffic_flow_id;
  h ← update_traffic_flow_link_usage curr_traffic_flow_route (-1)
         (traffic_flow_bandwidth curr_traffic_flow) h;
  h ← swap_route_with_backup traffic_flow_id h;
  '(re_routed_traffic_flow_route, h, rs) ← route_traffic_flow traffic_flow_id block_locs h rs;
  h ← update_traffic_flow_link_usage re_routed_traffic_flow_route 1
         (traffic_flow_bandwidth curr_traffic_flow) h;
  Some (h, rs).

(** The loop body of [re_route_associated_traffic_flows]; the state of the
    loop is the handler, the collaborator and the set of flows already
    re-routed in this transaction. *)
Definition re_route_associated_traffic_flow block_locs
    (st : NocCostHandler R * RoutingState * gset NocTrafficFlowId)
    (traffic_flow_id : NocTrafficFlowId)
    : option (NocCostHandler R * RoutingState * gset NocTrafficFlowId) :=
  let '(h, rs, updated_traffic_flows) := st in
  if decide (traffic_flow_id ∈ updated_traffic_flows) then Some st
  else
    prev_traffic_flow_links ← traffic_flow_routes h !! traffic_flow_id;
    '(h, rs) ← re_route_traffic_flow traffic_flow_id block_locs h rs;
    let updated_traffic_flows := {[traffic_flow_id]} ∪ updated_traffic_flows in
    curr_traffic_flow_links ← traffic_flow_routes h !! traffic_flow_id;
    let unique_links :=
      find_affected_links_by_flow_reroute prev_traffic_flow_links curr_traffic_flow_links in
    let h := set_affected_noc_links (affected_noc_links h ∪ list_to_set unique_links) h in
    let h := set_affected_traffic_flows (affected_traffic_flows h ++ [traffic_flow_id]) h in
    Some (h, rs, updated_traffic_flows).

Definition re_route_associated_traffic_flows (moved_block_router_id : ClusterBlockId)
    block_locs (st : NocCostHandler R * RoutingState * gset NocTrafficFlowId)
    : option (NocCostHandler R * RoutingState * gset NocTrafficFlowId) :=
  let assoc_traffic_flows :=
    get_traffic_flows_associated_to_router_block noc_traffic_flows_storage
      moved_block_router_id in
  foldM (re_route_associated_traffic_flow block_locs) st assoc_traffic_flows.

Definition get_link_congestion_cost (link : NocLink R) h : option R :=
  let bandwidth := link_bandwidth link in
  bandwidth_usage ← link_bandwidth_usages h !! link_id link;
  let congested_bandwidth := std_max (s_sub bandwidth_usage bandwidth) s_zero in
  Some (s_div congested_bandwidth bandwidth).

(** *** Delta evaluation *)

(** The first loop of [find_affected_noc_routers_and_update_noc_costs]:
    only moved blocks that are NoC routers are processed. *)
Definition re_route_moved_block block_locs
    (st : NocCostHandler R * RoutingState * gset NocTrafficFlowId)
    (block : t_pl_moved_block)
    : option (NocCostHandler R * RoutingState * gset NocTrafficFlowId) :=
  let blk := block_num block in
  if check_if_cluster_block_has_traffic_flows noc_traffic_flows_storage blk
  then re_route_associated_traffic_flows blk block_locs st
  else Some st.

(** The second loop: the proposed cost of every affected flow and its
    difference to the committed cost. *)
Definition propose_traffic_flow_cost (st : NocCostHandler R * NocCostTerms R)
    (traffic_flow_id : NocTrafficFlowId) : option (NocCostHandler R * NocCostTerms R) :=
  let '(h, delta_c) := st in
  traffic_flow_route ← traffic_flow_routes h !! traffic_flow_id;
  curr_traffic_flow ← get_single_noc_traffic_flow noc_traffic_flows_storage traffic_flow_id;
  let proposed_aggregate_bandwidth :=
    calculate_traffic_flow_aggregate_bandwidth_cost traffic_flow_route curr_traffic_flow in
  '(proposed_latency, proposed_latency_overrun) ←
    calculate_traffic_flow_latency_cost traffic_flow_route noc_model curr_traffic_flow;
  proposed ← vec_write (proposed_traffic_flow_costs h) traffic_flow_id
    {| flow_aggregate_bandwidth := proposed_aggregate_bandwidth;
       flow_latency := proposed_latency;
       flow_latency_overrun := proposed_latency_overrun |};
  committed ← traffic_flow_costs h !! traffic_flow_id;
  Some (set_proposed_traffic_flow_costs proposed h,
        {| aggregate_bandwidth :=
             s_add (aggregate_bandwidth delta_c)
                   (s_sub proposed_aggregate_bandwidth (flow_aggregate_bandwidth committed));
           latency :=
             s_add (latency delta_c) (s_sub proposed_latency (flow_latency committed));
           latency_overrun :=
             s_add (latency_overrun delta_c)
                   (s_sub proposed_latency_overrun (flow_latency_overrun committed));
           congestion := congestion delta_c |}).

(** The third loop: the proposed congestion of every affected link. *)
Definition propose_link_congestion_cost (st : NocCostHandler R * NocCostTerms R)
    (link : NocLink R) : option (NocCostHandler R * NocCostTerms R) :=
  let '(h, delta_c) := st in
  cost ← get_link_congestion_cost link h;
  proposed ← vec_write (proposed_link_congestion_costs h) (link_id link) cost;
  committed ← link_congestion_costs h !! link_id link;
  Some (set_proposed_link_congestion_costs proposed h,
        {| aggregate_bandwidth := aggregate_bandwidth delta_c;
           latency := latency delta_c;
           latency_overrun := latency_overrun delta_c;
           congestion := s_add (congestion delta_c) (s_sub cost committed) |}).

Definition find_affected_noc_routers_and_update_noc_costs
    (moved_blocks : list t_pl_moved_block) (delta_c : NocCostTerms R) block_locs
    h (rs : RoutingState) : option (NocCostHandler R * NocCostTerms R * RoutingState) :=
  let updated_traffic_flows : gset NocTrafficFlowId := ∅ in
  let h := set_affected_traffic_flows [] h in
  let h := set_affected_noc_links ∅ h in
  '(h, rs, _) ← foldM (re_route_moved_block block_locs) (h, rs, updated_traffic_flows)
                      moved_blocks;
  '(h, delta_c) ← foldM propose_traffic_flow_cost (h, delta_c) (affected_traffic_flows h);
  links ← get_noc_links noc_model (elements (affected_noc_links h));
  '(h, delta_c) ← foldM propose_link_congestion_cost (h, delta_c) links;
  Some (h, delta_c, rs).

(** *** Commit *)

Definition commit_traffic_flow_cost h (traffic_flow_id : NocTrafficFlowId)
    : option (NocCostHandler R) :=
  proposed ← proposed_traffic_flow_costs h !! traffic_flow_id;
  committed_costs ← vec_write (traffic_flow_costs h) traffic_flow_id proposed;
  proposed_costs ← vec_write (proposed_traffic_flow_costs h) traffic_flow_id
                     invalid_traffic_flow_cost;
  Some (set_proposed_traffic_flow_costs proposed_costs
          (set_traffic_flow_costs committed_costs h)).

Definition commit_link_congestion_cost h (link : NocLink R) : option (NocCostHandler R) :=
  proposed ← proposed_link_congestion_costs h !! link_id link;
  committed_costs ← vec_write (link_congestion_costs h) (link_id link) proposed;
  proposed_costs ← vec_write (proposed_link_congestion_costs h) (link_id link)
                     INVALID_NOC_COST_TERM;
  Some (set_proposed_link_congestion_costs proposed_costs
          (set_link_congestion_costs committed_costs h)).

Definition commit_noc_costs h : option (NocCostHandler R) :=
  h ← foldM commit_traffic_flow_cost h (affected_traffic_flows h);
  links ← get_noc_links noc_model (elements (affected_noc_links h));
  foldM commit_link_congestion_cost h links.

(** *** Revert *)

Definition revert_traffic_flow_route (st : NocCostHandler R * gset NocTrafficFlowId)
    (traffic_flow_id : NocTrafficFlowId)
    : option (NocCostHandler R * gset NocTrafficFlowId) :=
  let '(h, reverted_traffic_flows) := st in
  if decide (traffic_flow_id ∈ reverted_traffic_flows) then Some st
  else
    traffic_flow ← get_single_noc_traffic_flow noc_traffic_flows_storage traffic_flow_id;
    route ← traffic_flow_routes h !! traffic_flow_id;
    h ← update_traffic_flow_link_usage route (-1) (traffic_flow_bandwidth traffic_flow) h;
    backup ← traffic_flow_routes_backup h !! traffic_flow_id;
    h ← update_traffic_flow_link_usage backup 1 (traffic_flow_bandwidth traffic_flow) h;
    h ← swap_route_with_backup traffic_flow_id h;
    Some (h, {[traffic_flow_id]} ∪ reverted_traffic_flows).

Definition revert_moved_block (st : NocCostHandler R * gset NocTrafficFlowId)
    (block : t_pl_moved_block) : option (NocCostHandler R * gset NocTrafficFlowId) :=
  let blk := block_num block in
  if check_if_cluster_block_has_traffic_flows noc_traffic_flows_storage blk
  then
    let assoc_traffic_flows :=
      get_traffic_flows_associated_to_router_block noc_traffic_flows_storage blk in
    foldM revert_traffic_flow_route st assoc_traffic_flows
  else Some st.

Definition revert_noc_traffic_flow_routes (moved_blocks : list t_pl_moved_block) h
    : option (NocCostHandler R) :=
  let reverted_traffic_flows : gset NocTrafficFlowId := ∅ in
  '(h, _) ← foldM revert_moved_block (h, reverted_traffic_flows) moved_blocks;
  Some h.

(** *** Initial routing *)

(** The loop body of [initial_noc_routing]: route the flow when no routes
    are provided, otherwise adopt the provided one; then add the flow's
    bandwidth along the route. *)
Definition initial_route_traffic_flow (new_traffic_flow_routes : list (list NocLinkId))
    block_locs (st : NocCostHandler R * RoutingState) (traffic_flow_id : NocTrafficFlowId)
    : option (NocCostHandler R * RoutingState) :=
  let '(h, rs) := st in
  curr_traffic_flow ← get_single_noc_traffic_flow noc_traffic_flows_storage traffic_flow_id;
  '(curr_traffic_flow_route, h, rs) ←
    match new_traffic_flow_routes with
    | [] => route_traffic_flow traffic_flow_id block_locs h rs
    | _ :: _ =>
        provided ← new_traffic_flow_routes !! traffic_flow_id;
        routes ← vec_write (traffic_flow_routes h) traffic_flow_id provided;
        Some (provided, set_traffic_flow_routes routes h, rs)
    end;
  h ← update_traffic_flow_link_usage curr_traffic_flow_route 1
         (traffic_flow_bandwidth curr_traffic_flow) h;
  Some (h, rs).

Definition initial_noc_routing (new_traffic_flow_routes : list (list NocLinkId))
    block_locs h (rs : RoutingState) : option (NocCostHandler R * RoutingState) :=
  if decide (length new_traffic_flow_routes
               = get_number_of_traffic_flows noc_traffic_flows_storage
             ∨ new_traffic_flow_routes = [])
  then foldM (initial_route_traffic_flow new_traffic_flow_routes block_locs) (h, rs)
             (get_all_traffic_flow_id noc_traffic_flows_storage)
  else None.

Definition comp_traffic_flow_aggregate_bandwidth_cost (st : NocCostHandler R * R)
    (traffic_flow_id : NocTrafficFlowId) : option (NocCostHandler R * R) :=
  let '(h, noc_aggregate_bandwidth_cost) := st in
  curr_traffic_flow ← get_single_noc_traffic_flow noc_traffic_flows_storage traffic_flow_id;
  curr_traffic_flow_route ← traffic_flow_routes h !! traffic_flow_id;
  let cost :=
    calculate_traffic_flow_aggregate_bandwidth_cost curr_traffic_flow_route curr_traffic_flow in
  slot ← traffic_flow_costs h !! traffic_flow_id;
  costs ← vec_write (traffic_flow_costs h) traffic_flow_id
    {| flow_aggregate_bandwidth := cost;
       flow_latency := flow_latency slot;
       flow_latency_overrun := flow_latency_overrun slot |};
  Some (set_traffic_flow_costs costs h, s_add noc_aggregate_bandwidth_cost cost).

Definition comp_noc_aggregate_bandwidth_cost h : option (NocCostHandler R * R) :=
  foldM comp_traffic_flow_aggregate_bandwidth_cost (h, s_zero)
        (get_all_traffic_flow_id noc_traffic_flows_storage).

Definition comp_traffic_flow_latency_cost (st : NocCostHandler R * (R * R))
    (traffic_flow_id : NocTrafficFlowId) : option (NocCostHandler R * (R * R)) :=
  let '(h, (latency_cost, latency_overrun_cost)) := st in
  curr_traffic_flow ← get_single_noc_traffic_flow noc_traffic_flows_storage traffic_flow_id;
  curr_traffic_flow_route ← traffic_flow_routes h !! traffic_flow_id;
  '(curr_traffic_flow_latency, curr_traffic_flow_latency_overrun) ←
    calculate_traffic_flow_latency_cost curr_traffic_flow_route noc_model curr_traffic_flow;
  slot ← traffic_flow_costs h !! traffic_flow_id;
  costs ← vec_write (traffic_flow_costs h) traffic_flow_id
    {| flow_aggregate_bandwidth := flow_aggregate_bandwidth slot;
       flow_latency := curr_traffic_flow_latency;
       flow_latency_overrun := curr_traffic_flow_latency_overrun |};
  Some (set_traffic_flow_costs costs h,
        (s_add latency_cost curr_traffic_flow_latency,
         s_add latency_overrun_cost curr_traffic_flow_latency_overrun)).

Definition comp_noc_latency_cost h : option (NocCostHandler R * (R * R)) :=
  foldM comp_traffic_flow_latency_cost (h, (s_zero, s_zero))
        (get_all_traffic_flow_id noc_traffic_flows_storage).

Definition comp_link_congestion_cost (st : NocCostHandler R * R) (link : NocLink R)
    : option (NocCostHandler R * R) :=
  let '(h, congestion_cost) := st in
  link_congestion_cost ← get_link_congestion_cost link h;
  costs ← vec_write (link_congestion_costs h) (link_id link) link_congestion_cost;
  Some (set_link_congestion_costs costs h, s_add congestion_cost link_congestion_cost).

Definition comp_noc_congestion_cost h : option (NocCostHandler R * R) :=
  foldM comp_link_congestion_cost (h, s_zero) (link_storage noc_model).

Definition reinitialize_noc_routing (costs : t_placer_costs R)
    (new_traffic_flow_routes : list (list NocLinkId)) block_locs h (rs : RoutingState)
    : option (NocCostHandler R * t_placer_costs R * RoutingState) :=
  if decide (get_number_of_traffic_flows noc_traffic_flows_storage
               = length new_traffic_flow_routes
             ∨ new_traffic_flow_routes = [])
  then
    let h := set_link_bandwidth_usages
               (replicate (length (link_bandwidth_usages h)) s_zero) h in
    '(h, rs) ← initial_noc_routing new_traffic_flow_routes block_locs h rs;
    '(h, aggregate_bandwidth_cost) ← comp_noc_aggregate_bandwidth_cost h;
    '(h, (latency_cost, latency_overrun_cost)) ← comp_noc_latency_cost h;
    '(h, congestion_cost) ← comp_noc_congestion_cost h;
    Some (h,
          {| noc_cost_terms :=
               {| aggregate_bandwidth := aggregate_bandwidth_cost;
                  latency := latency_cost;
                  latency_overrun := latency_overrun_cost;
                  congestion := congestion_cost |};
             noc_cost_norm_factors := noc_cost_norm_factors costs |},
          rs)
  else None.

(** *** Normalisation factors *)

Variable MAX_INV_NOC_AGGREGATE_BANDWIDTH_COST : R.
Variable MAX_INV_NOC_LATENCY_COST : R.
Variable MAX_INV_NOC_CONGESTION_COST : R.

Definition update_noc_normalization_factors (costs : t_placer_costs R) : t_placer_costs R :=
  let terms := noc_cost_terms costs in
  {| noc_cost_terms := terms;
     noc_cost_norm_factors :=
       {| aggregate_bandwidth :=
            std_min (s_div (s_of_int 1) (aggregate_bandwidth terms))
                    MAX_INV_NOC_AGGREGATE_BANDWIDTH_COST;
          latency :=
            std_min (s_div (s_of_int 1) (latency terms)) MAX_INV_NOC_LATENCY_COST;
          latency_overrun :=
            if s_ltb s_zero (latency_overrun terms)
            then std_min (s_div (s_of_int 1) (latency_overrun terms)) MAX_INV_NOC_LATENCY_COST
            else MAX_INV_NOC_LATENCY_COST;
          congestion :=
            if s_ltb s_zero (congestion terms)
            then std_min (s_div (s_of_int 1) (congestion terms)) MAX_INV_NOC_CONGESTION_COST
            else MAX_INV_NOC_CONGESTION_COST |} |}.
End Handler.

Arguments route_traffic_flow {R} noc_model noc_traffic_flows_storage {RoutingState}.
Arguments re_route_traffic_flow {R _} noc_model noc_traffic_flows_storage {RoutingState}.
Arguments re_route_associated_traffic_flow {R _} noc_model noc_traffic_flows_storage {RoutingState}.
Arguments re_route_associated_traffic_flows {R _} noc_model noc_traffic_flows_storage {RoutingState}.
Arguments re_route_moved_block {R _} noc_model noc_traffic_flows_storage {RoutingState}.
Arguments find_affected_noc_routers_and_update_noc_costs {R _} noc_model
  noc_traffic_flows_storage {RoutingState}.
Arguments initial_route_traffic_flow {R _} noc_model noc_traffic_flows_storage {RoutingState}.
Arguments initial_noc_routing {R _} noc_model noc_traffic_flows_storage {RoutingState}.
Arguments reinitialize_noc_routing {R _} noc_model noc_traffic_flows_storage {RoutingState}.

(** ** The router-swap proposer *)

Inductive e_create_move := VALID | ABORT.

Section Proposer.
Context {R : Type}.

(** Collaborators of the generic placer, known here only through their
    signatures: the random number generator, the clustered netlist, the
    device grid, the block-location registry, the move constructor and the
    floorplan check. *)
Variable RngContainer : Type.
Variable irand : RngContainer → Z → Z * RngContainer.

Variable t_logical_block_type : Type.
Variable t_physical_tile_type : Type.
Variable block_type : ClusterBlockId → t_logical_block_type.
Variable get_physical_type : Z → Z → Z → t_physical_tile_type.
Variable is_tile_compatible : t_physical_tile_type → t_logical_block_type → bool.

Variable BlkLocRegistry : Type.
Variable block_locs : BlkLocRegistry → list t_block_loc.
Variable PlaceMacros : Type.
Variable t_pl_blocks_to_be_moved : Type.
Variable rlim_t : Type.

Variable find_to_loc_uniform :
  t_logical_block_type → rlim_t → t_pl_loc → t_pl_loc → ClusterBlockId →
  BlkLocRegistry → RngContainer → bool * t_pl_loc * RngContainer.
Variable create_move :
  t_pl_blocks_to_be_moved → ClusterBlockId → t_pl_loc → BlkLocRegistry → PlaceMacros →
  e_create_move * t_pl_blocks_to_be_moved.
Variable floorplan_legal : t_pl_blocks_to_be_moved → bool.

(** The default-constructed [t_pl_loc]. *)
Variable t_pl_loc_default : t_pl_loc.

Variable noc_traffic_flows_storage : NocTrafficFlows R.

(** [router_clusters[i]] for an [int] index. *)
Definition vec_at_int {A} (v : list A) (i : Z) : option A :=
  if (i <? 0)%Z then None else v !! Z.to_nat i.

(** [select_random_router_cluster]: the result [Some (b_from, from,
    cluster_from_type)] is the return value [true] with the three output
    parameters; [None] is the return value [false]. *)
Definition select_random_router_cluster (locs : list t_block_loc) (rng : RngContainer)
    : option (option (ClusterBlockId * t_pl_loc * t_logical_block_type) * RngContainer) :=
  let router_clusters := get_router_clusters_in_netlist noc_traffic_flows_storage in
  match router_clusters with
  | [] => Some (None, rng)
  | _ :: _ =>
      let number_of_router_blocks := Z.of_nat (length router_clusters) in
      let '(random_cluster_block_index, rng) := irand rng (number_of_router_blocks - 1) in
      b_from ← vec_at_int router_clusters random_cluster_block_index;
      b_from_loc ← locs !! b_from;
      if is_fixed b_from_loc then Some (None, rng)
      else
        let from := loc b_from_loc in
        let cluster_from_type := block_type b_from in
        let grid_from_type := get_physical_type (loc_x from) (loc_y from) (loc_layer from) in
        if is_tile_compatible grid_from_type cluster_from_type
        then Some (Some (b_from, from, cluster_from_type), rng)
        else None
  end.

Definition propose_router_swap (blocks_affected : t_pl_blocks_to_be_moved) (rlim : rlim_t)
    (blk_loc_registry : BlkLocRegistry) (place_macros : PlaceMacros) (rng : RngContainer)
    : option (e_create_move * t_pl_blocks_to_be_moved * RngContainer) :=
  '(random_select, rng) ← select_random_router_cluster (block_locs blk_loc_registry) rng;
  match random_select with
  | None => Some (ABORT, blocks_affected, rng)
  | Some (b_from, from, cluster_from_type) =>
      let to := {| loc_x := loc_x t_pl_loc_default;
                   loc_y := loc_y t_pl_loc_default;
                   loc_sub_tile := loc_sub_tile t_pl_loc_default;
                   loc_layer := loc_layer from |} in
      let '(found, to, rng) :=
        find_to_loc_uniform cluster_from_type rlim from to b_from blk_loc_registry rng in
      if negb found then Some (ABORT, blocks_affected, rng)
      else
        let '(create_move, blocks_affected) :=
          create_move blocks_affected b_from to blk_loc_registry place_macros in
        if negb (floorplan_legal blocks_affected) then Some (ABORT, blocks_affected, rng)
        else Some (create_move, blocks_affected, rng)
  end.
End Proposer.

(** ** Well-formedness of the inputs *)

Section WellFormed.
Context {R : Type}.

(** The link with this id exists and both its end routers exist. *)
Definition link_in_model (m : NocStorage R) (id : NocLinkId) : bool :=
  match get_single_noc_link m id with
  | Some link =>
      bool_decide (source_router link < length (router_storage m))
      && bool_decide (sink_router link < length (router_storage m))
  | None => false
  end.

Definition route_in_model (m : NocStorage R) (route : list NocLinkId) : bool :=
  forallb (link_in_model m) route.

(** Link ids are the positions of the links in the link storage. *)
Definition link_ids_dense (m : NocStorage R) : Prop :=
  link_id <$> link_storage m = seq 0 (length (link_storage m)).
End WellFormed.

(** The sum of a sequence of scalars, accumulated from left to right
    starting at zero. *)
Definition sum_of `{Scalar R} (xs : list R) : R := fold_left s_add xs s_zero.

(** The latency of a route before it is weighted by the priority. *)
Definition traffic_flow_latency `{Scalar R} (noc_model : NocStorage R)
    (traffic_flow_route : list NocLinkId) : option R :=
  link_component ← noc_link_latency_component noc_model traffic_flow_route;
  router_component ← noc_router_latency_component noc_model traffic_flow_route;
  Some (s_add router_component link_component).

(** ** Reference functions used to state the effect of the handler *)

Section Reference.
Context `{Scalar R}.

(** Add [d] to the usage of one link; a link outside the table is left
    alone (the handler itself is undefined there). *)
Definition add_to_link (d : R) (usages : list R) (link : NocLinkId) : list R :=
  match usages !! link with
  | Some x => <[link := s_add x d]> usages
  | None => usages
  end.

(** Add [d] to the usage of every link of a route, once per occurrence. *)
Definition add_along_route (route : list NocLinkId) (d : R) (usages : list R) : list R :=
  fold_left (add_to_link d) route usages.

(** The weight [inc_or_dec * traffic_flow_bandwidth] of a usage update. *)
Definition usage_weight (inc_or_dec : Z) (traffic_flow_bandwidth : R) : R :=
  s_mul (s_of_int inc_or_dec) traffic_flow_bandwidth.

(** Arithmetic is exact for usage updates: additions can be reordered and
    removing a bandwidth cancels adding it.  This holds for exact numbers
    and fails for binary64. *)
Definition exact_usage_arithmetic : Prop :=
  (∀ x a b : R, s_add (s_add x a) b = s_add (s_add x b) a)
  ∧ (∀ x b : R, s_add (s_add x (usage_weight (-1) b)) (usage_weight 1 b) = x)
  ∧ (∀ x b : R, s_add (s_add x (usage_weight 1 b)) (usage_weight (-1) b) = x).
End Reference.

Section Views.
Context `{Scalar R}.
Implicit Type h : NocCostHandler R.

(** The committed route, the backup route and the bandwidth of a flow
    (empty, respectively zero, for an id that is out of range). *)
Definition route_of h (f : NocTrafficFlowId) : list NocLinkId :=
  default [] (traffic_flow_routes h !! f).
Definition backup_of h (f : NocTrafficFlowId) : list NocLinkId :=
  default [] (traffic_flow_routes_backup h !! f).
Definition bandwidth_of (st : NocTrafficFlows R) (f : NocTrafficFlowId) : R :=
  default s_zero (traffic_flow_bandwidth <$> get_single_noc_traffic_flow st f).

(** Moving the bandwidth [bw] from the route [from] to the route [to]:
    first removed along [from], then added along [to]. *)
Definition move_bandwidth (from to : list NocLinkId) (bw : R) (usages : list R) : list R :=
  add_along_route to (usage_weight 1 bw) (add_along_route from (usage_weight (-1) bw) usages).

(** The four cost caches, the routing tables and the scratch containers
    of two handler states agree. *)
Definition same_cost_caches h h' : Prop :=
  traffic_flow_costs h' = traffic_flow_costs h
  ∧ proposed_traffic_flow_costs h' = proposed_traffic_flow_costs h
  ∧ link_congestion_costs h' = link_congestion_costs h
  ∧ proposed_link_congestion_costs h' = proposed_link_congestion_costs h.

Definition same_routing h h' : Prop :=
  traffic_flow_routes h' = traffic_flow_routes h
  ∧ traffic_flow_routes_backup h' = traffic_flow_routes_backup h
  ∧ link_bandwidth_usages h' = link_bandwidth_usages h.

Definition same_scratch h h' : Prop :=
  affected_traffic_flows h' = affected_traffic_flows h
  ∧ affected_noc_links h' = affected_noc_links h.

(** The sizes of the routing tables agree. *)
Definition same_routing_sizes h h' : Prop :=
  length (traffic_flow_routes h') = length (traffic_flow_routes h)
  ∧ length (traffic_flow_routes_backup h') = length (traffic_flow_routes_backup h)
  ∧ length (link_bandwidth_usages h') = length (link_bandwidth_usages h).

(** The committed cost of a flow and the committed congestion of a link
    (zero for an id that is out of range). *)
Definition flow_cost_of h (f : NocTrafficFlowId) : TrafficFlowPlaceCost R :=
  default {| flow_aggregate_bandwidth := s_zero; flow_latency := s_zero;
             flow_latency_overrun := s_zero |}
          (traffic_flow_costs h !! f).
Definition link_congestion_of h (l : NocLinkId) : R :=
  default s_zero (link_congestion_costs h !! l).

(** Only the committed per-flow costs differ, and their table keeps its
    size. *)
Definition flow_costs_only h h' : Prop :=
  same_routing h h' ∧ same_scratch h h'
  ∧ proposed_traffic_flow_costs h' = proposed_traffic_flow_costs h
  ∧ link_congestion_costs h' = link_congestion_costs h
  ∧ proposed_link_congestion_costs h' = proposed_link_congestion_costs h
  ∧ length (traffic_flow_costs h') = length (traffic_flow_costs h).

(** Only the committed per-link congestion costs differ, and their table
    keeps its size. *)
Definition link_costs_only h h' : Prop :=
  same_routing h h' ∧ same_scratch h h'
  ∧ traffic_flow_costs h' = traffic_flow_costs h
  ∧ proposed_traffic_flow_costs h' = proposed_traffic_flow_costs h
  ∧ proposed_link_congestion_costs h' = proposed_link_congestion_costs h
  ∧ length (link_congestion_costs h') = length (link_congestion_costs h).

(** Only the proposed per-flow costs differ, and their table keeps its
    size. *)
Definition proposed_flow_costs_only h h' : Prop :=
  same_routing h h' ∧ same_scratch h h'
  ∧ traffic_flow_costs h' = traffic_flow_costs h
  ∧ link_congestion_costs h' = link_congestion_costs h
  ∧ proposed_link_congestion_costs h' = proposed_link_congestion_costs h
  ∧ length (proposed_traffic_flow_costs h') = length (proposed_traffic_flow_costs h).

(** Only the proposed per-link congestion costs differ, and their table
    keeps its size. *)
Definition proposed_link_costs_only h h' : Prop :=
  same_routing h h' ∧ same_scratch h h'
  ∧ traffic_flow_costs h' = traffic_flow_costs h
  ∧ proposed_traffic_flow_costs h' = proposed_traffic_flow_costs h
  ∧ link_congestion_costs h' = link_congestion_costs h
  ∧ length (proposed_link_congestion_costs h') = length (proposed_link_congestion_costs h).
End Views.

(** Committing one slot of a pair of tables (committed, proposed): the
    proposed entry is copied into the committed table and replaced by the
    sentinel.  Both commit loops of the handler are instances. *)
Definition commit_slot {A} (sentinel : A) (tables : list A * list A) (i : nat)
    : option (list A * list A) :=
  let '(committed, proposed) := tables in
  x ← proposed !! i;
  committed ← vec_write committed i x;
  proposed ← vec_write proposed i sentinel;
  Some (committed, proposed).

(** The routing collaborator instrumented with the log of the flows it was
    asked to route. *)
Definition logged_route_flow {R RoutingState}
    (route_flow : RoutingState → NocRouterId → NocRouterId → NocTrafficFlowId →
                  list NocLinkId → NocStorage R → list NocLinkId * RoutingState)
    (rs : RoutingState * list NocTrafficFlowId)
    (source_router_block_id sink_router_block_id : NocRouterId)
    (traffic_flow_id : NocTrafficFlowId) (out_route : list NocLinkId)
    (noc_model : NocStorage R)
    : list NocLinkId * (RoutingState * list NocTrafficFlowId) :=
  let '(route, rs') :=
    route_flow rs.1 source_router_block_id sink_router_block_id traffic_flow_id
               out_route noc_model in
  (route, (rs', rs.2 ++ [traffic_flow_id])).

(** The flows visited by the loops over the moved blocks, in order and with
    repetitions: the associated flows of every moved block that is a NoC
    router. *)
Definition candidate_traffic_flows {R} (st : NocTrafficFlows R)
    (moved_blocks : list t_pl_moved_block) : list NocTrafficFlowId :=
  mjoin ((λ block,
            if check_if_cluster_block_has_traffic_flows st (block_num block)
            then get_traffic_flows_associated_to_router_block st (block_num block)
            else []) <$> moved_blocks).

(** The flows of a list that are not in [seen], each kept at its first
    occurrence only. *)
Fixpoint first_occurrences (seen : gset NocTrafficFlowId) (fs : list NocTrafficFlowId)
    : list NocTrafficFlowId :=
  match fs with
  | [] => []
  | f :: fs' =>
      if decide (f ∈ seen) then first_occurrences seen fs'
      else f :: first_occurrences ({[f]} ∪ seen) fs'
  end.

(** ** A small NoC used to run the handler

    Four routers in a row at x = 0..3 and five links; three router clusters
    A, B, C (cluster ids 0, 1, 2) and three traffic flows A→B, C→B, A→B.
    Link capacity 10, link latency 2, router latency 1, priority 1 and
    maximum latency 10 for every flow. *)

Section Scenario.
Context `{Scalar R}.

Definition pl_loc_at (x : Z) : t_pl_loc :=
  {| loc_x := x; loc_y := 0; loc_sub_tile := 0; loc_layer := 0 |}.

Definition block_at (x : Z) : t_block_loc := {| loc := pl_loc_at x; is_fixed := false |}.

Definition scenario_link (id src snk : nat) : NocLink R :=
  {| link_id := id; source_router := src; sink_router := snk;
     link_bandwidth := s_of_int 10; link_latency := s_of_int 2 |}.

Definition scenario_model (detailed_link detailed_router : bool) : NocStorage R :=
  {| router_storage := replicate 4 {| router_latency := s_of_int 1 |};
     link_storage :=
       [scenario_link 0 1 2; scenario_link 1 0 1; scenario_link 2 3 2;
        scenario_link 3 1 0; scenario_link 4 2 1];
     noc_link_latency := s_of_int 2;
     noc_router_latency := s_of_int 1;
     detailed_link_latency := detailed_link;
     detailed_router_latency := detailed_router;
     grid_location_to_router_id :=
       λ l, if decide (0 ≤ loc_x l < 4)%Z then Some (Z.to_nat (loc_x l)) else None |}.

Definition scenario_flow (src snk : nat) (bw : R) : t_noc_traffic_flow R :=
  {| source_router_cluster_id := src; sink_router_cluster_id := snk;
     traffic_flow_bandwidth := bw; max_traffic_flow_latency := s_of_int 10;
     traffic_flow_priority := 1 |}.

Definition scenario_flows (bw0 bw1 bw2 : R) : NocTrafficFlows R :=
  {| list_of_noc_traffic_flows :=
       [scenario_flow 0 1 bw0; scenario_flow 2 1 bw1; scenario_flow 0 1 bw2];
     traffic_flows_associated_to_router_blocks := {[ 0 := [0; 2]; 1 := [0; 1; 2]; 2 := [1] ]};
     router_cluster_in_netlist := [0; 1; 2] |}.

(** A table-driven routing collaborator without state. *)
Definition scenario_route_flow (rs : unit) (src dst : NocRouterId) (f : NocTrafficFlowId)
    (out_route : list NocLinkId) (m : NocStorage R) : list NocLinkId * unit :=
  (match src, dst with
   | 1, 2 => [0]
   | 0, 2 => [1; 0]
   | 3, 2 => [2]
   | 1, 0 => [3]
   | 2, 0 => [4; 3]
   | _, _ => []
   end, tt).

Definition zero_cost_terms : NocCostTerms R :=
  {| aggregate_bandwidth := s_zero; latency := s_zero;
     latency_overrun := s_zero; congestion := s_zero |}.

Definition zero_placer_costs : t_placer_costs R :=
  {| noc_cost_terms := zero_cost_terms; noc_cost_norm_factors := zero_cost_terms |}.

(** A at router 1, B at router 2, C at router 0; then C moved to router 3;
    then instead B and C swapped. *)
Definition scenario_locs : list t_block_loc := [block_at 1; block_at 2; block_at 0].
Definition scenario_locs_C_moved : list t_block_loc := [block_at 1; block_at 2; block_at 3].
Definition scenario_locs_B_C_swapped : list t_block_loc := [block_at 1; block_at 0; block_at 2].

Definition move_C : list t_pl_moved_block :=
  [{| block_num := 2; old_loc := pl_loc_at 0; new_loc := pl_loc_at 3 |}].
Definition swap_B_C : list t_pl_moved_block :=
  [{| block_num := 2; old_loc := pl_loc_at 0; new_loc := pl_loc_at 2 |};
   {| block_num := 1; old_loc := pl_loc_at 2; new_loc := pl_loc_at 0 |}].

Definition scenario_new (bw0 bw1 bw2 : R) : NocCostHandler R :=
  NocCostHandler_new (s_of_int (-1)) (scenario_model false false) (scenario_flows bw0 bw1 bw2).

(** The handler after the initial routing of the three flows. *)
Definition scenario_routed (bw0 bw1 bw2 : R) : NocCostHandler R :=
  default (scenario_new bw0 bw1 bw2)
    ((λ r, r.1.1) <$>
     reinitialize_noc_routing (scenario_model false false) (scenario_flows bw0 bw1 bw2)
       scenario_route_flow zero_placer_costs [] scenario_locs (scenario_new bw0 bw1 bw2) tt).

(** The routes of the three flows, given as provided routes. *)
Definition scenario_seed_routes : list (list NocLinkId) := [[0]; [1; 0]; [0]].

(** The handler after a second initial routing, with the provided routes,
    of the handler that is already routed. *)
Definition scenario_routed_twice (bw0 bw1 bw2 : R) : NocCostHandler R :=
  default (scenario_new bw0 bw1 bw2)
    ((λ r, r.1) <$>
     initial_noc_routing (scenario_model false false) (scenario_flows bw0 bw1 bw2)
       (logged_route_flow scenario_route_flow) scenario_seed_routes scenario_locs
       (scenario_routed bw0 bw1 bw2) (tt, [])).

(** The placer costs after the initial routing of the three flows. *)
Definition scenario_routed_costs (bw0 bw1 bw2 : R) : t_placer_costs R :=
  default zero_placer_costs
    ((λ r, r.1.2) <$>
     reinitialize_noc_routing (scenario_model false false) (scenario_flows bw0 bw1 bw2)
       scenario_route_flow zero_placer_costs [] scenario_locs (scenario_new bw0 bw1 bw2) tt).

(** The handler after the delta evaluation of moving C. *)
Definition scenario_evaluated (bw0 bw1 bw2 : R) : NocCostHandler R :=
  default (scenario_new bw0 bw1 bw2)
    ((λ r, r.1.1) <$>
     find_affected_noc_routers_and_update_noc_costs (scenario_model false false)
       (scenario_flows bw0 bw1 bw2) scenario_route_flow move_C zero_cost_terms
       scenario_locs_C_moved (scenario_routed bw0 bw1 bw2) tt).

(** The handler after committing that evaluation. *)
Definition scenario_committed (bw0 bw1 bw2 : R) : NocCostHandler R :=
  default (scenario_new bw0 bw1 bw2)
    (commit_noc_costs (s_of_int (-1)) (scenario_model false false)
       (scenario_evaluated bw0 bw1 bw2)).

(** The handler after the delta evaluation of swapping B and C, with the
    routing collaborator logged. *)
Definition scenario_swapped (bw0 bw1 bw2 : R) : NocCostHandler R :=
  default (scenario_new bw0 bw1 bw2)
    ((λ r, r.1.1) <$>
     find_affected_noc_routers_and_update_noc_costs (scenario_model false false)
       (scenario_flows bw0 bw1 bw2) (logged_route_flow scenario_route_flow) swap_B_C
       zero_cost_terms scenario_locs_B_C_swapped (scenario_routed bw0 bw1 bw2) (tt, [])).

(** The storage of a netlist without router clusters. *)
Definition no_router_clusters : NocTrafficFlows R :=
  {| list_of_noc_traffic_flows := [];
     traffic_flows_associated_to_router_blocks := ∅;
     router_cluster_in_netlist := [] |}.
End Scenario.

(** A proposer over simple collaborators: the generator always draws the
    first router cluster; the destination search proposes the next column
    and succeeds as told by [found]; the floorplan check answers [legal]. *)
Definition scenario_irand (rng : nat) (imax : Z) : Z * nat := (0%Z, S rng).

Definition scenario_find_to_loc_uniform (found : bool) (type : unit) (rlim : Z)
    (from to : t_pl_loc) (b_from : ClusterBlockId) (registry : list t_block_loc) (rng : nat)
    : bool * t_pl_loc * nat :=
  (found,
   {| loc_x := loc_x from + 1; loc_y := loc_y from;
      loc_sub_tile := loc_sub_tile from; loc_layer := loc_layer to |}, rng).

Definition scenario_create_move (blocks_affected : list t_pl_moved_block)
    (b_from : ClusterBlockId) (to : t_pl_loc) (registry : list t_block_loc) (macros : unit)
    : e_create_move * list t_pl_moved_block :=
  (VALID,
   blocks_affected
   ++ [{| block_num := b_from; old_loc := default to (loc <$> registry !! b_from);
          new_loc := to |}]).

Definition scenario_default_loc : t_pl_loc :=
  {| loc_x := -1; loc_y := -1; loc_sub_tile := -1; loc_layer := -1 |}.

Definition scenario_propose_router_swap {R} (found legal : bool)
    (storage : NocTrafficFlows R) (blocks_affected : list t_pl_moved_block)
    (registry : list t_block_loc) (rng : nat)
    : option (e_create_move * list t_pl_moved_block * nat) :=
  propose_router_swap
    nat scenario_irand unit unit (λ _, tt) (λ _ _ _, tt) (λ _ _, true)
    (list t_block_loc) (λ registry, registry) unit (list t_pl_moved_block) Z
    (scenario_find_to_loc_uniform found) scenario_create_move (λ _, legal)
    scenario_default_loc storage blocks_affected 1%Z registry tt rng.

(** Cluster A is fixed. *)
Definition scenario_locs_A_fixed : list t_block_loc :=
  [{| loc := pl_loc_at 1; is_fixed := true |}; block_at 2; block_at 0].

(** * Properties *)

(** ** Generic facts about loops and vectors *)

Lemma vec_write_Some {A} (v v' : list A) i x :
  vec_write v i x = Some v' ↔ i < length v ∧ v' = <[i := x]> v.
Proof.
  unfold vec_write. destruct (decide (i < length v)) as [Hi|Hi].
  - split; [by intros [= <-]|by intros [_ ->]].
  - split; [done|by intros [? _]].
Qed.

Lemma vec_write_is_Some {A} (v : list A) i x : i < length v → vec_write v i x = Some (<[i := x]> v).
Proof. intros. unfold vec_write. by rewrite decide_True. Qed.

Lemma vec_write_length {A} (v v' : list A) i x :
  vec_write v i x = Some v' → length v' = length v.
Proof. intros [_ ->]%vec_write_Some. apply length_insert. Qed.

Lemma foldM_app {A S} (body : S → A → option S) s xs ys :
  foldM body s (xs ++ ys) = s' ← foldM body s xs; foldM body s' ys.
Proof.
  revert s. induction xs as [|x xs IH]; intros s; simpl; [done|].
  destruct (body s x); simpl; [apply IH|done].
Qed.

(** A loop whose iterations are themselves loops is one loop over the
    concatenation. *)
Lemma foldM_flatten {A B S} (outer : S → A → option S) (body : S → B → option S)
    (g : A → list B) xs s :
  (∀ s a, outer s a = foldM body s (g a)) →
  foldM outer s xs = foldM body s (mjoin (g <$> xs)).
Proof.
  intros Houter. revert s. induction xs as [|x xs IH]; intros s; [done|].
  rewrite fmap_cons. cbn [mjoin list_join foldM]. rewrite foldM_app, Houter.
  destruct (foldM body s (g x)); simpl; [apply IH|done].
Qed.

(** A loop on a state that only reads and writes a part [view s] of it is
    the loop on that part, put back into the state at the end. *)
Lemma foldM_on_view {A S T} (body : S → A → option S) (body' : T → A → option T)
    (view : S → T) (put : T → S → S) xs s :
  (∀ s x, body s x = t ← body' (view s) x; Some (put t s)) →
  (∀ t s, view (put t s) = t) →
  (∀ t t' s, put t' (put t s) = put t' s) →
  (∀ s, put (view s) s = s) →
  foldM body s xs = t ← foldM body' (view s) xs; Some (put t s).
Proof.
  intros Hbody Hview Hput Hid. revert s.
  induction xs as [|x xs IH]; intros s; cbn [foldM].
  - simpl. by rewrite Hid.
  - rewrite Hbody. destruct (body' (view s) x) as [t|]; simpl; [|done].
    rewrite IH, Hview. destruct (foldM body' t xs) as [t'|]; simpl; [|done].
    by rewrite Hput.
Qed.

(** An invariant of the loop state that every iteration preserves holds
    when the loop ends. *)
Lemma foldM_invariant {A S} (P : S → Prop) (body : S → A → option S) xs s s' :
  (∀ s x s', x ∈ xs → P s → body s x = Some s' → P s') →
  P s → foldM body s xs = Some s' → P s'.
Proof.
  revert s. induction xs as [|x xs IH]; intros s Hbody HP Hrun; simpl in *.
  - by simplify_eq.
  - destruct (body s x) as [s1|] eqn:Hs1; simplify_eq/=.
    eapply IH; [|eapply Hbody; eauto; left|done].
    intros ???? ; apply Hbody. by right.
Qed.

(** A loop whose iterations are all defined under an invariant is defined. *)
Lemma foldM_is_Some {A S} (P : S → Prop) (body : S → A → option S) xs s :
  (∀ s x, x ∈ xs → P s → ∃ s', body s x = Some s' ∧ P s') →
  P s → ∃ s', foldM body s xs = Some s' ∧ P s'.
Proof.
  revert s. induction xs as [|x xs IH]; intros s Hbody HP; simpl.
  - eauto.
  - destruct (Hbody s x) as (s1 & -> & HP1); [left|done|]. simpl.
    apply IH; [|done]. intros ????; apply Hbody; [by right|done].
Qed.

(** An invariant together with a fact established about every element the
    loop visits. *)
Lemma foldM_invariant_Forall {A S} (I : S → Prop) (Q : A → Prop)
    (body : S → A → option S) xs s s' :
  (∀ s x s', I s → body s x = Some s' → I s' ∧ Q x) →
  I s → foldM body s xs = Some s' → I s' ∧ Forall Q xs.
Proof.
  intros Hbody. revert s. induction xs as [|x xs IH]; intros s HI Hrun; cbn [foldM] in Hrun.
  - simplify_eq. by split.
  - apply bind_Some in Hrun as (s1 & Hs1 & Hrun).
    destruct (Hbody _ _ _ HI Hs1) as [HI1 HQ].
    destruct (IH _ HI1 Hrun) as [HI' HQs]. split; [done|by constructor].
Qed.

Lemma fold_left_ext_in {A B} (f g : B → A → B) (xs : list A) (b : B) :
  (∀ x b, x ∈ xs → f b x = g b x) → fold_left f xs b = fold_left g xs b.
Proof.
  revert b. induction xs as [|x xs IH]; intros b Hfg; simpl; [done|].
  rewrite Hfg by left. apply IH. intros ???; apply Hfg. by right.
Qed.

Lemma fold_left_fmap {A B C} (g : A → B) (f : C → B → C) (xs : list A) (c : C) :
  fold_left f (g <$> xs) c = fold_left (λ acc x, f acc (g x)) xs c.
Proof. revert c. induction xs as [|x xs IH]; intros c; simpl; [done|apply IH]. Qed.

(** ** Committing slots *)

Section CommitSlots.
Context {A : Type} (sentinel : A).
Implicit Type committed proposed : list A.

Lemma commit_slot_Some committed proposed i committed' proposed' :
  commit_slot sentinel (committed, proposed) i = Some (committed', proposed') ↔
  ∃ x, proposed !! i = Some x ∧ i < length committed
       ∧ committed' = <[i := x]> committed ∧ proposed' = <[i := sentinel]> proposed.
Proof.
  unfold commit_slot. split.
  - intros Hrun.
    apply bind_Some in Hrun as (x & Hx & Hrun).
    apply bind_Some in Hrun as (c & Hc & Hrun).
    apply bind_Some in Hrun as (p & Hp & Hrun).
    apply vec_write_Some in Hc as [Hi ->]. apply vec_write_Some in Hp as [_ ->].
    simplify_eq. by exists x.
  - intros (x & Hx & Hi & -> & ->). rewrite Hx. simpl.
    rewrite (vec_write_is_Some committed) by done. simpl.
    by rewrite (vec_write_is_Some proposed) by (by eapply lookup_lt_Some).
Qed.

(** The commit loop: entries outside the committed indices are untouched;
    when no index repeats, every committed index receives the proposed
    entry and its proposed entry becomes the sentinel. *)
Lemma commit_slots_Some idxs committed proposed committed' proposed' :
  foldM (commit_slot sentinel) (committed, proposed) idxs = Some (committed', proposed') →
  length committed' = length committed ∧ length proposed' = length proposed
  ∧ (∀ i, i ∉ idxs → committed' !! i = committed !! i ∧ proposed' !! i = proposed !! i)
  ∧ (NoDup idxs → ∀ i, i ∈ idxs →
       committed' !! i = proposed !! i ∧ proposed' !! i = Some sentinel).
Proof.
  revert committed proposed.
  induction idxs as [|j idxs IH]; intros committed proposed Hrun; cbn [foldM] in Hrun.
  { simplify_eq. split_and!; try done. intros _ i Hi. by apply elem_of_nil in Hi. }
  apply bind_Some in Hrun as ([c1 p1] & Hstep & Hrun).
  apply commit_slot_Some in Hstep as (x & Hx & Hj & -> & ->).
  apply IH in Hrun as (Hlc & Hlp & Hout & Hin). rewrite !length_insert in *.
  split_and!; [done|done| |].
  - intros i [Hij Hi]%not_elem_of_cons. destruct (Hout i Hi) as [-> ->].
    by rewrite !list_lookup_insert_ne.
  - intros [Hj' Hnd]%NoDup_cons i [->|Hi]%elem_of_cons.
    + destruct (Hout j Hj') as [-> ->].
      rewrite !list_lookup_insert_eq; [done|by eapply lookup_lt_Some|done].
    + assert (i ≠ j) by (by intros ->). destruct (Hin Hnd i Hi) as [-> ->].
      by rewrite list_lookup_insert_ne.
Qed.

Lemma commit_slots_is_Some idxs committed proposed :
  Forall (λ i, i < length proposed ∧ i < length committed) idxs →
  is_Some (foldM (commit_slot sentinel) (committed, proposed) idxs).
Proof.
  revert committed proposed.
  induction idxs as [|j idxs IH]; intros committed proposed Hall; cbn [foldM]; [done|].
  apply Forall_cons in Hall as [[Hp Hc] Hall].
  destruct (lookup_lt_is_Some_2 proposed j Hp) as [x Hx].
  assert (commit_slot sentinel (committed, proposed) j
          = Some (<[j := x]> committed, <[j := sentinel]> proposed)) as ->.
  { apply commit_slot_Some. by exists x. }
  cbn [mbind option_bind]. apply IH. by rewrite !length_insert.
Qed.
End CommitSlots.

(** ** Binary64 addition and multiplication are commutative *)

Lemma SFadd_comm prec emax x y : SFadd prec emax x y = SFadd prec emax y x.
Proof.
  destruct x as [sx|sx| |sx mx ex], y as [sy|sy| |sy my ey]; simpl; try done.
  - by destruct sx, sy.
  - by destruct sx, sy.
  - by rewrite Z.min_comm, Z.add_comm.
Qed.

Lemma SFmul_comm prec emax x y : SFmul prec emax x y = SFmul prec emax y x.
Proof.
  destruct x as [sx|sx| |sx mx ex], y as [sy|sy| |sy my ey]; simpl;
    rewrite ?(xorb_comm sx sy); try done.
  by rewrite Pos.mul_comm, Z.add_comm.
Qed.

Lemma double_add_comm (x y : float) : s_add x y = s_add y x.
Proof. apply Prim2SF_inj. simpl. rewrite !add_spec. apply SFadd_comm. Qed.

Lemma double_mul_comm (x y : float) : s_mul x y = s_mul y x.
Proof. apply Prim2SF_inj. simpl. rewrite !mul_spec. apply SFmul_comm. Qed.

(** ** The latency kernel *)

Section KernelProperties.
Context `{Scalar R}.
Implicit Type m : NocStorage R.
Implicit Type route : list NocLinkId.

Lemma calculate_latency_cost_unfold route m (flow : t_noc_traffic_flow R) :
  calculate_traffic_flow_latency_cost route m flow =
    L ← traffic_flow_latency m route;
    Some (s_mul L (s_of_int (traffic_flow_priority flow)),
          s_mul (std_max (s_sub L (max_traffic_flow_latency flow)) s_zero)
                (s_of_int (traffic_flow_priority flow))).
Proof.
  unfold calculate_traffic_flow_latency_cost, traffic_flow_latency.
  destruct (noc_link_latency_component m route); simpl; [|done].
  by destruct (noc_router_latency_component m route).
Qed.

Lemma link_component_detailed m route links :
  detailed_link_latency m = true →
  get_noc_links m route = Some links →
  noc_link_latency_component m route = Some (sum_of (link_latency <$> links)).
Proof.
  intros Hd Hl. unfold noc_link_latency_component, sum_of.
  rewrite Hd, Hl. simpl. by rewrite fold_left_fmap.
Qed.

Lemma link_in_model_inv m id :
  link_in_model m id = true →
  ∃ link, get_single_noc_link m id = Some link
          ∧ is_Some (get_single_noc_router m (source_router link))
          ∧ is_Some (get_single_noc_router m (sink_router link)).
Proof.
  unfold link_in_model, get_single_noc_router.
  destruct (get_single_noc_link m id) as [link|]; [|done].
  intros [?%bool_decide_eq_true ?%bool_decide_eq_true]%andb_true_iff.
  exists link. split_and!; [done|by apply lookup_lt_is_Some..].
Qed.

Lemma get_noc_links_in_model m route :
  route_in_model m route = true →
  ∃ links, get_noc_links m route = Some links
           ∧ Forall (λ link : NocLink R, is_Some (get_single_noc_router m (sink_router link))) links.
Proof.
  unfold route_in_model, get_noc_links.
  induction route as [|id route IH]; simpl.
  - intros _. exists []. by split.
  - intros [Hid Hroute]%andb_true_iff.
    destruct (link_in_model_inv _ _ Hid) as (link & Hlink & _ & Hsink).
    destruct (IH Hroute) as (links & Hlinks & Hall).
    exists (link :: links). split; [|by constructor].
    rewrite Hlink. simpl. by rewrite Hlinks.
Qed.

Lemma sink_router_loop_is_Some m links acc :
  Forall (λ link : NocLink R, is_Some (get_single_noc_router m (sink_router link))) links →
  is_Some (foldM (λ acc link,
                    sink_router ← get_single_noc_router m (sink_router link);
                    Some (s_add acc (router_latency sink_router))) acc links).
Proof.
  intros Hall. revert acc. induction Hall as [|link links [r Hr] _ IH]; intros acc; simpl.
  - done.
  - rewrite Hr. simpl. apply IH.
Qed.

Lemma link_component_is_Some m route :
  route_in_model m route = true → is_Some (noc_link_latency_component m route).
Proof.
  intros (links & Hlinks & _)%get_noc_links_in_model.
  unfold noc_link_latency_component. rewrite Hlinks.
  by destruct (detailed_link_latency m).
Qed.

Lemma router_component_is_Some m route :
  route ≠ [] → route_in_model m route = true →
  is_Some (noc_router_latency_component m route).
Proof.
  intros Hne Hroute. unfold noc_router_latency_component.
  destruct (detailed_router_latency m); [|done].
  destruct (get_noc_links_in_model _ _ Hroute) as (links & Hlinks & Hall).
  rewrite Hlinks.
  destruct route as [|id route]; [done|].
  pose proof Hroute as [Hid _]%andb_true_iff.
  destruct (link_in_model_inv _ _ Hid) as (link & Hlink & [src Hsrc] & _).
  simpl. rewrite Hlink. simpl. rewrite Hsrc. simpl.
  by apply sink_router_loop_is_Some.
Qed.

(** C9: the latency kernel is safe on non-empty routes.  On a non-empty
    route the read of [route[0]] is in bounds and, when the links of the
    route and their routers exist in the model, the kernel has a defined
    result; on the empty route with [detailed_router_latency] set the read
    of [route[0]] is out of bounds and the kernel has no defined result. *)
Theorem latency_cost_safe_on_non_empty_routes route m (flow : t_noc_traffic_flow R) :
  (route ≠ [] → is_Some (route !! 0))
  ∧ (route ≠ [] → route_in_model m route = true →
     is_Some (calculate_traffic_flow_latency_cost route m flow))
  ∧ (detailed_router_latency m = true →
     calculate_traffic_flow_latency_cost [] m flow = None).
Proof.
  split_and!.
  - destruct route; [done|]. intros _. by eexists.
  - intros Hne Hroute. unfold calculate_traffic_flow_latency_cost.
    destruct (link_component_is_Some _ _ Hroute) as [lc ->].
    destruct (router_component_is_Some _ _ Hne Hroute) as [rc ->]. simpl. by eexists.
  - intros Hd. unfold calculate_traffic_flow_latency_cost, noc_router_latency_component.
    rewrite Hd. simpl. by destruct (noc_link_latency_component m []).
Qed.
End KernelProperties.

(** C4: with both detail flags off the latency of a flow is its priority
    times [default_link_latency × |route| + default_router_latency ×
    (|route| + 1)]; with [detailed_link_latency] on, the link part is
    instead the sum of the latencies of the links of the route. *)
Theorem latency_cost_default_and_detailed_link
    (route : list NocLinkId) (m : NocStorage float) (flow : t_noc_traffic_flow float) :
  let n := float_of_Z (Z.of_nat (length route)) in
  let priority := float_of_Z (traffic_flow_priority flow) in
  (detailed_link_latency m = false → detailed_router_latency m = false →
   fst <$> calculate_traffic_flow_latency_cost route m flow
   = Some (priority * (noc_link_latency m * n + noc_router_latency m * (n + 1)))%float)
  ∧ (detailed_link_latency m = true →
     ∀ links router_component,
       get_noc_links m route = Some links →
       noc_router_latency_component m route = Some router_component →
       fst <$> calculate_traffic_flow_latency_cost route m flow
       = Some (priority * (sum_of (link_latency <$> links) + router_component))%float).
Proof.
  intros n priority. split.
  - intros Hl Hr. unfold calculate_traffic_flow_latency_cost,
      noc_link_latency_component, noc_router_latency_component.
    rewrite Hl, Hr. simpl. f_equal.
    rewrite (double_mul_comm _ (float_of_Z _)). f_equal. apply double_add_comm.
  - intros Hl links rc Hlinks Hrc. unfold calculate_traffic_flow_latency_cost.
    rewrite (link_component_detailed _ _ _ Hl Hlinks), Hrc. simpl. f_equal.
    rewrite (double_mul_comm _ (float_of_Z _)). f_equal. apply double_add_comm.
Qed.

(** C5: the latency-overrun term is the priority times
    [max(L − max_latency, 0)], where [L] is the latency of the route before
    any priority weighting; the priority is applied once, to the overrun. *)
Theorem latency_overrun_scaled_once
    (route : list NocLinkId) (m : NocStorage float) (flow : t_noc_traffic_flow float) :
  snd <$> calculate_traffic_flow_latency_cost route m flow
  = (λ L, float_of_Z (traffic_flow_priority flow)
          * std_max (L - max_traffic_flow_latency flow) 0)%float
    <$> traffic_flow_latency m route.
Proof.
  rewrite calculate_latency_cost_unfold.
  destruct (traffic_flow_latency m route) as [L|]; simpl; [|done].
  f_equal. apply double_mul_comm.
Qed.

(** ** Bandwidth-usage updates *)

Section UsageUpdates.
Context `{Scalar R}.
Implicit Type usages : list R.
Implicit Type route : list NocLinkId.

Lemma add_to_link_length d usages link :
  length (add_to_link d usages link) = length usages.
Proof.
  unfold add_to_link. destruct (usages !! link); [apply length_insert|done].
Qed.

Lemma add_along_route_length route d usages :
  length (add_along_route route d usages) = length usages.
Proof.
  unfold add_along_route. revert usages.
  induction route as [|l route IH]; intros usages; simpl; [done|].
  by rewrite IH, add_to_link_length.
Qed.

Lemma add_along_route_cons l route d usages :
  add_along_route (l :: route) d usages = add_along_route route d (add_to_link d usages l).
Proof. done. Qed.

Lemma add_along_route_app r1 r2 d usages :
  add_along_route (r1 ++ r2) d usages = add_along_route r2 d (add_along_route r1 d usages).
Proof. unfold add_along_route. apply fold_left_app. Qed.

(** A link that is not on the route keeps its usage. *)
Lemma add_along_route_lookup_notin route d usages link :
  link ∉ route → add_along_route route d usages !! link = usages !! link.
Proof.
  unfold add_along_route. revert usages.
  induction route as [|l route IH]; intros usages Hnotin; simpl; [done|].
  apply not_elem_of_cons in Hnotin as [Hne Hnotin].
  rewrite IH by done. unfold add_to_link.
  destruct (usages !! l); [|done]. by apply list_lookup_insert_ne.
Qed.

Lemma move_bandwidth_lookup_notin from to bw usages link :
  link ∉ from → link ∉ to → move_bandwidth from to bw usages !! link = usages !! link.
Proof.
  intros Hfrom Hto. unfold move_bandwidth.
  by rewrite !add_along_route_lookup_notin.
Qed.

Lemma move_bandwidth_fold_lookup_notin {A} (old new : A → list NocLinkId) (bw : A → R)
    (xs : list A) usages link :
  (∀ x, x ∈ xs → (link ∉ old x) ∧ (link ∉ new x)) →
  fold_left (λ u x, move_bandwidth (old x) (new x) (bw x) u) xs usages !! link
  = usages !! link.
Proof.
  revert usages. induction xs as [|x xs IH]; intros usages Hnotin; simpl; [done|].
  rewrite IH by (intros y Hy; apply Hnotin; by right).
  destruct (Hnotin x) as [Hold Hnew]; [by left|].
  by apply move_bandwidth_lookup_notin.
Qed.

Lemma update_link_usage_case inc_or_dec bw usages l :
  update_link_usage inc_or_dec bw usages l
  = if decide (l < length usages)
    then Some (add_to_link (usage_weight inc_or_dec bw) usages l) else None.
Proof.
  unfold update_link_usage, add_to_link, usage_weight.
  destruct (decide (l < length usages)) as [Hl|Hl].
  - destruct (lookup_lt_is_Some_2 usages l Hl) as [x ->]. simpl.
    by apply vec_write_is_Some.
  - by rewrite (lookup_ge_None_2 usages l) by lia.
Qed.

(** The loop of [update_traffic_flow_link_usage] is defined exactly when
    every link of the route is in the table, and then it adds the weight
    along the route. *)
Lemma update_link_usage_loop_Some inc_or_dec bw route usages usages' :
  foldM (update_link_usage inc_or_dec bw) usages route = Some usages' →
  usages' = add_along_route route (usage_weight inc_or_dec bw) usages
  ∧ Forall (λ l, l < length usages) route.
Proof.
  unfold add_along_route. revert usages.
  induction route as [|l route IH]; intros usages Hrun; cbn [foldM fold_left] in *.
  - by simplify_eq.
  - rewrite update_link_usage_case in Hrun.
    destruct (decide (l < length usages)) as [Hl|Hl]; [|done].
    cbn [mbind option_bind] in Hrun.
    apply IH in Hrun as [-> Hall]. rewrite add_to_link_length in Hall.
    split; [done|by constructor].
Qed.

Lemma update_link_usage_loop_is_Some inc_or_dec bw route usages :
  Forall (λ l, l < length usages) route →
  foldM (update_link_usage inc_or_dec bw) usages route
  = Some (add_along_route route (usage_weight inc_or_dec bw) usages).
Proof.
  unfold add_along_route. revert usages.
  induction route as [|l route IH]; intros usages Hall; cbn [foldM fold_left]; [done|].
  apply Forall_cons in Hall as [Hl Hall].
  rewrite update_link_usage_case, decide_True by done. cbn [mbind option_bind].
  apply IH. by rewrite add_to_link_length.
Qed.

Lemma update_traffic_flow_link_usage_Some route inc_or_dec bw (h h' : NocCostHandler R) :
  update_traffic_flow_link_usage route inc_or_dec bw h = Some h' →
  h' = set_link_bandwidth_usages
         (add_along_route route (usage_weight inc_or_dec bw) (link_bandwidth_usages h)) h
  ∧ Forall (λ l, l < length (link_bandwidth_usages h)) route.
Proof.
  unfold update_traffic_flow_link_usage. intros Hrun.
  destruct (foldM _ _ route) as [usages|] eqn:Hloop; simplify_eq/=.
  by apply update_link_usage_loop_Some in Hloop as [-> ?].
Qed.

Lemma update_traffic_flow_link_usage_is_Some route inc_or_dec bw (h : NocCostHandler R) :
  Forall (λ l, l < length (link_bandwidth_usages h)) route →
  update_traffic_flow_link_usage route inc_or_dec bw h
  = Some (set_link_bandwidth_usages
            (add_along_route route (usage_weight inc_or_dec bw) (link_bandwidth_usages h)) h).
Proof.
  intros Hall. unfold update_traffic_flow_link_usage.
  by rewrite update_link_usage_loop_is_Some.
Qed.

(** *** Exact arithmetic: updates commute and cancel *)

Section Exact.
Hypothesis Hexact : exact_usage_arithmetic.

Lemma add_to_link_comm d1 d2 usages l1 l2 :
  add_to_link d1 (add_to_link d2 usages l2) l1
  = add_to_link d2 (add_to_link d1 usages l1) l2.
Proof.
  destruct Hexact as (Hcomm & _ & _). unfold add_to_link.
  destruct (decide (l1 = l2)) as [->|Hne].
  - destruct (usages !! l2) as [x|] eqn:Hx; [|by rewrite Hx].
    rewrite !list_lookup_insert_eq by (by eapply lookup_lt_Some).
    rewrite !list_insert_insert_eq. by rewrite Hcomm.
  - destruct (usages !! l1) as [x1|] eqn:Hx1, (usages !! l2) as [x2|] eqn:Hx2;
      rewrite ?list_lookup_insert_ne, ?Hx1, ?Hx2 by done; try done.
    by apply list_insert_insert_ne.
Qed.

Lemma add_to_link_along_route_comm d1 d2 route usages l :
  add_to_link d1 (add_along_route route d2 usages) l
  = add_along_route route d2 (add_to_link d1 usages l).
Proof.
  unfold add_along_route. revert usages.
  induction route as [|l' route IH]; intros usages; simpl; [done|].
  by rewrite IH, add_to_link_comm.
Qed.

Lemma add_along_route_comm r1 d1 r2 d2 usages :
  add_along_route r1 d1 (add_along_route r2 d2 usages)
  = add_along_route r2 d2 (add_along_route r1 d1 usages).
Proof.
  revert usages. induction r1 as [|l r1 IH]; intros usages; [done|].
  by rewrite !add_along_route_cons, add_to_link_along_route_comm, IH.
Qed.

Lemma add_to_link_cancel (sgn1 sgn2 : Z) bw usages l :
  (sgn1 = (-1)%Z ∧ sgn2 = 1%Z) ∨ (sgn1 = 1%Z ∧ sgn2 = (-1)%Z) →
  add_to_link (usage_weight sgn2 bw) (add_to_link (usage_weight sgn1 bw) usages l) l
  = usages.
Proof.
  destruct Hexact as (_ & Hnp & Hpn). intros Hsgn. unfold add_to_link.
  destruct (usages !! l) as [x|] eqn:Hx; [|by rewrite Hx].
  rewrite list_lookup_insert_eq by (by eapply lookup_lt_Some).
  rewrite list_insert_insert_eq.
  destruct Hsgn as [[-> ->]|[-> ->]]; rewrite ?Hnp, ?Hpn; by apply list_insert_id.
Qed.

Lemma add_along_route_cancel (sgn1 sgn2 : Z) bw route usages :
  (sgn1 = (-1)%Z ∧ sgn2 = 1%Z) ∨ (sgn1 = 1%Z ∧ sgn2 = (-1)%Z) →
  add_along_route route (usage_weight sgn2 bw)
    (add_along_route route (usage_weight sgn1 bw) usages) = usages.
Proof.
  intros Hsgn. revert usages. induction route as [|l route IH]; intros usages; [done|].
  rewrite !add_along_route_cons, <- add_to_link_along_route_comm, IH.
  by apply add_to_link_cancel.
Qed.

Lemma move_bandwidth_comm a b w c d w' usages :
  move_bandwidth a b w (move_bandwidth c d w' usages)
  = move_bandwidth c d w' (move_bandwidth a b w usages).
Proof.
  unfold move_bandwidth.
  rewrite (add_along_route_comm a _ d), (add_along_route_comm a _ c).
  by rewrite (add_along_route_comm b _ d), (add_along_route_comm b _ c).
Qed.

Lemma move_bandwidth_cancel a b w usages :
  move_bandwidth b a w (move_bandwidth a b w usages) = usages.
Proof.
  unfold move_bandwidth.
  rewrite (add_along_route_cancel 1 (-1)) by (right; done).
  apply add_along_route_cancel. by left.
Qed.

Lemma move_bandwidth_fold_comm {A} (old new : A → list NocLinkId) (bw : A → R)
    a b w (xs : list A) usages :
  move_bandwidth a b w
    (fold_left (λ u x, move_bandwidth (old x) (new x) (bw x) u) xs usages)
  = fold_left (λ u x, move_bandwidth (old x) (new x) (bw x) u) xs
      (move_bandwidth a b w usages).
Proof.
  revert usages. induction xs as [|x xs IH]; intros usages; simpl; [done|].
  by rewrite IH, move_bandwidth_comm.
Qed.

(** Moving every bandwidth back, in the same order, undoes the moves. *)
Lemma move_bandwidth_fold_cancel {A} (old new : A → list NocLinkId) (bw : A → R)
    (xs : list A) usages :
  fold_left (λ u x, move_bandwidth (new x) (old x) (bw x) u) xs
    (fold_left (λ u x, move_bandwidth (old x) (new x) (bw x) u) xs usages)
  = usages.
Proof.
  revert usages. induction xs as [|x xs IH]; intros usages; simpl; [done|].
  rewrite <- (move_bandwidth_fold_comm old new bw (old x) (new x) (bw x)).
  rewrite move_bandwidth_cancel. apply IH.
Qed.
End Exact.
End UsageUpdates.

(** ** The transactional surface of the cost handler *)

Section HandlerProperties.
Context `{Scalar R}.
Variable INVALID_NOC_COST_TERM : R.
Variable noc_model : NocStorage R.
Variable noc_traffic_flows_storage : NocTrafficFlows R.
Variable RoutingState : Type.
Variable route_flow :
  RoutingState → NocRouterId → NocRouterId → NocTrafficFlowId →
  list NocLinkId → NocStorage R → list NocLinkId * RoutingState.

Implicit Type h : NocCostHandler R.
Implicit Type rs : RoutingState.
Implicit Type block_locs : list t_block_loc.
Implicit Type f : nat.
Implicit Type seen : gset nat.

Local Abbreviation flows := noc_traffic_flows_storage.
Local Abbreviation in_table h := (λ l : nat, l < length (link_bandwidth_usages h)).

(** *** Single steps *)

Lemma swap_route_with_backup_Some f h h' :
  swap_route_with_backup f h = Some h' ↔
  ∃ route backup,
    traffic_flow_routes h !! f = Some route
    ∧ traffic_flow_routes_backup h !! f = Some backup
    ∧ h' = set_traffic_flow_routes_backup (<[f := route]> (traffic_flow_routes_backup h))
             (set_traffic_flow_routes (<[f := backup]> (traffic_flow_routes h)) h).
Proof.
  unfold swap_route_with_backup. split.
  - intros Hrun.
    apply bind_Some in Hrun as (route & Hroute & Hrun).
    apply bind_Some in Hrun as (backup & Hbackup & Hrun).
    apply bind_Some in Hrun as (routes & Hroutes & Hrun).
    apply bind_Some in Hrun as (backups & Hbackups & Hrun).
    apply vec_write_Some in Hroutes as [_ ->].
    apply vec_write_Some in Hbackups as [_ ->].
    exists route, backup. by simplify_eq.
  - intros (route & backup & Hroute & Hbackup & ->).
    rewrite Hroute, Hbackup. simpl.
    rewrite !vec_write_is_Some by (by eapply lookup_lt_Some). done.
Qed.

Lemma route_traffic_flow_Some f block_locs h rs new_route h' rs' :
  route_traffic_flow noc_model flows route_flow f block_locs h rs
    = Some (new_route, h', rs') →
  f < length (traffic_flow_routes h)
  ∧ h' = set_traffic_flow_routes (<[f := new_route]> (traffic_flow_routes h)) h.
Proof.
  unfold route_traffic_flow. intros Hrun.
  apply bind_Some in Hrun as (flow & _ & Hrun).
  apply bind_Some in Hrun as (src_loc & _ & Hrun).
  apply bind_Some in Hrun as (snk_loc & _ & Hrun).
  apply bind_Some in Hrun as (src & _ & Hrun).
  apply bind_Some in Hrun as (snk & _ & Hrun).
  apply bind_Some in Hrun as (out & Hout & Hrun).
  destruct (route_flow _ _ _ _ _ _) as [new rs1].
  apply bind_Some in Hrun as (routes & Hroutes & Hrun).
  apply vec_write_Some in Hroutes as [Hf ->]. by simplify_eq.
Qed.

(** Re-routing one flow: its bandwidth moves from the old route to the
    new one, the old route goes to the backup slot, the new route to the
    committed slot; nothing else changes. *)
Lemma re_route_traffic_flow_Some f block_locs h rs h' rs' :
  re_route_traffic_flow noc_model flows route_flow f block_locs h rs = Some (h', rs') →
  ∃ flow old new,
    get_single_noc_traffic_flow flows f = Some flow
    ∧ traffic_flow_routes h !! f = Some old
    ∧ is_Some (traffic_flow_routes_backup h !! f)
    ∧ Forall (in_table h) old ∧ Forall (in_table h) new
    ∧ traffic_flow_routes h' = <[f := new]> (traffic_flow_routes h)
    ∧ traffic_flow_routes_backup h' = <[f := old]> (traffic_flow_routes_backup h)
    ∧ link_bandwidth_usages h'
      = move_bandwidth old new (traffic_flow_bandwidth flow) (link_bandwidth_usages h)
    ∧ same_cost_caches h h' ∧ same_scratch h h'.
Proof.
  unfold re_route_traffic_flow. intros Hrun.
  apply bind_Some in Hrun as (flow & Hflow & Hrun).
  apply bind_Some in Hrun as (old & Hold & Hrun).
  apply bind_Some in Hrun as (h1 & Hh1 & Hrun).
  apply bind_Some in Hrun as (h2 & Hh2 & Hrun).
  apply bind_Some in Hrun as ([[new h3] rs3] & Hh3 & Hrun).
  apply bind_Some in Hrun as (h4 & Hh4 & Hrun).
  apply update_traffic_flow_link_usage_Some in Hh1 as [-> Hold_in].
  apply swap_route_with_backup_Some in Hh2 as (route & backup & Hroute & Hbackup & ->).
  apply route_traffic_flow_Some in Hh3 as [Hf ->].
  apply update_traffic_flow_link_usage_Some in Hh4 as [-> Hnew_in].
  simpl in *. rewrite add_along_route_length in Hnew_in.
  simplify_eq. exists flow, old, new.
  split_and!; try done.
  by rewrite list_insert_insert_eq.
Qed.

(** *** Flows visited once *)

Lemma first_occurrences_spec seen fs :
  NoDup (first_occurrences seen fs)
  ∧ ∀ f, f ∈ first_occurrences seen fs ↔ f ∈ fs ∧ f ∉ seen.
Proof.
  revert seen. induction fs as [|g fs IH]; intros seen; simpl.
  - split; [constructor|]. intros f.
    split; [by intros ?%elem_of_nil|by intros [?%elem_of_nil _]].
  - destruct (decide (g ∈ seen)) as [Hg|Hg].
    + destruct (IH seen) as [Hnd Hin]. split; [done|].
      intros f. rewrite Hin, elem_of_cons. split.
      * intros [Hf Hs]. split; [by right|done].
      * intros [[->|Hf] Hs]; done.
    + destruct (IH ({[g]} ∪ seen)) as [Hnd Hin]. split.
      * constructor; [|done]. rewrite Hin. intros [_ Hn]. apply Hn.
        by apply elem_of_union_l, elem_of_singleton.
      * intros f. rewrite !elem_of_cons, Hin, not_elem_of_union, not_elem_of_singleton.
        split.
        -- intros [->|(Hf & Hne & Hs)]; (split; [|done]); [by left|by right].
        -- intros [[->|Hf] Hs]; [by left|].
           destruct (decide (f = g)) as [->|Hne]; [by left|by right].
Qed.

Lemma first_occurrences_NoDup seen fs : NoDup (first_occurrences seen fs).
Proof. apply first_occurrences_spec. Qed.

Lemma first_occurrences_elem_of seen fs f :
  f ∈ first_occurrences seen fs ↔ f ∈ fs ∧ f ∉ seen.
Proof. apply first_occurrences_spec. Qed.

Lemma first_occurrences_not_seen seen fs f :
  f ∉ first_occurrences ({[f]} ∪ seen) fs.
Proof.
  rewrite first_occurrences_elem_of. intros [_ Hn]. apply Hn.
  by apply elem_of_union_l, elem_of_singleton.
Qed.

Lemma foldM_re_route_moved_blocks block_locs moved_blocks st :
  foldM (re_route_moved_block noc_model flows route_flow block_locs) st moved_blocks
  = foldM (re_route_associated_traffic_flow noc_model flows route_flow block_locs) st
          (candidate_traffic_flows flows moved_blocks).
Proof.
  apply foldM_flatten. intros s block.
  unfold re_route_moved_block, re_route_associated_traffic_flows.
  by destruct (check_if_cluster_block_has_traffic_flows _ _).
Qed.

Lemma foldM_revert_moved_blocks moved_blocks st :
  foldM (revert_moved_block flows) st moved_blocks
  = foldM (revert_traffic_flow_route flows) st (candidate_traffic_flows flows moved_blocks).
Proof.
  apply foldM_flatten. intros s block. unfold revert_moved_block.
  by destruct (check_if_cluster_block_has_traffic_flows _ _).
Qed.

(** One iteration of the re-routing loop on a flow that was not visited
    before. *)
Lemma re_route_associated_traffic_flow_Some block_locs h rs seen f h' rs' seen' :
  f ∉ seen →
  re_route_associated_traffic_flow noc_model flows route_flow block_locs (h, rs, seen) f
    = Some (h', rs', seen') →
  seen' = {[f]} ∪ seen
  ∧ ∃ flow old new,
      get_single_noc_traffic_flow flows f = Some flow
      ∧ traffic_flow_routes h !! f = Some old
      ∧ is_Some (traffic_flow_routes_backup h !! f)
      ∧ Forall (in_table h) old ∧ Forall (in_table h) new
      ∧ traffic_flow_routes h' = <[f := new]> (traffic_flow_routes h)
      ∧ traffic_flow_routes_backup h' = <[f := old]> (traffic_flow_routes_backup h)
      ∧ link_bandwidth_usages h'
        = move_bandwidth old new (traffic_flow_bandwidth flow) (link_bandwidth_usages h)
      ∧ same_cost_caches h h'
      ∧ affected_traffic_flows h' = affected_traffic_flows h ++ [f]
      ∧ affected_noc_links h'
        = affected_noc_links h ∪ list_to_set (find_affected_links_by_flow_reroute old new).
Proof.
  intros Hf. unfold re_route_associated_traffic_flow.
  rewrite decide_False by done. intros Hrun.
  apply bind_Some in Hrun as (prev & Hprev & Hrun).
  apply bind_Some in Hrun as ([h1 rs1] & Hh1 & Hrun).
  apply bind_Some in Hrun as (curr & Hcurr & Hrun).
  apply re_route_traffic_flow_Some in Hh1
    as (flow & old & new & Hflow & Hold & Hbk & Hold_in & Hnew_in
        & Hroutes & Hbackups & Husage & Hcosts & Haf & Hal).
  simplify_eq/=. split; [done|]. exists flow, prev, new.
  rewrite Hroutes, list_lookup_insert_eq in Hcurr by (by eapply lookup_lt_Some).
  simplify_eq. split_and!; try done.
  - by rewrite Haf.
  - by rewrite Hal.
Qed.

(** *** The re-routing loop *)

Lemma route_of_lookup h f route :
  traffic_flow_routes h !! f = Some route → route_of h f = route.
Proof. unfold route_of. by intros ->. Qed.

Lemma route_of_eq h h' f :
  traffic_flow_routes h' !! f = traffic_flow_routes h !! f → route_of h' f = route_of h f.
Proof. unfold route_of. by intros ->. Qed.

Lemma backup_of_lookup h f route :
  traffic_flow_routes_backup h !! f = Some route → backup_of h f = route.
Proof. unfold backup_of. by intros ->. Qed.

Lemma bandwidth_of_lookup f flow :
  get_single_noc_traffic_flow flows f = Some flow →
  bandwidth_of flows f = traffic_flow_bandwidth flow.
Proof. unfold bandwidth_of. by intros ->. Qed.

(** The effect of the re-routing loop over the candidate flows [cands]:
    exactly the first occurrences [D] of the flows not seen before are
    re-routed, each once and in order. *)
Lemma re_route_loop_summary block_locs cands h rs seen h1 rs1 seen1 :
  foldM (re_route_associated_traffic_flow noc_model flows route_flow block_locs)
        (h, rs, seen) cands = Some (h1, rs1, seen1) →
  let D := first_occurrences seen cands in
  same_routing_sizes h h1 ∧ same_cost_caches h h1
  ∧ affected_traffic_flows h1 = affected_traffic_flows h ++ D
  ∧ (∀ f, f ∉ D →
       traffic_flow_routes h1 !! f = traffic_flow_routes h !! f
       ∧ traffic_flow_routes_backup h1 !! f = traffic_flow_routes_backup h !! f)
  ∧ (∀ f, f ∈ D →
       is_Some (get_single_noc_traffic_flow flows f)
       ∧ is_Some (traffic_flow_routes h !! f)
       ∧ traffic_flow_routes_backup h1 !! f = traffic_flow_routes h !! f
       ∧ Forall (in_table h) (route_of h f) ∧ Forall (in_table h) (route_of h1 f))
  ∧ link_bandwidth_usages h1
    = fold_left (λ u f, move_bandwidth (route_of h f) (route_of h1 f) (bandwidth_of flows f) u)
                D (link_bandwidth_usages h).
Proof.
  revert h rs seen. induction cands as [|g cs IH]; intros h rs seen Hrun; cbn [foldM] in Hrun.
  { simplify_eq. simpl. rewrite app_nil_r. split_and!; try done.
    intros f Hf. by apply elem_of_nil in Hf. }
  apply bind_Some in Hrun as ([[hm rsm] seenm] & Hstep & Hrun).
  cbn [first_occurrences]. destruct (decide (g ∈ seen)) as [Hg|Hg].
  { unfold re_route_associated_traffic_flow in Hstep. rewrite decide_True in Hstep by done.
    simplify_eq. by apply IH in Hrun. }
  apply re_route_associated_traffic_flow_Some in Hstep
    as (-> & flow & old & new & Hflow & Hold & Hbk & Hold_in & Hnew_in
        & Hroutes & Hbackups & Husage & Hcosts & Haf & _); [|done].
  apply IH in Hrun as (Hsz' & Hcc' & Haf' & Hout' & Hin' & Hus'). clear IH.
  set (D' := first_occurrences ({[g]} ∪ seen) cs) in *.
  assert (g ∉ D') as HgD' by apply first_occurrences_not_seen.
  assert (Hg_lt : g < length (traffic_flow_routes h)) by (by eapply lookup_lt_Some).
  assert (Hg_lt' : g < length (traffic_flow_routes_backup h))
    by (by apply lookup_lt_is_Some).
  assert (Hlen : length (link_bandwidth_usages hm) = length (link_bandwidth_usages h)).
  { rewrite Husage. unfold move_bandwidth. by rewrite !add_along_route_length. }
  assert (Hnew1 : traffic_flow_routes h1 !! g = Some new).
  { destruct (Hout' g HgD') as [-> _]. rewrite Hroutes. by apply list_lookup_insert_eq. }
  split_and!.
  - destruct Hsz' as (E1 & E2 & E3). unfold same_routing_sizes.
    rewrite E1, E2, E3, Hroutes, Hbackups, !length_insert. done.
  - destruct Hcc' as (E1 & E2 & E3 & E4), Hcosts as (E1' & E2' & E3' & E4').
    unfold same_cost_caches. by rewrite E1, E2, E3, E4.
  - rewrite Haf', Haf, <- app_assoc. done.
  - intros f [Hfg HfD']%not_elem_of_cons. destruct (Hout' f HfD') as [-> ->].
    rewrite Hroutes, Hbackups. by rewrite !list_lookup_insert_ne.
  - intros f [->|HfD']%elem_of_cons.
    + split_and!; [done|done| | |].
      * destruct (Hout' g HgD') as [_ ->]. rewrite Hbackups, Hold.
        by apply list_lookup_insert_eq.
      * by rewrite (route_of_lookup _ _ _ Hold).
      * by rewrite (route_of_lookup _ _ _ Hnew1).
    + assert (f ≠ g) as Hfg by (by intros ->).
      destruct (Hin' f HfD') as (Hfl & Hrt & Hbk1 & Hin_old & Hin_new).
      assert (Heq : traffic_flow_routes hm !! f = traffic_flow_routes h !! f).
      { rewrite Hroutes. by apply list_lookup_insert_ne. }
      rewrite Heq in Hrt, Hbk1. rewrite (route_of_eq _ _ _ Heq) in Hin_old.
      split_and!; [done|done|done| |].
      * eapply Forall_impl; [exact Hin_old|]. simpl. intros l. by rewrite Hlen.
      * eapply Forall_impl; [exact Hin_new|]. simpl. intros l. by rewrite Hlen.
  - rewrite Hus'. cbn [fold_left].
    rewrite (route_of_lookup _ _ _ Hold), (route_of_lookup _ _ _ Hnew1),
      (bandwidth_of_lookup _ _ Hflow), <- Husage.
    apply fold_left_ext_in. intros f u HfD'.
    assert (f ≠ g) as Hfg by (by intros ->).
    f_equal. apply route_of_eq. rewrite Hroutes. by apply list_lookup_insert_ne.
Qed.

(** *** The revert loop *)

(** One iteration of the revert loop on a flow that was not visited
    before: defined when the flow, its two route slots and the links of
    both routes exist. *)
Lemma revert_traffic_flow_route_is_Some h seen f flow route backup :
  f ∉ seen →
  get_single_noc_traffic_flow flows f = Some flow →
  traffic_flow_routes h !! f = Some route →
  traffic_flow_routes_backup h !! f = Some backup →
  Forall (in_table h) route → Forall (in_table h) backup →
  ∃ h', revert_traffic_flow_route flows (h, seen) f = Some (h', {[f]} ∪ seen)
        ∧ traffic_flow_routes h' = <[f := backup]> (traffic_flow_routes h)
        ∧ traffic_flow_routes_backup h' = <[f := route]> (traffic_flow_routes_backup h)
        ∧ link_bandwidth_usages h'
          = move_bandwidth route backup (traffic_flow_bandwidth flow) (link_bandwidth_usages h)
        ∧ same_cost_caches h h' ∧ same_scratch h h'.
Proof.
  intros Hf Hflow Hroute Hbackup Hroute_in Hbackup_in.
  unfold revert_traffic_flow_route. rewrite decide_False by done.
  rewrite Hflow, Hroute. cbn [mbind option_bind].
  rewrite update_traffic_flow_link_usage_is_Some by done. cbn [mbind option_bind].
  cbn [traffic_flow_routes_backup set_link_bandwidth_usages]. rewrite Hbackup.
  cbn [mbind option_bind].
  rewrite update_traffic_flow_link_usage_is_Some
    by (simpl; eapply Forall_impl; [exact Hbackup_in|];
        simpl; intros l; by rewrite add_along_route_length).
  cbn [mbind option_bind].
  match goal with |- context [swap_route_with_backup f ?h0] =>
    destruct (swap_route_with_backup f h0) as [h'|] eqn:Hswap end.
  - apply swap_route_with_backup_Some in Hswap as (r & b & Hr & Hb & ->).
    simpl in Hr, Hb. simplify_eq. eexists. split; [done|]. by split_and!.
  - exfalso. apply eq_None_not_Some in Hswap. apply Hswap.
    eexists. apply swap_route_with_backup_Some. by exists route, backup.
Qed.

Lemma revert_traffic_flow_route_seen h seen f :
  f ∈ seen → revert_traffic_flow_route flows (h, seen) f = Some (h, seen).
Proof. intros Hf. unfold revert_traffic_flow_route. by rewrite decide_True. Qed.

Lemma revert_loop_summary cands h seen :
  let D := first_occurrences seen cands in
  (∀ f, f ∈ D →
     is_Some (get_single_noc_traffic_flow flows f)
     ∧ is_Some (traffic_flow_routes h !! f)
     ∧ is_Some (traffic_flow_routes_backup h !! f)
     ∧ Forall (in_table h) (route_of h f) ∧ Forall (in_table h) (backup_of h f)) →
  ∃ h2 seen2,
    foldM (revert_traffic_flow_route flows) (h, seen) cands = Some (h2, seen2)
    ∧ same_routing_sizes h h2 ∧ same_cost_caches h h2 ∧ same_scratch h h2
    ∧ (∀ f, f ∉ D →
         traffic_flow_routes h2 !! f = traffic_flow_routes h !! f
         ∧ traffic_flow_routes_backup h2 !! f = traffic_flow_routes_backup h !! f)
    ∧ (∀ f, f ∈ D →
         traffic_flow_routes h2 !! f = traffic_flow_routes_backup h !! f
         ∧ traffic_flow_routes_backup h2 !! f = traffic_flow_routes h !! f)
    ∧ link_bandwidth_usages h2
      = fold_left (λ u f, move_bandwidth (route_of h f) (backup_of h f)
                            (bandwidth_of flows f) u)
                  D (link_bandwidth_usages h).
Proof.
  revert h seen. induction cands as [|g cs IH]; intros h seen; cbn [foldM first_occurrences].
  { intros _. exists h, seen. split_and!; try done.
    intros f Hf. by apply elem_of_nil in Hf. }
  destruct (decide (g ∈ seen)) as [Hg|Hg].
  { intros Hpre. rewrite revert_traffic_flow_route_seen by done.
    cbn [mbind option_bind]. by apply IH. }
  set (D' := first_occurrences ({[g]} ∪ seen) cs). intros Hpre.
  assert (g ∉ D') as HgD' by apply first_occurrences_not_seen.
  destruct (Hpre g) as ([flow Hflow] & [route Hroute] & [backup Hbackup] & Hroute_in & Hbackup_in);
    [by left|].
  rewrite (route_of_lookup _ _ _ Hroute) in Hroute_in.
  rewrite (backup_of_lookup _ _ _ Hbackup) in Hbackup_in.
  destruct (revert_traffic_flow_route_is_Some h seen g flow route backup)
    as (hm & -> & Hroutes & Hbackups & Husage & Hcosts & Hscratch); try done.
  cbn [mbind option_bind].
  assert (Hlen : length (link_bandwidth_usages hm) = length (link_bandwidth_usages h)).
  { rewrite Husage. unfold move_bandwidth. by rewrite !add_along_route_length. }
  assert (Hother : ∀ f, f ≠ g →
            traffic_flow_routes hm !! f = traffic_flow_routes h !! f
            ∧ traffic_flow_routes_backup hm !! f = traffic_flow_routes_backup h !! f).
  { intros f Hfg. rewrite Hroutes, Hbackups. by rewrite !list_lookup_insert_ne. }
  destruct (IH hm ({[g]} ∪ seen)) as (h2 & seen2 & Hrun & Hsz & Hcc & Hsc & Hout & Hin & Hus).
  { fold D'. intros f HfD'. assert (f ≠ g) as Hfg by (by intros ->).
    destruct (Hpre f) as (? & ? & ? & Hr_in & Hb_in); [by right|].
    destruct (Hother f Hfg) as [Er Eb].
    unfold route_of, backup_of in *. rewrite Er, Eb. split_and!; try done.
    - eapply Forall_impl; [exact Hr_in|]. simpl. intros l. by rewrite Hlen.
    - eapply Forall_impl; [exact Hb_in|]. simpl. intros l. by rewrite Hlen. }
  fold D' in Hout, Hin, Hus. exists h2, seen2.
  assert (Hg_lt : g < length (traffic_flow_routes h)) by (by eapply lookup_lt_Some).
  assert (Hg_lt' : g < length (traffic_flow_routes_backup h)) by (by eapply lookup_lt_Some).
  split_and!.
  - done.
  - destruct Hsz as (E1 & E2 & E3). unfold same_routing_sizes.
    rewrite E1, E2, E3, Hroutes, Hbackups, !length_insert. done.
  - destruct Hcc as (E1 & E2 & E3 & E4), Hcosts as (E1' & E2' & E3' & E4').
    unfold same_cost_caches. by rewrite E1, E2, E3, E4.
  - destruct Hsc as (E1 & E2), Hscratch as (E1' & E2').
    unfold same_scratch. by rewrite E1, E2.
  - intros f [Hfg HfD']%not_elem_of_cons. destruct (Hout f HfD') as [-> ->]. by apply Hother.
  - intros f [->|HfD']%elem_of_cons.
    + destruct (Hout g HgD') as [-> ->]. rewrite Hroutes, Hbackups, Hroute, Hbackup.
      by rewrite !list_lookup_insert_eq.
    + assert (f ≠ g) as Hfg by (by intros ->).
      destruct (Hin f HfD') as [-> ->]. destruct (Hother f Hfg) as [-> ->]. done.
  - rewrite Hus. cbn [fold_left].
    rewrite (route_of_lookup _ _ _ Hroute), (backup_of_lookup _ _ _ Hbackup),
      (bandwidth_of_lookup _ _ Hflow), <- Husage.
    apply fold_left_ext_in. intros f u HfD'.
    assert (f ≠ g) as Hfg by (by intros ->). destruct (Hother f Hfg) as [Er Eb].
    unfold route_of, backup_of. by rewrite Er, Eb.
Qed.

(** *** The cost loops of the delta evaluation *)

Lemma propose_traffic_flow_cost_loop h delta_c fs h' delta_c' :
  foldM (propose_traffic_flow_cost noc_model flows) (h, delta_c) fs = Some (h', delta_c') →
  proposed_flow_costs_only h h'
  ∧ Forall (λ f, f < length (proposed_traffic_flow_costs h)
                 ∧ f < length (traffic_flow_costs h)) fs.
Proof.
  intros Hrun.
  refine (foldM_invariant_Forall (λ st, proposed_flow_costs_only h st.1)
            (λ f, f < length (proposed_traffic_flow_costs h)
                  ∧ f < length (traffic_flow_costs h)) _ _ _ (h', delta_c') _ _ Hrun).
  - intros [h1 d1] f [h2 d2] Hinv Hstep. simpl in *.
    unfold propose_traffic_flow_cost in Hstep.
    apply bind_Some in Hstep as (route & _ & Hstep).
    apply bind_Some in Hstep as (flow & _ & Hstep).
    apply bind_Some in Hstep as ([lat over] & _ & Hstep).
    apply bind_Some in Hstep as (proposed & Hproposed & Hstep).
    apply bind_Some in Hstep as (committed & Hcommitted & Hstep).
    apply vec_write_Some in Hproposed as [Hf ->].
    apply lookup_lt_Some in Hcommitted. simplify_eq.
    destruct Hinv as ((E1 & E2 & E3) & (E4 & E5) & E6 & E7 & E8 & E9).
    unfold proposed_flow_costs_only, same_routing, same_scratch. simpl.
    rewrite length_insert, <- E9, <- E6. by split_and!.
  - by unfold proposed_flow_costs_only, same_routing, same_scratch.
Qed.

Lemma propose_link_congestion_cost_loop h delta_c (links : list (NocLink R)) h' delta_c' :
  foldM propose_link_congestion_cost (h, delta_c) links = Some (h', delta_c') →
  proposed_link_costs_only h h'
  ∧ Forall (λ link : NocLink R,
              link_id link < length (proposed_link_congestion_costs h)
              ∧ link_id link < length (link_congestion_costs h)) links.
Proof.
  intros Hrun.
  refine (foldM_invariant_Forall (λ st, proposed_link_costs_only h st.1)
            (λ link : NocLink R,
               link_id link < length (proposed_link_congestion_costs h)
               ∧ link_id link < length (link_congestion_costs h)) _ _ _ (h', delta_c') _ _ Hrun).
  - intros [h1 d1] link [h2 d2] Hinv Hstep. simpl in *.
    unfold propose_link_congestion_cost in Hstep.
    apply bind_Some in Hstep as (cost & _ & Hstep).
    apply bind_Some in Hstep as (proposed & Hproposed & Hstep).
    apply bind_Some in Hstep as (committed & Hcommitted & Hstep).
    apply vec_write_Some in Hproposed as [Hf ->].
    apply lookup_lt_Some in Hcommitted. simplify_eq.
    destruct Hinv as ((E1 & E2 & E3) & (E4 & E5) & E6 & E7 & E8 & E9).
    unfold proposed_link_costs_only, same_routing, same_scratch. simpl.
    rewrite length_insert, <- E9, <- E8. by split_and!.
  - by unfold proposed_link_costs_only, same_routing, same_scratch.
Qed.

(** The three loops of the delta evaluation. *)
Lemma find_affected_noc_routers_and_update_noc_costs_Some
    moved_blocks delta_c block_locs h rs h' delta_c' rs' :
  find_affected_noc_routers_and_update_noc_costs noc_model flows route_flow
    moved_blocks delta_c block_locs h rs = Some (h', delta_c', rs') →
  ∃ h1 seen1 h2 delta_c2 links,
    foldM (re_route_associated_traffic_flow noc_model flows route_flow block_locs)
          (set_affected_noc_links ∅ (set_affected_traffic_flows [] h), rs, ∅)
          (candidate_traffic_flows flows moved_blocks) = Some (h1, rs', seen1)
    ∧ foldM (propose_traffic_flow_cost noc_model flows) (h1, delta_c)
            (affected_traffic_flows h1) = Some (h2, delta_c2)
    ∧ get_noc_links noc_model (elements (affected_noc_links h2)) = Some links
    ∧ foldM propose_link_congestion_cost (h2, delta_c2) links = Some (h', delta_c').
Proof.
  unfold find_affected_noc_routers_and_update_noc_costs. intros Hrun.
  apply bind_Some in Hrun as ([[h1 rs1] seen1] & Hh1 & Hrun).
  apply bind_Some in Hrun as ([h2 d2] & Hh2 & Hrun).
  apply bind_Some in Hrun as (links & Hlinks & Hrun).
  apply bind_Some in Hrun as ([h3 d3] & Hh3 & Hrun).
  rewrite foldM_re_route_moved_blocks in Hh1. simplify_eq.
  by exists h1, seen1, h2, d2, links.
Qed.

(** *** Delta evaluation followed by revert *)

(** What the delta evaluation leaves behind for the flows [D] it
    re-routed, in terms of the state [h] it started from. *)
Lemma delta_evaluation_summary moved_blocks delta_c block_locs h rs h1 delta_c1 rs1 :
  find_affected_noc_routers_and_update_noc_costs noc_model flows route_flow
    moved_blocks delta_c block_locs h rs = Some (h1, delta_c1, rs1) →
  let D := first_occurrences ∅ (candidate_traffic_flows flows moved_blocks) in
  same_routing_sizes h h1
  ∧ affected_traffic_flows h1 = D
  ∧ (∀ f, f ∉ D →
       traffic_flow_routes h1 !! f = traffic_flow_routes h !! f
       ∧ traffic_flow_routes_backup h1 !! f = traffic_flow_routes_backup h !! f)
  ∧ (∀ f, f ∈ D →
       is_Some (get_single_noc_traffic_flow flows f)
       ∧ is_Some (traffic_flow_routes h !! f)
       ∧ traffic_flow_routes_backup h1 !! f = traffic_flow_routes h !! f
       ∧ Forall (in_table h) (route_of h f) ∧ Forall (in_table h) (route_of h1 f))
  ∧ link_bandwidth_usages h1
    = fold_left (λ u f, move_bandwidth (route_of h f) (route_of h1 f) (bandwidth_of flows f) u)
                D (link_bandwidth_usages h).
Proof.
  intros Hrun D.
  apply find_affected_noc_routers_and_update_noc_costs_Some in Hrun
    as (hA & seenA & hB & dB & links & Hre & Hp2 & _ & Hp3).
  apply re_route_loop_summary in Hre as (Hsz & _ & Haf & Hout & Hin & Hus).
  apply propose_traffic_flow_cost_loop in Hp2 as [((E1 & E2 & E3) & (E4 & _) & _) _].
  apply propose_link_congestion_cost_loop in Hp3 as [((E1' & E2' & E3') & (E4' & _) & _) _].
  fold D in Haf, Hout, Hin, Hus. simpl in *.
  assert (Hrt : ∀ f, route_of h1 f = route_of hA f).
  { intros f. unfold route_of. by rewrite E1', E1. }
  destruct Hsz as (Z1 & Z2 & Z3). simpl in *.
  unfold same_routing_sizes. rewrite E1', E2', E3', E1, E2, E3, E4', E4.
  split_and!; try done.
  - intros f Hf. destruct (Hin f Hf) as (? & ? & ? & ? & ?). rewrite Hrt. by split_and!.
  - rewrite Hus. apply fold_left_ext_in. intros f u _. by rewrite Hrt.
Qed.

(** C1 (as amended): revert after a delta evaluation on the same moved
    blocks is defined and restores the committed route of every flow
    exactly.  For every affected flow, once, it removes the bandwidth along
    the current committed route, adds it along the backup route and swaps
    the two route slots.  A link that lies on none of these routes keeps
    its usage exactly; the usage of every link is restored exactly when the
    arithmetic of the usage updates is exact. *)
Theorem revert_restores_routes_and_exact_usage
    moved_blocks delta_c block_locs h rs h1 delta_c1 rs1 :
  find_affected_noc_routers_and_update_noc_costs noc_model flows route_flow
    moved_blocks delta_c block_locs h rs = Some (h1, delta_c1, rs1) →
  ∃ h2,
    revert_noc_traffic_flow_routes flows moved_blocks h1 = Some h2
    ∧ traffic_flow_routes h2 = traffic_flow_routes h
    ∧ (∀ f, f ∈ affected_traffic_flows h1 →
         traffic_flow_routes h2 !! f = traffic_flow_routes_backup h1 !! f
         ∧ traffic_flow_routes_backup h2 !! f = traffic_flow_routes h1 !! f)
    ∧ link_bandwidth_usages h2
      = fold_left (λ u f, move_bandwidth (route_of h1 f) (backup_of h1 f)
                            (bandwidth_of flows f) u)
                  (affected_traffic_flows h1) (link_bandwidth_usages h1)
    ∧ (∀ l, (∀ f, f ∈ affected_traffic_flows h1 →
               (l ∉ route_of h1 f) ∧ (l ∉ backup_of h1 f)) →
         link_bandwidth_usages h2 !! l = link_bandwidth_usages h !! l)
    ∧ (exact_usage_arithmetic → link_bandwidth_usages h2 = link_bandwidth_usages h).
Proof.
  intros Hrun.
  apply delta_evaluation_summary in Hrun as ((Hs1 & Hs2 & Hs3) & Haf & Hout & Hin & Hus).
  set (D := first_occurrences ∅ (candidate_traffic_flows flows moved_blocks)) in *.
  destruct (revert_loop_summary (candidate_traffic_flows flows moved_blocks) h1 ∅)
    as (h2 & seen2 & Hrev & _ & _ & _ & Hout2 & Hin2 & Hus2).
  { fold D. intros f Hf. destruct (Hin f Hf) as (Hflow & Hroute & Hbk & Hold_in & Hnew_in).
    split_and!.
    - done.
    - apply lookup_lt_is_Some. rewrite Hs1. by apply lookup_lt_is_Some.
    - by rewrite Hbk.
    - eapply Forall_impl; [exact Hnew_in|]. simpl. intros l. by rewrite Hs3.
    - unfold backup_of. rewrite Hbk. fold (route_of h f).
      eapply Forall_impl; [exact Hold_in|]. simpl. intros l. by rewrite Hs3. }
  fold D in Hout2, Hin2, Hus2.
  assert (Hbackup_of : ∀ f, f ∈ D → backup_of h1 f = route_of h f).
  { intros f Hf. unfold backup_of. by destruct (Hin f Hf) as (_ & _ & -> & _). }
  exists h2. rewrite Haf. split_and!.
  - unfold revert_noc_traffic_flow_routes. rewrite foldM_revert_moved_blocks, Hrev. done.
  - apply list_eq. intros f. destruct (decide (f ∈ D)) as [Hf|Hf].
    + destruct (Hin2 f Hf) as [-> _]. by destruct (Hin f Hf) as (_ & _ & -> & _).
    + destruct (Hout2 f Hf) as [-> _]. by destruct (Hout f Hf) as [-> _].
  - exact Hin2.
  - exact Hus2.
  - intros l Hl. rewrite Hus2, move_bandwidth_fold_lookup_notin by done.
    rewrite Hus. apply move_bandwidth_fold_lookup_notin.
    intros f Hf. destruct (Hl f Hf) as [Hnew Hold]. by rewrite <- Hbackup_of.
  - intros Hexact. rewrite Hus2, Hus.
    rewrite (fold_left_ext_in _
               (λ u f, move_bandwidth (route_of h1 f) (route_of h f) (bandwidth_of flows f) u)).
    + by apply (move_bandwidth_fold_cancel Hexact (route_of h) (route_of h1)).
    + intros f u Hf. by rewrite Hbackup_of.
Qed.

(** *** Commit *)

Local Abbreviation invalid_cost := (invalid_traffic_flow_cost INVALID_NOC_COST_TERM).

Lemma commit_traffic_flow_cost_loop fs h :
  foldM (commit_traffic_flow_cost INVALID_NOC_COST_TERM) h fs
  = tables ← foldM (commit_slot invalid_cost)
                   (traffic_flow_costs h, proposed_traffic_flow_costs h) fs;
    Some (set_proposed_traffic_flow_costs tables.2 (set_traffic_flow_costs tables.1 h)).
Proof.
  apply (foldM_on_view _ (commit_slot invalid_cost)
           (λ h, (traffic_flow_costs h, proposed_traffic_flow_costs h))
           (λ tables h, set_proposed_traffic_flow_costs tables.2
                          (set_traffic_flow_costs tables.1 h))).
  - intros s f. unfold commit_traffic_flow_cost, commit_slot.
    destruct (proposed_traffic_flow_costs s !! f) as [x|]; simpl; [|done].
    destruct (vec_write (traffic_flow_costs s) f x) as [c|]; simpl; [|done].
    by destruct (vec_write (proposed_traffic_flow_costs s) f _) as [p|].
  - by intros [??] ?.
  - done.
  - by intros [].
Qed.

Lemma commit_link_congestion_cost_loop (links : list (NocLink R)) h :
  foldM (commit_link_congestion_cost INVALID_NOC_COST_TERM) h links
  = tables ← foldM (commit_slot INVALID_NOC_COST_TERM)
                   (link_congestion_costs h, proposed_link_congestion_costs h)
                   (link_id <$> links);
    Some (set_proposed_link_congestion_costs tables.2
            (set_link_congestion_costs tables.1 h)).
Proof.
  assert (Hfmap : ∀ (t : list R * list R) (ls : list (NocLink R)),
            foldM (commit_slot INVALID_NOC_COST_TERM) t (link_id <$> ls)
            = foldM (λ t (link : NocLink R),
                       commit_slot INVALID_NOC_COST_TERM t (link_id link)) t ls).
  { intros t ls. revert t. induction ls as [|l ls IH]; intros t; [done|].
    rewrite fmap_cons. cbn [foldM]. destruct (commit_slot _ t _); simpl; [apply IH|done]. }
  rewrite Hfmap.
  apply (foldM_on_view _ (λ t (link : NocLink R),
                            commit_slot INVALID_NOC_COST_TERM t (link_id link))
           (λ h, (link_congestion_costs h, proposed_link_congestion_costs h))
           (λ tables h, set_proposed_link_congestion_costs tables.2
                          (set_link_congestion_costs tables.1 h))).
  - intros s link. unfold commit_link_congestion_cost, commit_slot.
    destruct (proposed_link_congestion_costs s !! link_id link) as [x|]; simpl; [|done].
    destruct (vec_write (link_congestion_costs s) (link_id link) x) as [c|]; simpl; [|done].
    by destruct (vec_write (proposed_link_congestion_costs s) (link_id link) _) as [p|].
  - by intros [??] ?.
  - done.
  - by intros [].
Qed.

(** With dense link ids, the links fetched for a list of ids carry exactly
    these ids. *)
Lemma get_noc_links_ids ids (links : list (NocLink R)) :
  link_ids_dense noc_model →
  get_noc_links noc_model ids = Some links → link_id <$> links = ids.
Proof.
  unfold link_ids_dense, get_noc_links. intros Hdense Hlinks.
  apply mapM_Some in Hlinks. induction Hlinks as [|id link ids links Hlink _ IH]; [done|].
  rewrite fmap_cons, IH. f_equal. unfold get_single_noc_link in Hlink.
  assert (Hid : (link_id <$> link_storage noc_model) !! id = Some (link_id link))
    by (by rewrite list_lookup_fmap, Hlink).
  rewrite Hdense in Hid. apply lookup_seq in Hid as [? _]. done.
Qed.

(** The two loops of commit. *)
Lemma commit_noc_costs_Some h h' :
  commit_noc_costs INVALID_NOC_COST_TERM noc_model h = Some h' ↔
  ∃ costs proposed links link_costs proposed_link_costs,
    foldM (commit_slot invalid_cost)
          (traffic_flow_costs h, proposed_traffic_flow_costs h)
          (affected_traffic_flows h) = Some (costs, proposed)
    ∧ get_noc_links noc_model (elements (affected_noc_links h)) = Some links
    ∧ foldM (commit_slot INVALID_NOC_COST_TERM)
            (link_congestion_costs h, proposed_link_congestion_costs h)
            (link_id <$> links) = Some (link_costs, proposed_link_costs)
    ∧ h' = set_proposed_link_congestion_costs proposed_link_costs
             (set_link_congestion_costs link_costs
                (set_proposed_traffic_flow_costs proposed
                   (set_traffic_flow_costs costs h))).
Proof.
  unfold commit_noc_costs. rewrite commit_traffic_flow_cost_loop. split.
  - intros Hrun.
    apply bind_Some in Hrun as (h1 & Hh1 & Hrun).
    apply bind_Some in Hh1 as ([c p] & Hcp & Hh1).
    apply bind_Some in Hrun as (links & Hlinks & Hrun).
    rewrite commit_link_congestion_cost_loop in Hrun.
    apply bind_Some in Hrun as ([lc lp] & Hlcp & Hrun).
    simplify_eq/=. by exists c, p, links, lc, lp.
  - intros (c & p & links & lc & lp & Hcp & Hlinks & Hlcp & ->).
    rewrite Hcp. simpl. rewrite Hlinks. simpl.
    rewrite commit_link_congestion_cost_loop. simpl. by rewrite Hlcp.
Qed.

(** C10: commit writes only the committed and proposed cost caches.  The
    committed routes, the backup routes and the bandwidth usage are
    unchanged, for every flow outside [affected_traffic_flows] the
    committed and proposed costs are unchanged and, link ids being dense,
    so are the committed and proposed congestion costs of every link
    outside [affected_noc_links]. *)
Theorem commit_frame h h' :
  commit_noc_costs INVALID_NOC_COST_TERM noc_model h = Some h' →
  traffic_flow_routes h' = traffic_flow_routes h
  ∧ traffic_flow_routes_backup h' = traffic_flow_routes_backup h
  ∧ link_bandwidth_usages h' = link_bandwidth_usages h
  ∧ (∀ f, f ∉ affected_traffic_flows h →
       traffic_flow_costs h' !! f = traffic_flow_costs h !! f
       ∧ proposed_traffic_flow_costs h' !! f = proposed_traffic_flow_costs h !! f)
  ∧ (link_ids_dense noc_model →
     ∀ l, l ∉ affected_noc_links h →
       link_congestion_costs h' !! l = link_congestion_costs h !! l
       ∧ proposed_link_congestion_costs h' !! l = proposed_link_congestion_costs h !! l).
Proof.
  intros (c & p & links & lc & lp & Hcp & Hlinks & Hlcp & ->)%commit_noc_costs_Some.
  apply commit_slots_Some in Hcp as (_ & _ & Hout & _).
  apply commit_slots_Some in Hlcp as (_ & _ & Hlout & _).
  simpl. split_and!; [done|done|done|done|].
  intros Hdense l Hl. apply Hlout.
  rewrite (get_noc_links_ids _ _ Hdense Hlinks). by rewrite elem_of_elements.
Qed.

(** *** Delta evaluation followed by commit *)

(** The cost slots of every affected flow and link exist after a delta
    evaluation. *)
Lemma delta_evaluation_cost_slots moved_blocks delta_c block_locs h rs h1 delta_c1 rs1 :
  find_affected_noc_routers_and_update_noc_costs noc_model flows route_flow
    moved_blocks delta_c block_locs h rs = Some (h1, delta_c1, rs1) →
  Forall (λ f, f < length (proposed_traffic_flow_costs h1)
               ∧ f < length (traffic_flow_costs h1)) (affected_traffic_flows h1)
  ∧ ∃ links : list (NocLink R),
      get_noc_links noc_model (elements (affected_noc_links h1)) = Some links
      ∧ Forall (λ link : NocLink R,
                  link_id link < length (proposed_link_congestion_costs h1)
                  ∧ link_id link < length (link_congestion_costs h1)) links.
Proof.
  intros Hrun.
  apply find_affected_noc_routers_and_update_noc_costs_Some in Hrun
    as (hA & seenA & hB & dB & links & _ & Hp2 & Hlinks & Hp3).
  apply propose_traffic_flow_cost_loop in Hp2
    as [(_ & (E1 & E2) & E3 & E4 & E5 & E6) Hflows].
  apply propose_link_congestion_cost_loop in Hp3
    as [(_ & (E1' & E2') & E3' & E4' & E5' & E6') Hlinks_in].
  rewrite E1', E4', E3', E2', E5', E6', E1, E6, E3. split; [done|].
  by exists links.
Qed.

(** C3 (as amended): after a delta evaluation, commit is defined; for
    every affected flow the committed cost becomes the proposed cost and
    the proposed slot becomes the sentinel, and likewise for the
    congestion of every affected link; the scratch containers
    [affected_traffic_flows] and [affected_noc_links] are left as they
    are. *)
Theorem commit_after_delta_evaluation
    moved_blocks delta_c block_locs h rs h1 delta_c1 rs1 :
  find_affected_noc_routers_and_update_noc_costs noc_model flows route_flow
    moved_blocks delta_c block_locs h rs = Some (h1, delta_c1, rs1) →
  ∃ h2,
    commit_noc_costs INVALID_NOC_COST_TERM noc_model h1 = Some h2
    ∧ (∀ f, f ∈ affected_traffic_flows h1 →
         is_Some (proposed_traffic_flow_costs h1 !! f)
         ∧ traffic_flow_costs h2 !! f = proposed_traffic_flow_costs h1 !! f
         ∧ proposed_traffic_flow_costs h2 !! f = Some invalid_cost)
    ∧ (link_ids_dense noc_model →
       ∀ l, l ∈ affected_noc_links h1 →
         is_Some (proposed_link_congestion_costs h1 !! l)
         ∧ link_congestion_costs h2 !! l = proposed_link_congestion_costs h1 !! l
         ∧ proposed_link_congestion_costs h2 !! l = Some INVALID_NOC_COST_TERM)
    ∧ affected_traffic_flows h2 = affected_traffic_flows h1
    ∧ affected_noc_links h2 = affected_noc_links h1.
Proof.
  intros Hrun.
  pose proof Hrun as (_ & Haf & _)%delta_evaluation_summary.
  apply delta_evaluation_cost_slots in Hrun as [Hflows (links & Hlinks & Hlinks_in)].
  destruct (commit_slots_is_Some invalid_cost (affected_traffic_flows h1)
              (traffic_flow_costs h1) (proposed_traffic_flow_costs h1) Hflows)
    as [[c p] Hcp].
  destruct (commit_slots_is_Some INVALID_NOC_COST_TERM (link_id <$> links)
              (link_congestion_costs h1) (proposed_link_congestion_costs h1))
    as [[lc lp] Hlcp]; [by apply Forall_fmap|].
  eexists. split.
  { apply commit_noc_costs_Some. by exists c, p, links, lc, lp. }
  apply commit_slots_Some in Hcp as (_ & _ & _ & Hin).
  apply commit_slots_Some in Hlcp as (_ & _ & _ & Hlin).
  simpl. split_and!; [| |done|done].
  - intros f Hf. split.
    + apply lookup_lt_is_Some.
      rewrite Forall_forall in Hflows. by destruct (Hflows f Hf).
    + apply Hin; [|done]. rewrite Haf. apply first_occurrences_NoDup.
  - intros Hdense l Hl.
    rewrite (get_noc_links_ids _ _ Hdense Hlinks) in Hlin. split.
    + apply lookup_lt_is_Some.
      assert (l ∈ link_id <$> links) as (link & -> & Hlink)%list_elem_of_fmap
        by (by rewrite (get_noc_links_ids _ _ Hdense Hlinks), elem_of_elements).
      rewrite Forall_forall in Hlinks_in. by destruct (Hlinks_in link Hlink).
    + apply Hlin; [apply NoDup_elements|by rewrite elem_of_elements].
Qed.
End HandlerProperties.

(** ** Calls of the routing collaborator *)

Lemma filter_eq_not_elem_of (f : nat) (l : list nat) :
  f ∉ l → filter (λ g, g = f) l = [].
Proof.
  induction l as [|g l IH]; [done|]. intros [Hne Hl]%not_elem_of_cons.
  rewrite filter_cons, decide_False by (by intros ->). by apply IH.
Qed.

Lemma filter_eq_NoDup_length (f : nat) (l : list nat) :
  NoDup l → f ∈ l → length (filter (λ g, g = f) l) = 1.
Proof.
  induction 1 as [|g l Hg Hnd IH]; [by intros ?%elem_of_nil|].
  rewrite filter_cons. destruct (decide (g = f)) as [->|Hne].
  - intros _. simpl. by rewrite filter_eq_not_elem_of.
  - intros [->|Hf]%elem_of_cons; [done|by apply IH].
Qed.

Section CollaboratorCalls.
Context `{Scalar R}.
Variable noc_model : NocStorage R.
Variable noc_traffic_flows_storage : NocTrafficFlows R.
Variable RoutingState : Type.
Variable route_flow :
  RoutingState → NocRouterId → NocRouterId → NocTrafficFlowId →
  list NocLinkId → NocStorage R → list NocLinkId * RoutingState.

Implicit Type h : NocCostHandler R.
Implicit Type rs : RoutingState.
Implicit Type log : list nat.
Implicit Type seen : gset nat.

Local Abbreviation flows := noc_traffic_flows_storage.
Local Abbreviation logged := (logged_route_flow route_flow).

Lemma route_traffic_flow_logged f block_locs h rs log new_route h' rs' log' :
  route_traffic_flow noc_model flows logged f block_locs h (rs, log)
    = Some (new_route, h', (rs', log')) →
  log' = log ++ [f].
Proof.
  unfold route_traffic_flow. intros Hrun.
  apply bind_Some in Hrun as (flow & _ & Hrun).
  apply bind_Some in Hrun as (src_loc & _ & Hrun).
  apply bind_Some in Hrun as (snk_loc & _ & Hrun).
  apply bind_Some in Hrun as (src & _ & Hrun).
  apply bind_Some in Hrun as (snk & _ & Hrun).
  apply bind_Some in Hrun as (out & _ & Hrun).
  unfold logged_route_flow in Hrun. simpl in Hrun.
  destruct (route_flow _ _ _ _ _ _) as [new rs1].
  apply bind_Some in Hrun as (routes & _ & Hrun). by simplify_eq.
Qed.

Lemma re_route_traffic_flow_logged f block_locs h rs log h' rs' log' :
  re_route_traffic_flow noc_model flows logged f block_locs h (rs, log)
    = Some (h', (rs', log')) →
  log' = log ++ [f].
Proof.
  unfold re_route_traffic_flow. intros Hrun.
  apply bind_Some in Hrun as (flow & _ & Hrun).
  apply bind_Some in Hrun as (old & _ & Hrun).
  apply bind_Some in Hrun as (h1 & _ & Hrun).
  apply bind_Some in Hrun as (h2 & _ & Hrun).
  apply bind_Some in Hrun as ([[new h3] [rs3 log3]] & Hh3 & Hrun).
  apply bind_Some in Hrun as (h4 & _ & Hrun).
  apply route_traffic_flow_logged in Hh3. by simplify_eq.
Qed.

(** The collaborator is called for exactly the flows that the loop
    re-routes, once each and in order. *)
Lemma re_route_loop_logged block_locs cands h rs log seen h1 rs1 log1 seen1 :
  foldM (re_route_associated_traffic_flow noc_model flows logged block_locs)
        (h, (rs, log), seen) cands = Some (h1, (rs1, log1), seen1) →
  log1 = log ++ first_occurrences seen cands.
Proof.
  revert h rs log seen.
  induction cands as [|g cs IH]; intros h rs log seen Hrun; cbn [foldM] in Hrun.
  { simplify_eq. simpl. by rewrite app_nil_r. }
  apply bind_Some in Hrun as ([[hm [rsm logm]] seenm] & Hstep & Hrun).
  cbn [first_occurrences]. unfold re_route_associated_traffic_flow in Hstep.
  destruct (decide (g ∈ seen)) as [Hg|Hg].
  { simplify_eq. by apply IH in Hrun. }
  apply bind_Some in Hstep as (prev & _ & Hstep).
  apply bind_Some in Hstep as ([h2 [rs2 log2]] & Hh2 & Hstep).
  apply bind_Some in Hstep as (curr & _ & Hstep).
  apply re_route_traffic_flow_logged in Hh2. simplify_eq.
  apply IH in Hrun as ->. by rewrite <- app_assoc.
Qed.

Lemma candidate_traffic_flows_elem_of moved_blocks (block : t_pl_moved_block) f :
  block ∈ moved_blocks →
  f ∈ get_traffic_flows_associated_to_router_block flows (block_num block) →
  f ∈ candidate_traffic_flows flows moved_blocks.
Proof.
  intros Hblock Hf. unfold candidate_traffic_flows.
  apply list_elem_of_join. eexists. split; [|apply list_elem_of_fmap; by eexists].
  simpl. unfold check_if_cluster_block_has_traffic_flows.
  unfold get_traffic_flows_associated_to_router_block in Hf.
  destruct (traffic_flows_associated_to_router_blocks flows !! block_num block) as [fs|] eqn:Hfs.
  - rewrite bool_decide_eq_true_2 by (by eexists).
    unfold get_traffic_flows_associated_to_router_block. by rewrite Hfs.
  - simpl in Hf. by apply elem_of_nil in Hf.
Qed.

(** C7: within one delta evaluation no flow id is repeated in
    [affected_traffic_flows] and no link id in [affected_noc_links]; the
    routing collaborator is called exactly for the affected flows, once
    each, so that a flow whose source and sink router blocks both moved is
    re-routed exactly once. *)
Theorem affected_flows_and_links_distinct
    moved_blocks delta_c block_locs h rs log h1 delta_c1 rs1 log1 :
  find_affected_noc_routers_and_update_noc_costs noc_model flows logged
    moved_blocks delta_c block_locs h (rs, log) = Some (h1, delta_c1, (rs1, log1)) →
  NoDup (affected_traffic_flows h1)
  ∧ NoDup (elements (affected_noc_links h1))
  ∧ log1 = log ++ affected_traffic_flows h1
  ∧ ∀ f (source_block sink_block : t_pl_moved_block),
      source_block ∈ moved_blocks → sink_block ∈ moved_blocks →
      f ∈ get_traffic_flows_associated_to_router_block flows (block_num source_block) →
      f ∈ get_traffic_flows_associated_to_router_block flows (block_num sink_block) →
      length (filter (λ g, g = f) (affected_traffic_flows h1)) = 1.
Proof.
  intros Hrun.
  pose proof Hrun as (_ & Haf & _)%delta_evaluation_summary.
  apply find_affected_noc_routers_and_update_noc_costs_Some in Hrun
    as (hA & seenA & hB & dB & links & Hre & _).
  apply re_route_loop_logged in Hre. rewrite Haf.
  split_and!; [apply first_occurrences_NoDup|apply NoDup_elements|done|].
  intros f source_block sink_block Hsrc _ Hf _.
  apply filter_eq_NoDup_length; [apply first_occurrences_NoDup|].
  apply first_occurrences_elem_of. split; [|apply not_elem_of_empty].
  by eapply candidate_traffic_flows_elem_of.
Qed.
End CollaboratorCalls.

(** ** Initial routing and its costs *)

Section InitialRouting.
Context `{Scalar R}.
Variable noc_model : NocStorage R.
Variable noc_traffic_flows_storage : NocTrafficFlows R.
Variable RoutingState : Type.
Variable route_flow :
  RoutingState → NocRouterId → NocRouterId → NocTrafficFlowId →
  list NocLinkId → NocStorage R → list NocLinkId * RoutingState.

Implicit Type h : NocCostHandler R.
Implicit Type rs : RoutingState.
Implicit Type log : list nat.
Implicit Type block_locs : list t_block_loc.
Implicit Type new_routes : list (list nat).

Local Abbreviation flows := noc_traffic_flows_storage.
Local Abbreviation logged := (logged_route_flow route_flow).
Local Abbreviation flow_ids := (get_all_traffic_flow_id noc_traffic_flows_storage).

(** One iteration of the initial routing: the route of the flow is the
    provided one when routes are provided; the bandwidth of the flow is
    added along it on top of the current usage; the collaborator is called
    exactly when no routes are provided. *)
Lemma initial_route_traffic_flow_Some new_routes block_locs h rs log f h' rs' log' :
  initial_route_traffic_flow noc_model flows logged new_routes block_locs (h, (rs, log)) f
    = Some (h', (rs', log')) →
  ∃ flow route,
    get_single_noc_traffic_flow flows f = Some flow
    ∧ f < length (traffic_flow_routes h)
    ∧ traffic_flow_routes h' = <[f := route]> (traffic_flow_routes h)
    ∧ (new_routes ≠ [] → new_routes !! f = Some route)
    ∧ log' = log ++ (if decide (new_routes = []) then [f] else [])
    ∧ link_bandwidth_usages h'
      = add_along_route route (usage_weight 1 (traffic_flow_bandwidth flow))
          (link_bandwidth_usages h)
    ∧ traffic_flow_routes_backup h' = traffic_flow_routes_backup h
    ∧ same_cost_caches h h' ∧ same_scratch h h'.
Proof.
  unfold initial_route_traffic_flow. intros Hrun.
  apply bind_Some in Hrun as (flow & Hflow & Hrun).
  apply bind_Some in Hrun as ([[route h1] [rs1 log1]] & Hroute & Hrun).
  apply bind_Some in Hrun as (h2 & Hh2 & Hrun).
  apply update_traffic_flow_link_usage_Some in Hh2 as [-> _]. simplify_eq.
  exists flow, route. destruct new_routes as [|r0 rest].
  - pose proof Hroute as ->%route_traffic_flow_logged.
    apply route_traffic_flow_Some in Hroute as [Hf ->].
    rewrite decide_True by done. by split_and!.
  - apply bind_Some in Hroute as (provided & Hprovided & Hroute).
    apply bind_Some in Hroute as (routes & Hroutes & Hroute).
    apply vec_write_Some in Hroutes as [Hf ->]. simplify_eq.
    rewrite decide_False by done. rewrite app_nil_r. by split_and!.
Qed.

(** The loop of the initial routing over distinct flows [fs]. *)
Lemma initial_routing_loop new_routes block_locs fs h rs log h1 rs1 log1 :
  NoDup fs →
  foldM (initial_route_traffic_flow noc_model flows logged new_routes block_locs)
        (h, (rs, log)) fs = Some (h1, (rs1, log1)) →
  same_cost_caches h h1 ∧ same_scratch h h1
  ∧ traffic_flow_routes_backup h1 = traffic_flow_routes_backup h
  ∧ length (traffic_flow_routes h1) = length (traffic_flow_routes h)
  ∧ (∀ f, f ∉ fs → traffic_flow_routes h1 !! f = traffic_flow_routes h !! f)
  ∧ (new_routes ≠ [] → ∀ f, f ∈ fs → traffic_flow_routes h1 !! f = new_routes !! f)
  ∧ log1 = log ++ (if decide (new_routes = []) then fs else [])
  ∧ link_bandwidth_usages h1
    = fold_left (λ u f, add_along_route (route_of h1 f)
                          (usage_weight 1 (bandwidth_of flows f)) u)
                fs (link_bandwidth_usages h).
Proof.
  intros Hnd. revert h rs log.
  induction Hnd as [|g fs Hg Hnd IH]; intros h rs log Hrun; cbn [foldM] in Hrun.
  { simplify_eq. split_and!; try done.
    - intros _ f Hf. by apply elem_of_nil in Hf.
    - destruct (decide (new_routes = [])); by rewrite app_nil_r. }
  apply bind_Some in Hrun as ([hm [rsm logm]] & Hstep & Hrun).
  apply initial_route_traffic_flow_Some in Hstep
    as (flow & route & Hflow & Hlt & Hroutes & Hnew & -> & Husage & Hbackup & Hcc & Hsc).
  apply IH in Hrun as (Hcc' & Hsc' & Hbackup' & Hlen' & Hout' & Hin' & -> & Husage').
  assert (Hg1 : traffic_flow_routes h1 !! g = Some route).
  { rewrite (Hout' g Hg), Hroutes. by apply list_lookup_insert_eq. }
  split_and!.
  - destruct Hcc as (E1 & E2 & E3 & E4), Hcc' as (E1' & E2' & E3' & E4').
    unfold same_cost_caches. by rewrite E1', E2', E3', E4'.
  - destruct Hsc as (E1 & E2), Hsc' as (E1' & E2').
    unfold same_scratch. by rewrite E1', E2'.
  - by rewrite Hbackup'.
  - by rewrite Hlen', Hroutes, length_insert.
  - intros f [Hfg Hf]%not_elem_of_cons. rewrite (Hout' f Hf), Hroutes.
    by apply list_lookup_insert_ne.
  - intros Hne f [->|Hf]%elem_of_cons.
    + by rewrite Hg1, Hnew.
    + by apply Hin'.
  - rewrite <- app_assoc. by destruct (decide (new_routes = [])).
  - rewrite Husage'. cbn [fold_left].
    by rewrite (route_of_lookup _ _ _ Hg1), (bandwidth_of_lookup _ _ _ Hflow), Husage.
Qed.

(** *** The cost loops that follow the initial routing *)

Lemma flow_costs_only_refl h : flow_costs_only h h.
Proof. by unfold flow_costs_only, same_routing, same_scratch. Qed.

Lemma flow_costs_only_trans h1 h2 h3 :
  flow_costs_only h1 h2 → flow_costs_only h2 h3 → flow_costs_only h1 h3.
Proof.
  unfold flow_costs_only, same_routing, same_scratch.
  intros ((A1 & A2 & A3) & (A4 & A5) & A6 & A7 & A8 & A9)
         ((B1 & B2 & B3) & (B4 & B5) & B6 & B7 & B8 & B9).
  by rewrite B1, B2, B3, B4, B5, B6, B7, B8, B9.
Qed.

Lemma flow_cost_of_lookup h f cost :
  traffic_flow_costs h !! f = Some cost → flow_cost_of h f = cost.
Proof. unfold flow_cost_of. by intros ->. Qed.

Lemma comp_traffic_flow_aggregate_bandwidth_cost_Some h acc f h' acc' :
  comp_traffic_flow_aggregate_bandwidth_cost flows (h, acc) f = Some (h', acc') →
  ∃ flow route slot,
    get_single_noc_traffic_flow flows f = Some flow
    ∧ traffic_flow_routes h !! f = Some route
    ∧ traffic_flow_costs h !! f = Some slot
    ∧ traffic_flow_costs h'
      = <[f := {| flow_aggregate_bandwidth :=
                    calculate_traffic_flow_aggregate_bandwidth_cost route flow;
                  flow_latency := flow_latency slot;
                  flow_latency_overrun := flow_latency_overrun slot |}]>
          (traffic_flow_costs h)
    ∧ acc' = s_add acc (calculate_traffic_flow_aggregate_bandwidth_cost route flow)
    ∧ flow_costs_only h h'.
Proof.
  unfold comp_traffic_flow_aggregate_bandwidth_cost. intros Hrun.
  apply bind_Some in Hrun as (flow & Hflow & Hrun).
  apply bind_Some in Hrun as (route & Hroute & Hrun).
  apply bind_Some in Hrun as (slot & Hslot & Hrun).
  apply bind_Some in Hrun as (costs & Hcosts & Hrun).
  apply vec_write_Some in Hcosts as [Hf ->]. simplify_eq.
  exists flow, route, slot. split_and!; try done.
  unfold flow_costs_only, same_routing, same_scratch. simpl.
  by rewrite length_insert.
Qed.

(** The aggregate-bandwidth loop caches the kernel output of every flow and
    returns the sum of the cached values. *)
Lemma comp_aggregate_bandwidth_loop fs h acc h' acc' :
  NoDup fs →
  foldM (comp_traffic_flow_aggregate_bandwidth_cost flows) (h, acc) fs = Some (h', acc') →
  flow_costs_only h h'
  ∧ (∀ f, f ∉ fs → traffic_flow_costs h' !! f = traffic_flow_costs h !! f)
  ∧ (∀ f, f ∈ fs →
       ∃ flow route slot,
         get_single_noc_traffic_flow flows f = Some flow
         ∧ traffic_flow_routes h !! f = Some route
         ∧ traffic_flow_costs h !! f = Some slot
         ∧ traffic_flow_costs h' !! f
           = Some {| flow_aggregate_bandwidth :=
                       calculate_traffic_flow_aggregate_bandwidth_cost route flow;
                     flow_latency := flow_latency slot;
                     flow_latency_overrun := flow_latency_overrun slot |})
  ∧ acc' = fold_left (λ a f, s_add a (flow_aggregate_bandwidth (flow_cost_of h' f))) fs acc.
Proof.
  intros Hnd. revert h acc.
  induction Hnd as [|g fs Hg Hnd IH]; intros h acc Hrun; cbn [foldM] in Hrun.
  { simplify_eq. split_and!; [apply flow_costs_only_refl|done| |done].
    intros f Hf. by apply elem_of_nil in Hf. }
  apply bind_Some in Hrun as ([hm accm] & Hstep & Hrun).
  apply comp_traffic_flow_aggregate_bandwidth_cost_Some in Hstep
    as (flow & route & slot & Hflow & Hroute & Hslot & Hcosts & -> & Honly).
  apply IH in Hrun as (Honly' & Hout' & Hin' & ->).
  assert (Hg_lt : g < length (traffic_flow_costs h)) by (by eapply lookup_lt_Some).
  assert (Hg' : traffic_flow_costs h' !! g
                = Some {| flow_aggregate_bandwidth :=
                            calculate_traffic_flow_aggregate_bandwidth_cost route flow;
                          flow_latency := flow_latency slot;
                          flow_latency_overrun := flow_latency_overrun slot |}).
  { rewrite (Hout' g Hg), Hcosts. by apply list_lookup_insert_eq. }
  split_and!.
  - by eapply flow_costs_only_trans.
  - intros f [Hfg Hf]%not_elem_of_cons. rewrite (Hout' f Hf), Hcosts.
    by apply list_lookup_insert_ne.
  - intros f [->|Hf]%elem_of_cons.
    + by exists flow, route, slot.
    + assert (f ≠ g) as Hfg by (by intros ->).
      destruct (Hin' f Hf) as (flow' & route' & slot' & ? & Hroute' & Hslot' & ?).
      destruct Honly as ((E1 & _) & _).
      rewrite E1 in Hroute'. rewrite Hcosts, list_lookup_insert_ne in Hslot' by done.
      by exists flow', route', slot'.
  - cbn [fold_left]. by rewrite (flow_cost_of_lookup _ _ _ Hg').
Qed.

Lemma comp_traffic_flow_latency_cost_Some h acc f h' acc' :
  comp_traffic_flow_latency_cost noc_model flows (h, acc) f = Some (h', acc') →
  ∃ flow route slot lat over,
    get_single_noc_traffic_flow flows f = Some flow
    ∧ traffic_flow_routes h !! f = Some route
    ∧ traffic_flow_costs h !! f = Some slot
    ∧ calculate_traffic_flow_latency_cost route noc_model flow = Some (lat, over)
    ∧ traffic_flow_costs h'
      = <[f := {| flow_aggregate_bandwidth := flow_aggregate_bandwidth slot;
                  flow_latency := lat;
                  flow_latency_overrun := over |}]>
          (traffic_flow_costs h)
    ∧ acc' = (s_add acc.1 lat, s_add acc.2 over)
    ∧ flow_costs_only h h'.
Proof.
  unfold comp_traffic_flow_latency_cost. destruct acc as [acc1 acc2]. intros Hrun.
  apply bind_Some in Hrun as (flow & Hflow & Hrun).
  apply bind_Some in Hrun as (route & Hroute & Hrun).
  apply bind_Some in Hrun as ([lat over] & Hlat & Hrun).
  apply bind_Some in Hrun as (slot & Hslot & Hrun).
  apply bind_Some in Hrun as (costs & Hcosts & Hrun).
  apply vec_write_Some in Hcosts as [Hf ->]. simplify_eq.
  exists flow, route, slot, lat, over. split_and!; try done.
  unfold flow_costs_only, same_routing, same_scratch. simpl.
  by rewrite length_insert.
Qed.

(** The latency loop caches the two kernel outputs of every flow, keeps the
    cached aggregate bandwidth, and returns the two sums. *)
Lemma comp_latency_loop fs h acc h' acc' :
  NoDup fs →
  foldM (comp_traffic_flow_latency_cost noc_model flows) (h, acc) fs = Some (h', acc') →
  flow_costs_only h h'
  ∧ (∀ f, f ∉ fs → traffic_flow_costs h' !! f = traffic_flow_costs h !! f)
  ∧ (∀ f, f ∈ fs →
       ∃ flow route slot lat over,
         get_single_noc_traffic_flow flows f = Some flow
         ∧ traffic_flow_routes h !! f = Some route
         ∧ traffic_flow_costs h !! f = Some slot
         ∧ calculate_traffic_flow_latency_cost route noc_model flow = Some (lat, over)
         ∧ traffic_flow_costs h' !! f
           = Some {| flow_aggregate_bandwidth := flow_aggregate_bandwidth slot;
                     flow_latency := lat;
                     flow_latency_overrun := over |})
  ∧ acc'.1 = fold_left (λ a f, s_add a (flow_latency (flow_cost_of h' f))) fs acc.1
  ∧ acc'.2 = fold_left (λ a f, s_add a (flow_latency_overrun (flow_cost_of h' f))) fs acc.2.
Proof.
  intros Hnd. revert h acc.
  induction Hnd as [|g fs Hg Hnd IH]; intros h acc Hrun; cbn [foldM] in Hrun.
  { simplify_eq. split_and!; [apply flow_costs_only_refl|done| |done|done].
    intros f Hf. by apply elem_of_nil in Hf. }
  apply bind_Some in Hrun as ([hm accm] & Hstep & Hrun).
  apply comp_traffic_flow_latency_cost_Some in Hstep
    as (flow & route & slot & lat & over & Hflow & Hroute & Hslot & Hlat & Hcosts & -> & Honly).
  apply IH in Hrun as (Honly' & Hout' & Hin' & Hacc1 & Hacc2). simpl in Hacc1, Hacc2.
  assert (Hg_lt : g < length (traffic_flow_costs h)) by (by eapply lookup_lt_Some).
  assert (Hg' : traffic_flow_costs h' !! g
                = Some {| flow_aggregate_bandwidth := flow_aggregate_bandwidth slot;
                          flow_latency := lat;
                          flow_latency_overrun := over |}).
  { rewrite (Hout' g Hg), Hcosts. by apply list_lookup_insert_eq. }
  split_and!.
  - by eapply flow_costs_only_trans.
  - intros f [Hfg Hf]%not_elem_of_cons. rewrite (Hout' f Hf), Hcosts.
    by apply list_lookup_insert_ne.
  - intros f [->|Hf]%elem_of_cons.
    + by exists flow, route, slot, lat, over.
    + assert (f ≠ g) as Hfg by (by intros ->).
      destruct (Hin' f Hf) as (flow' & route' & slot' & lat' & over' & ? & Hroute' & Hslot' & ? & ?).
      destruct Honly as ((E1 & _) & _).
      rewrite E1 in Hroute'. rewrite Hcosts, list_lookup_insert_ne in Hslot' by done.
      by exists flow', route', slot', lat', over'.
  - cbn [fold_left]. by rewrite (flow_cost_of_lookup _ _ _ Hg').
  - cbn [fold_left]. by rewrite (flow_cost_of_lookup _ _ _ Hg').
Qed.

Lemma link_costs_only_refl h : link_costs_only h h.
Proof. by unfold link_costs_only, same_routing, same_scratch. Qed.

Lemma link_costs_only_trans h1 h2 h3 :
  link_costs_only h1 h2 → link_costs_only h2 h3 → link_costs_only h1 h3.
Proof.
  unfold link_costs_only, same_routing, same_scratch.
  intros ((A1 & A2 & A3) & (A4 & A5) & A6 & A7 & A8 & A9)
         ((B1 & B2 & B3) & (B4 & B5) & B6 & B7 & B8 & B9).
  by rewrite B1, B2, B3, B4, B5, B6, B7, B8, B9.
Qed.

Lemma link_congestion_of_lookup h l cost :
  link_congestion_costs h !! l = Some cost → link_congestion_of h l = cost.
Proof. unfold link_congestion_of. by intros ->. Qed.

Lemma get_link_congestion_cost_usages (link : NocLink R) h h' :
  link_bandwidth_usages h' = link_bandwidth_usages h →
  get_link_congestion_cost link h' = get_link_congestion_cost link h.
Proof. unfold get_link_congestion_cost. by intros ->. Qed.

Lemma link_ids_dense_lookup l (link : NocLink R) :
  link_ids_dense noc_model → get_single_noc_link noc_model l = Some link → link_id link = l.
Proof.
  unfold link_ids_dense, get_single_noc_link. intros Hdense Hlink.
  assert (Hid : (link_id <$> link_storage noc_model) !! l = Some (link_id link))
    by (by rewrite list_lookup_fmap, Hlink).
  rewrite Hdense in Hid. by apply lookup_seq in Hid as [? _].
Qed.

Lemma comp_link_congestion_cost_Some h acc (link : NocLink R) h' acc' :
  comp_link_congestion_cost (h, acc) link = Some (h', acc') →
  ∃ cost,
    get_link_congestion_cost link h = Some cost
    ∧ link_id link < length (link_congestion_costs h)
    ∧ link_congestion_costs h' = <[link_id link := cost]> (link_congestion_costs h)
    ∧ acc' = s_add acc cost
    ∧ link_costs_only h h'.
Proof.
  unfold comp_link_congestion_cost. intros Hrun.
  apply bind_Some in Hrun as (cost & Hcost & Hrun).
  apply bind_Some in Hrun as (costs & Hcosts & Hrun).
  apply vec_write_Some in Hcosts as [Hl ->]. simplify_eq.
  exists cost. split_and!; try done.
  unfold link_costs_only, same_routing, same_scratch. simpl.
  by rewrite length_insert.
Qed.

(** The congestion loop caches the kernel output of every link and, when
    no link id repeats, returns the sum of the cached values. *)
Lemma comp_congestion_loop (links : list (NocLink R)) h acc h' acc' :
  foldM comp_link_congestion_cost (h, acc) links = Some (h', acc') →
  link_costs_only h h'
  ∧ (∀ l, l ∉ link_id <$> links → link_congestion_costs h' !! l = link_congestion_costs h !! l)
  ∧ (NoDup (link_id <$> links) →
     (∀ link, link ∈ links →
        ∃ cost, get_link_congestion_cost link h = Some cost
                ∧ link_congestion_costs h' !! link_id link = Some cost)
     ∧ acc' = fold_left (λ a (link : NocLink R),
                           s_add a (link_congestion_of h' (link_id link))) links acc).
Proof.
  revert h acc. induction links as [|k links IH]; intros h acc Hrun; cbn [foldM] in Hrun.
  { simplify_eq. split_and!; [apply link_costs_only_refl|done|].
    intros _. split; [|done]. intros link Hlink. by apply elem_of_nil in Hlink. }
  apply bind_Some in Hrun as ([hm accm] & Hstep & Hrun).
  apply comp_link_congestion_cost_Some in Hstep as (cost & Hcost & Hlt & Hcosts & -> & Honly).
  apply IH in Hrun as (Honly' & Hout' & Hin'). rewrite fmap_cons.
  split_and!.
  - by eapply link_costs_only_trans.
  - intros l [Hlk Hl]%not_elem_of_cons. rewrite (Hout' l Hl), Hcosts.
    by apply list_lookup_insert_ne.
  - intros [Hk Hnd]%NoDup_cons. destruct (Hin' Hnd) as [Hin'' ->].
    assert (Hk' : link_congestion_costs h' !! link_id k = Some cost).
    { rewrite (Hout' _ Hk), Hcosts. by apply list_lookup_insert_eq. }
    split.
    + intros link [->|Hlink]%elem_of_cons; [by exists cost|].
      destruct (Hin'' link Hlink) as (cost' & Hcost' & Hcached).
      exists cost'. split; [|done].
      rewrite <- Hcost'. symmetry. apply get_link_congestion_cost_usages.
      by destruct Honly as ((_ & _ & ?) & _).
    + cbn [fold_left]. by rewrite (link_congestion_of_lookup _ _ _ Hk').
Qed.

(** *** Initial routing and re-initialisation *)

Lemma get_all_traffic_flow_id_elem_of f :
  f ∈ flow_ids ↔ f < get_number_of_traffic_flows flows.
Proof. unfold get_all_traffic_flow_id. rewrite elem_of_seq. lia. Qed.

Lemma initial_noc_routing_Some new_routes block_locs h rs log h1 rs1 log1 :
  initial_noc_routing noc_model flows logged new_routes block_locs h (rs, log)
    = Some (h1, (rs1, log1)) →
  same_cost_caches h h1 ∧ same_scratch h h1
  ∧ traffic_flow_routes_backup h1 = traffic_flow_routes_backup h
  ∧ (new_routes ≠ [] →
     ∀ f, f < get_number_of_traffic_flows flows →
       traffic_flow_routes h1 !! f = new_routes !! f)
  ∧ log1 = log ++ (if decide (new_routes = []) then flow_ids else [])
  ∧ link_bandwidth_usages h1
    = fold_left (λ u f, add_along_route (route_of h1 f)
                          (usage_weight 1 (bandwidth_of flows f)) u)
                flow_ids (link_bandwidth_usages h).
Proof.
  unfold initial_noc_routing. case_decide as Hassert; [|done]. intros Hrun.
  apply initial_routing_loop in Hrun
    as (Hcc & Hsc & Hbackup & _ & _ & Hin & Hlog & Husage); [|apply NoDup_seq].
  split_and!; try done.
  intros Hne f Hf. apply Hin; [done|]. by apply get_all_traffic_flow_id_elem_of.
Qed.

(** C2 (as amended): [initial_noc_routing] neither zeroes the bandwidth
    usage nor computes costs.  For every flow, in id order, it adopts the
    provided route when routes are provided and otherwise calls the routing
    collaborator, and adds the bandwidth of the flow along the adopted
    route, on top of the usage it starts from; the cost caches are left
    alone.  [reinitialize_noc_routing] first zeroes the usage of every
    link, then runs the initial routing, then caches for every flow the
    three kernel outputs and for every link the congestion, and stores the
    four sums of the cached values in the cost terms. *)
Theorem initial_routing_and_reinitialization :
  (∀ new_routes block_locs h rs log h1 rs1 log1,
     initial_noc_routing noc_model flows logged new_routes block_locs h (rs, log)
       = Some (h1, (rs1, log1)) →
     same_cost_caches h h1
     ∧ (new_routes ≠ [] →
        ∀ f, f < get_number_of_traffic_flows flows →
          traffic_flow_routes h1 !! f = new_routes !! f)
     ∧ log1 = log ++ (if decide (new_routes = []) then flow_ids else [])
     ∧ link_bandwidth_usages h1
       = fold_left (λ u f, add_along_route (route_of h1 f)
                             (usage_weight 1 (bandwidth_of flows f)) u)
                   flow_ids (link_bandwidth_usages h))
  ∧ (∀ costs new_routes block_locs h rs log h' costs' rs' log',
       reinitialize_noc_routing noc_model flows logged costs new_routes block_locs
         h (rs, log) = Some (h', costs', (rs', log')) →
       (new_routes ≠ [] →
        ∀ f, f < get_number_of_traffic_flows flows →
          traffic_flow_routes h' !! f = new_routes !! f)
       ∧ log' = log ++ (if decide (new_routes = []) then flow_ids else [])
       ∧ link_bandwidth_usages h'
         = fold_left (λ u f, add_along_route (route_of h' f)
                               (usage_weight 1 (bandwidth_of flows f)) u)
                     flow_ids (replicate (length (link_bandwidth_usages h)) s_zero)
       ∧ (∀ f flow,
            get_single_noc_traffic_flow flows f = Some flow →
            ∃ route lat over,
              traffic_flow_routes h' !! f = Some route
              ∧ calculate_traffic_flow_latency_cost route noc_model flow = Some (lat, over)
              ∧ traffic_flow_costs h' !! f
                = Some {| flow_aggregate_bandwidth :=
                            calculate_traffic_flow_aggregate_bandwidth_cost route flow;
                          flow_latency := lat;
                          flow_latency_overrun := over |})
       ∧ aggregate_bandwidth (noc_cost_terms costs')
         = sum_of ((λ f, flow_aggregate_bandwidth (flow_cost_of h' f)) <$> flow_ids)
       ∧ latency (noc_cost_terms costs')
         = sum_of ((λ f, flow_latency (flow_cost_of h' f)) <$> flow_ids)
       ∧ latency_overrun (noc_cost_terms costs')
         = sum_of ((λ f, flow_latency_overrun (flow_cost_of h' f)) <$> flow_ids)
       ∧ (link_ids_dense noc_model →
          (∀ l link,
             get_single_noc_link noc_model l = Some link →
             ∃ cost, get_link_congestion_cost link h' = Some cost
                     ∧ link_congestion_costs h' !! l = Some cost)
          ∧ congestion (noc_cost_terms costs')
            = sum_of ((λ link : NocLink R, link_congestion_of h' (link_id link))
                      <$> link_storage noc_model))).
Proof.
  split.
  { intros new_routes block_locs h rs log h1 rs1 log1 Hrun.
    apply initial_noc_routing_Some in Hrun as (? & _ & _ & ? & ? & ?). by split_and!. }
  intros costs new_routes block_locs h rs log h' costs' rs' log'.
  unfold reinitialize_noc_routing. case_decide as Hassert; [|done]. intros Hrun.
  apply bind_Some in Hrun as ([h1 [rs1 log1]] & Hinit & Hrun).
  apply bind_Some in Hrun as ([h2 agg] & Hagg & Hrun).
  apply bind_Some in Hrun as ([h3 [lat over]] & Hlat & Hrun).
  apply bind_Some in Hrun as ([h4 cong] & Hcong & Hrun).
  simplify_eq. simpl.
  apply initial_noc_routing_Some in Hinit as (_ & _ & _ & Hseeds & Hlog & Husage).
  apply comp_aggregate_bandwidth_loop in Hagg
    as (Honly2 & _ & Hin2 & Hsum2); [|apply NoDup_seq].
  apply comp_latency_loop in Hlat
    as (Honly3 & Hout3 & Hin3 & Hsum3 & Hsum3'); [|apply NoDup_seq].
  apply comp_congestion_loop in Hcong as (Honly4 & _ & Hlinks).
  pose proof Honly2 as ((R2 & _ & U2) & _).
  pose proof Honly3 as ((R3 & _ & U3) & _).
  pose proof Honly4 as ((R4 & _ & U4) & _ & C4 & _).
  simpl in *.
  assert (Hroutes : traffic_flow_routes h' = traffic_flow_routes h1)
    by (by rewrite R4, R3, R2).
  assert (Hroute_of : ∀ f, route_of h' f = route_of h1 f)
    by (intros f; unfold route_of; by rewrite Hroutes).
  assert (Hcost_of : ∀ f, flow_cost_of h' f = flow_cost_of h3 f)
    by (intros f; unfold flow_cost_of; by rewrite C4).
  split_and!.
  - intros Hne f Hf. rewrite Hroutes. by apply Hseeds.
  - done.
  - rewrite U4, U3, U2, Husage. apply fold_left_ext_in. intros f u _. by rewrite Hroute_of.
  - intros f flow Hflow.
    assert (Hf : f ∈ flow_ids).
    { apply get_all_traffic_flow_id_elem_of. by eapply lookup_lt_Some. }
    destruct (Hin2 f Hf) as (flow2 & route2 & slot2 & Hflow2 & Hroute2 & _ & Hcost2).
    destruct (Hin3 f Hf)
      as (flow3 & route3 & slot3 & lat3 & over3 & Hflow3 & Hroute3 & Hslot3 & Hlat3 & Hcost3).
    rewrite R2 in Hroute3. simplify_eq.
    exists route2, lat3, over3. by rewrite Hroutes, C4.
  - rewrite Hsum2. unfold sum_of. rewrite fold_left_fmap.
    apply fold_left_ext_in. intros f a Hf. f_equal. rewrite Hcost_of.
    destruct (Hin2 f Hf) as (flow2 & route2 & slot2 & _ & _ & _ & Hcost2).
    destruct (Hin3 f Hf)
      as (flow3 & route3 & slot3 & lat3 & over3 & _ & _ & Hslot3 & _ & Hcost3).
    rewrite (flow_cost_of_lookup _ _ _ Hcost2), (flow_cost_of_lookup _ _ _ Hcost3).
    by simplify_eq.
  - rewrite Hsum3. unfold sum_of. rewrite fold_left_fmap.
    apply fold_left_ext_in. intros f a _. by rewrite Hcost_of.
  - rewrite Hsum3'. unfold sum_of. rewrite fold_left_fmap.
    apply fold_left_ext_in. intros f a _. by rewrite Hcost_of.
  - intros Hdense.
    assert (Hnd : NoDup (link_id <$> link_storage noc_model)).
    { unfold link_ids_dense in Hdense. rewrite Hdense. apply NoDup_seq. }
    destruct (Hlinks Hnd) as [Hcached ->]. split.
    + intros l link Hlink.
      destruct (Hcached link) as (cost & Hcost & Hcost').
      { by eapply list_elem_of_lookup_2. }
      exists cost. rewrite (link_ids_dense_lookup _ _ Hdense Hlink) in Hcost'.
      split; [|done]. rewrite <- Hcost. by apply get_link_congestion_cost_usages.
    + unfold sum_of. by rewrite fold_left_fmap.
Qed.
End InitialRouting.

(** ** Normalisation factors *)

(** C6 (as amended): a positive term gives the factor [min(1 / term,
    MAX_INV)] for each of the four terms.  The latency-overrun and
    congestion factors are pinned to [MAX_INV] whenever the term is not
    positive.  The aggregate-bandwidth and latency factors carry no such
    guard: they are [min(1 / term, MAX_INV)] for every term, which is
    [MAX_INV] at zero (as [1 / 0] is [+inf]) for a finite [MAX_INV]. *)
Theorem normalization_factors_pinned
    (MAX_INV_NOC_AGGREGATE_BANDWIDTH_COST MAX_INV_NOC_LATENCY_COST
     MAX_INV_NOC_CONGESTION_COST : float) (costs : t_placer_costs float) :
  let terms := noc_cost_terms costs in
  let factors :=
    noc_cost_norm_factors
      (update_noc_normalization_factors MAX_INV_NOC_AGGREGATE_BANDWIDTH_COST
         MAX_INV_NOC_LATENCY_COST MAX_INV_NOC_CONGESTION_COST costs) in
  (aggregate_bandwidth factors
   = std_min (1 / aggregate_bandwidth terms)%float MAX_INV_NOC_AGGREGATE_BANDWIDTH_COST
   ∧ latency factors = std_min (1 / latency terms)%float MAX_INV_NOC_LATENCY_COST)
  ∧ ((0 <? latency_overrun terms)%float = true →
     latency_overrun factors
     = std_min (1 / latency_overrun terms)%float MAX_INV_NOC_LATENCY_COST)
  ∧ ((0 <? congestion terms)%float = true →
     congestion factors = std_min (1 / congestion terms)%float MAX_INV_NOC_CONGESTION_COST)
  ∧ ((0 <? latency_overrun terms)%float = false →
     latency_overrun factors = MAX_INV_NOC_LATENCY_COST)
  ∧ ((0 <? congestion terms)%float = false →
     congestion factors = MAX_INV_NOC_CONGESTION_COST)
  ∧ ((MAX_INV_NOC_AGGREGATE_BANDWIDTH_COST <? infinity)%float = true →
     aggregate_bandwidth terms = 0%float →
     aggregate_bandwidth factors = MAX_INV_NOC_AGGREGATE_BANDWIDTH_COST)
  ∧ ((MAX_INV_NOC_LATENCY_COST <? infinity)%float = true →
     latency terms = 0%float →
     latency factors = MAX_INV_NOC_LATENCY_COST).
Proof.
  intros terms factors. subst factors. unfold update_noc_normalization_factors.
  fold terms. simpl. change zero with 0%float. change (float_of_Z 1) with 1%float.
  split_and!; try done.
  - by intros ->.
  - by intros ->.
  - by intros ->.
  - by intros ->.
  - intros Hfin ->.
    transitivity (if (MAX_INV_NOC_AGGREGATE_BANDWIDTH_COST <? infinity)%float
                  then MAX_INV_NOC_AGGREGATE_BANDWIDTH_COST else infinity);
      [reflexivity|by rewrite Hfin].
  - intros Hfin ->.
    transitivity (if (MAX_INV_NOC_LATENCY_COST <? infinity)%float
                  then MAX_INV_NOC_LATENCY_COST else infinity);
      [reflexivity|by rewrite Hfin].
Qed.

(** ** The router-swap proposer *)

Section ProposerProperties.
Context {R : Type}.
Variable RngContainer : Type.
Variable irand : RngContainer → Z → Z * RngContainer.
Variable t_logical_block_type : Type.
Variable t_physical_tile_type : Type.
Variable block_type : ClusterBlockId → t_logical_block_type.
Variable get_physical_type : Z → Z → Z → t_physical_tile_type.
Variable is_tile_compatible : t_physical_tile_type → t_logical_block_type → bool.
Variable BlkLocRegistry : Type.
Variable block_locs : BlkLocRegistry → list t_block_loc.
Variable PlaceMacros : Type.
Variable t_pl_blocks_to_be_moved : Type.
Variable rlim_t : Type.
Variable find_to_loc_uniform :
  t_logical_block_type → rlim_t → t_pl_loc → t_pl_loc → ClusterBlockId →
  BlkLocRegistry → RngContainer → bool * t_pl_loc * RngContainer.
Variable create_move :
  t_pl_blocks_to_be_moved → ClusterBlockId → t_pl_loc → BlkLocRegistry → PlaceMacros →
  e_create_move * t_pl_blocks_to_be_moved.
Variable floorplan_legal : t_pl_blocks_to_be_moved → bool.
Variable t_pl_loc_default : t_pl_loc.
Variable noc_traffic_flows_storage : NocTrafficFlows R.

Local Abbreviation select :=
  (select_random_router_cluster RngContainer irand t_logical_block_type
     t_physical_tile_type block_type get_physical_type is_tile_compatible
     noc_traffic_flows_storage).
Local Abbreviation propose :=
  (propose_router_swap RngContainer irand t_logical_block_type t_physical_tile_type
     block_type get_physical_type is_tile_compatible BlkLocRegistry block_locs
     PlaceMacros t_pl_blocks_to_be_moved rlim_t find_to_loc_uniform create_move
     floorplan_legal t_pl_loc_default noc_traffic_flows_storage).
Local Abbreviation router_clusters :=
  (get_router_clusters_in_netlist noc_traffic_flows_storage).

(** The destination handed to [find_to_loc_uniform]: default-constructed,
    with the layer of the source. *)
Local Abbreviation initial_to from :=
  {| loc_x := loc_x t_pl_loc_default;
     loc_y := loc_y t_pl_loc_default;
     loc_sub_tile := loc_sub_tile t_pl_loc_default;
     loc_layer := loc_layer from |}.

Lemma select_no_router_clusters locs rng :
  router_clusters = [] → select locs rng = Some (None, rng).
Proof. unfold select_random_router_cluster. by intros ->. Qed.

Lemma select_fixed locs rng rng' idx b_from b_loc :
  router_clusters ≠ [] →
  irand rng (Z.of_nat (length router_clusters) - 1) = (idx, rng') →
  vec_at_int router_clusters idx = Some b_from →
  locs !! b_from = Some b_loc →
  is_fixed b_loc = true →
  select locs rng = Some (None, rng').
Proof.
  intros Hne Hrand Hb Hloc Hfixed. unfold select_random_router_cluster.
  destruct router_clusters as [|c cs] eqn:Hcs; [done|].
  rewrite Hrand. simpl. rewrite Hb. simpl. rewrite Hloc. simpl. by rewrite Hfixed.
Qed.

(** C8: the proposer returns ABORT when there is no router cluster, when
    the selected router cluster is fixed, when no compatible destination
    is found and when the move would violate a floorplan constraint.  In
    the first three cases the move transaction is left as it was. *)
Theorem propose_router_swap_aborts
    (blocks_affected : t_pl_blocks_to_be_moved) (rlim : rlim_t)
    (blk_loc_registry : BlkLocRegistry) (place_macros : PlaceMacros) (rng : RngContainer) :
  (router_clusters = [] →
   propose blocks_affected rlim blk_loc_registry place_macros rng
   = Some (ABORT, blocks_affected, rng))
  ∧ (∀ idx rng' b_from b_loc,
       router_clusters ≠ [] →
       irand rng (Z.of_nat (length router_clusters) - 1) = (idx, rng') →
       vec_at_int router_clusters idx = Some b_from →
       block_locs blk_loc_registry !! b_from = Some b_loc →
       is_fixed b_loc = true →
       propose blocks_affected rlim blk_loc_registry place_macros rng
       = Some (ABORT, blocks_affected, rng'))
  ∧ (∀ b_from from cluster_from_type rng1 to rng2,
       select (block_locs blk_loc_registry) rng
         = Some (Some (b_from, from, cluster_from_type), rng1) →
       find_to_loc_uniform cluster_from_type rlim from (initial_to from) b_from
         blk_loc_registry rng1 = (false, to, rng2) →
       propose blocks_affected rlim blk_loc_registry place_macros rng
       = Some (ABORT, blocks_affected, rng2))
  ∧ (∀ b_from from cluster_from_type rng1 to rng2 result blocks_affected',
       select (block_locs blk_loc_registry) rng
         = Some (Some (b_from, from, cluster_from_type), rng1) →
       find_to_loc_uniform cluster_from_type rlim from (initial_to from) b_from
         blk_loc_registry rng1 = (true, to, rng2) →
       create_move blocks_affected b_from to blk_loc_registry place_macros
         = (result, blocks_affected') →
       floorplan_legal blocks_affected' = false →
       propose blocks_affected rlim blk_loc_registry place_macros rng
       = Some (ABORT, blocks_affected', rng2)).
Proof.
  split_and!.
  - intros Hnone. unfold propose_router_swap.
    by rewrite select_no_router_clusters.
  - intros idx rng' b_from b_loc Hne Hrand Hb Hloc Hfixed. unfold propose_router_swap.
    by rewrite (select_fixed _ _ _ _ _ _ Hne Hrand Hb Hloc Hfixed).
  - intros b_from from ty rng1 to rng2 Hsel Hfind. unfold propose_router_swap.
    rewrite Hsel. simpl. by rewrite Hfind.
  - intros b_from from ty rng1 to rng2 result blocks' Hsel Hfind Hmove Hlegal.
    unfold propose_router_swap. rewrite Hsel. simpl. rewrite Hfind. simpl.
    rewrite Hmove. by rewrite Hlegal.
Qed.
End ProposerProperties.

(** * The properties on the small NoC *)

#[local] Set Warnings "-inexact-float".

Lemma latency_cost_safe_on_non_empty_routes_witness :
  is_Some ([1; 0] !! 0)
  ∧ is_Some (calculate_traffic_flow_latency_cost [1; 0] (scenario_model true true)
               (scenario_flow 2 1 0.7%float))
  ∧ calculate_traffic_flow_latency_cost [] (scenario_model true true)
      (scenario_flow 2 1 0.7%float) = None.
Proof.
  destruct (latency_cost_safe_on_non_empty_routes [1; 0] (scenario_model true true)
              (scenario_flow 2 1 0.7%float)) as (Hfirst & Hsafe & Hempty).
  split_and!.
  - apply Hfirst. discriminate.
  - apply Hsafe; [discriminate|reflexivity].
  - apply Hempty. reflexivity.
Defined.

Lemma latency_cost_default_and_detailed_link_witness :
  fst <$> calculate_traffic_flow_latency_cost [1; 0] (scenario_model false false)
            (scenario_flow 2 1 0.7%float) = Some 7%float
  ∧ fst <$> calculate_traffic_flow_latency_cost [1; 0] (scenario_model true false)
              (scenario_flow 2 1 0.7%float) = Some 7%float.
Proof.
  split.
  - exact (proj1 (latency_cost_default_and_detailed_link [1; 0] (scenario_model false false)
                    (scenario_flow 2 1 0.7%float)) eq_refl eq_refl).
  - exact (proj2 (latency_cost_default_and_detailed_link [1; 0] (scenario_model true false)
                    (scenario_flow 2 1 0.7%float))
             eq_refl [scenario_link 1 0 1; scenario_link 0 1 2] 3%float eq_refl eq_refl).
Defined.

Lemma normalization_factors_pinned_witness :
  let zero_flows :=
    noc_cost_norm_factors
      (update_noc_normalization_factors 1%float 1e12%float 1e12%float zero_placer_costs) in
  let some_flows :=
    noc_cost_norm_factors
      (update_noc_normalization_factors 1%float 1e12%float 1e12%float
         {| noc_cost_terms :=
              {| aggregate_bandwidth := 4%float; latency := 2%float;
                 latency_overrun := 0.5%float; congestion := 0.25%float |};
            noc_cost_norm_factors := zero_cost_terms |}) in
  (aggregate_bandwidth zero_flows = 1%float ∧ latency zero_flows = 1e12%float
   ∧ latency_overrun zero_flows = 1e12%float ∧ congestion zero_flows = 1e12%float)
  ∧ (aggregate_bandwidth some_flows = 0.25%float ∧ latency some_flows = 0.5%float
     ∧ latency_overrun some_flows = 2%float ∧ congestion some_flows = 4%float).
Proof.
  intros zero_flows some_flows. split.
  - destruct (normalization_factors_pinned 1%float 1e12%float 1e12%float zero_placer_costs)
      as (_ & _ & _ & Hoverrun & Hcongestion & Haggregate & Hlatency).
    split_and!.
    + apply Haggregate; reflexivity.
    + apply Hlatency; reflexivity.
    + apply Hoverrun; reflexivity.
    + apply Hcongestion; reflexivity.
  - destruct (normalization_factors_pinned 1%float 1e12%float 1e12%float
                {| noc_cost_terms :=
                     {| aggregate_bandwidth := 4%float; latency := 2%float;
                        latency_overrun := 0.5%float; congestion := 0.25%float |};
                   noc_cost_norm_factors := zero_cost_terms |})
      as ((Haggregate & Hlatency) & Hoverrun & Hcongestion & _).
    split_and!.
    + exact Haggregate.
    + exact Hlatency.
    + apply Hoverrun; reflexivity.
    + apply Hcongestion; reflexivity.
Defined.

(** C6, counterexample: a negative aggregate-bandwidth term is not pinned;
    with the term -1 the factor is -1, not the maximum 1. *)
Lemma normalization_factor_negative_term_not_pinned :
  let costs :=
    {| noc_cost_terms :=
         {| aggregate_bandwidth := (-1)%float; latency := (-1)%float;
            latency_overrun := 0%float; congestion := 0%float |};
       noc_cost_norm_factors := zero_cost_terms |} in
  let factors :=
    noc_cost_norm_factors
      (update_noc_normalization_factors 1%float 1e12%float 1e12%float costs) in
  (aggregate_bandwidth (noc_cost_terms costs) <=? 0)%float = true
  ∧ aggregate_bandwidth factors = (-1)%float
  ∧ aggregate_bandwidth factors ≠ 1%float
  ∧ latency factors ≠ 1e12%float.
Proof. vm_compute. split_and!; [reflexivity|reflexivity|discriminate|discriminate]. Qed.

Section ExactArithmetic.
#[local] Existing Instance exactZ.

Lemma revert_restores_routes_and_exact_usage_witness :
∃ h2,
  revert_noc_traffic_flow_routes (scenario_flows 20 7 1)%Z move_C
    (scenario_evaluated 20 7 1)%Z = Some h2
  ∧ traffic_flow_routes h2 = traffic_flow_routes (scenario_routed 20 7 1)%Z
  ∧ link_bandwidth_usages h2 = link_bandwidth_usages (scenario_routed 20 7 1)%Z.
Proof.
destruct (revert_restores_routes_and_exact_usage
             (scenario_model false false) (scenario_flows 20 7 1)%Z unit
             scenario_route_flow move_C zero_cost_terms scenario_locs_C_moved
             (scenario_routed 20 7 1)%Z tt (scenario_evaluated 20 7 1)%Z
             {| aggregate_bandwidth := (-7)%Z; latency := (-3)%Z;
                latency_overrun := 0%Z; congestion := 0%Z |} tt)
  as (h2 & Hrevert & Hroutes & _ & _ & _ & Husages).
- vm_compute. reflexivity.
- exists h2. split_and!; [exact Hrevert|exact Hroutes|].
  apply Husages. unfold exact_usage_arithmetic, usage_weight. simpl.
  split_and!; intros; lia.
Defined.
End ExactArithmetic.

(** C1, counterexample: three flows of bandwidth 2.0, 0.7 and 0.1 share
    link 0, whose usage after the initial routing is 2.8000000000000003.
    Moving cluster C re-routes the second flow away from link 0; after the
    delta evaluation and the revert the usage of link 0 is
    2.8000000000000007. *)
Lemma revert_does_not_restore_binary64_usage :
  ∃ h1 delta_c h2,
    find_affected_noc_routers_and_update_noc_costs (scenario_model false false)
      (scenario_flows 2 0.7 0.1)%float scenario_route_flow move_C zero_cost_terms
      scenario_locs_C_moved (scenario_routed 2 0.7 0.1)%float tt = Some (h1, delta_c, tt)
    ∧ revert_noc_traffic_flow_routes (scenario_flows 2 0.7 0.1)%float move_C h1 = Some h2
    ∧ link_bandwidth_usages (scenario_routed 2 0.7 0.1)%float !! 0
      = Some 2.8000000000000003%float
    ∧ link_bandwidth_usages h2 !! 0 = Some 2.8000000000000007%float
    ∧ link_bandwidth_usages h2 ≠ link_bandwidth_usages (scenario_routed 2 0.7 0.1)%float.
Proof.
  do 3 eexists. split_and!.
  - vm_compute. reflexivity.
  - vm_compute. reflexivity.
  - vm_compute. reflexivity.
  - vm_compute. reflexivity.
  - vm_compute. discriminate.
Qed.

Lemma scenario_link_ids_dense `{Scalar R} dl dr : link_ids_dense (scenario_model (R := R) dl dr).
Proof. reflexivity. Qed.

Lemma commit_after_delta_evaluation_witness :
  ∃ h2,
    commit_noc_costs (-1)%float (scenario_model false false)
      (scenario_evaluated 2 0.7 0.1)%float = Some h2
    ∧ (∀ f, f ∈ affected_traffic_flows (scenario_evaluated 2 0.7 0.1)%float →
         is_Some (proposed_traffic_flow_costs (scenario_evaluated 2 0.7 0.1)%float !! f)
         ∧ traffic_flow_costs h2 !! f
           = proposed_traffic_flow_costs (scenario_evaluated 2 0.7 0.1)%float !! f
         ∧ proposed_traffic_flow_costs h2 !! f
           = Some (invalid_traffic_flow_cost (-1)%float))
    ∧ (∀ l, l ∈ affected_noc_links (scenario_evaluated 2 0.7 0.1)%float →
         is_Some (proposed_link_congestion_costs (scenario_evaluated 2 0.7 0.1)%float !! l)
         ∧ link_congestion_costs h2 !! l
           = proposed_link_congestion_costs (scenario_evaluated 2 0.7 0.1)%float !! l
         ∧ proposed_link_congestion_costs h2 !! l = Some (-1)%float)
    ∧ affected_traffic_flows h2 = affected_traffic_flows (scenario_evaluated 2 0.7 0.1)%float
    ∧ affected_noc_links h2 = affected_noc_links (scenario_evaluated 2 0.7 0.1)%float.
Proof.
  edestruct (commit_after_delta_evaluation (-1)%float (scenario_model false false)
               (scenario_flows 2 0.7 0.1)%float unit scenario_route_flow move_C zero_cost_terms
               scenario_locs_C_moved (scenario_routed 2 0.7 0.1)%float tt
               (scenario_evaluated 2 0.7 0.1)%float
               {| aggregate_bandwidth := (-0.7)%float; latency := (-3)%float;
                  latency_overrun := 0%float; congestion := 0%float |} tt)
    as (h2 & Hcommit & Hflows & Hlinks & Hscratch_flows & Hscratch_links).
  - vm_compute. reflexivity.
  - exists h2. split_and!;
      [exact Hcommit|exact Hflows| |exact Hscratch_flows|exact Hscratch_links].
    apply Hlinks. reflexivity.
Defined.

(** C3, counterexample: after the delta evaluation of moving C and the
    commit, the scratch containers still hold the affected flow 1 and the
    affected links 0, 1 and 2. *)
Lemma commit_does_not_clear_scratch :
  ∃ h1 delta_c h2,
    find_affected_noc_routers_and_update_noc_costs (scenario_model false false)
      (scenario_flows 2 0.7 0.1)%float scenario_route_flow move_C zero_cost_terms
      scenario_locs_C_moved (scenario_routed 2 0.7 0.1)%float tt = Some (h1, delta_c, tt)
    ∧ commit_noc_costs (-1)%float (scenario_model false false) h1 = Some h2
    ∧ affected_traffic_flows h2 = [1]
    ∧ affected_noc_links h2 = {[0; 1; 2]}
    ∧ affected_traffic_flows h2 ≠ [] ∧ affected_noc_links h2 ≠ ∅.
Proof.
  do 3 eexists. split_and!.
  - vm_compute. reflexivity.
  - vm_compute. reflexivity.
  - vm_compute. reflexivity.
  - vm_compute. reflexivity.
  - vm_compute. discriminate.
  - vm_compute. discriminate.
Qed.

Lemma commit_frame_witness :
  let h := scenario_evaluated 2%float 0.7%float 0.1%float in
  let h' := scenario_committed 2%float 0.7%float 0.1%float in
  traffic_flow_routes h' = traffic_flow_routes h
  ∧ traffic_flow_routes_backup h' = traffic_flow_routes_backup h
  ∧ link_bandwidth_usages h' = link_bandwidth_usages h
  ∧ (∀ f, f ∉ affected_traffic_flows h →
       traffic_flow_costs h' !! f = traffic_flow_costs h !! f
       ∧ proposed_traffic_flow_costs h' !! f = proposed_traffic_flow_costs h !! f)
  ∧ (∀ l, l ∉ affected_noc_links h →
       link_congestion_costs h' !! l = link_congestion_costs h !! l
       ∧ proposed_link_congestion_costs h' !! l = proposed_link_congestion_costs h !! l).
Proof.
  intros h h'.
  destruct (commit_frame (-1)%float (scenario_model false false) h h')
    as (Hroutes & Hbackups & Husages & Hflows & Hlinks).
  - vm_compute. reflexivity.
  - split_and!; [exact Hroutes|exact Hbackups|exact Husages|exact Hflows|].
    apply Hlinks. reflexivity.
Defined.

Lemma affected_flows_and_links_distinct_witness :
  let h1 := scenario_swapped 2%float 0.7%float 0.1%float in
  NoDup (affected_traffic_flows h1)
  ∧ NoDup (elements (affected_noc_links h1))
  ∧ [1; 0; 2] = [] ++ affected_traffic_flows h1
  ∧ length (filter (λ g, g = 1) (affected_traffic_flows h1)) = 1.
Proof.
  intros h1.
  destruct (affected_flows_and_links_distinct (scenario_model false false)
               (scenario_flows 2 0.7 0.1)%float unit scenario_route_flow swap_B_C
               zero_cost_terms scenario_locs_B_C_swapped (scenario_routed 2 0.7 0.1)%float
               tt [] h1 zero_cost_terms tt [1; 0; 2])
    as (Hflows & Hlinks & Hlog & Honce).
  - vm_compute. reflexivity.
  - split_and!; [exact Hflows|exact Hlinks|exact Hlog|].
    apply (Honce 1 {| block_num := 2; old_loc := pl_loc_at 0; new_loc := pl_loc_at 2 |}
                   {| block_num := 1; old_loc := pl_loc_at 2; new_loc := pl_loc_at 0 |}).
    + apply list_elem_of_here.
    + apply list_elem_of_further, list_elem_of_here.
    + vm_compute. apply list_elem_of_here.
    + vm_compute. apply list_elem_of_further, list_elem_of_here.
Defined.

Lemma propose_router_swap_aborts_witness :
  scenario_propose_router_swap (R := float) true true no_router_clusters [] scenario_locs 0
  = Some (ABORT, [], 0)
  ∧ scenario_propose_router_swap true true (scenario_flows 2 0.7 0.1)%float []
      scenario_locs_A_fixed 0
    = Some (ABORT, [], 1)
  ∧ scenario_propose_router_swap false true (scenario_flows 2 0.7 0.1)%float []
      scenario_locs 0
    = Some (ABORT, [], 1)
  ∧ scenario_propose_router_swap true false (scenario_flows 2 0.7 0.1)%float []
      scenario_locs 0
    = Some (ABORT,
            [{| block_num := 0; old_loc := pl_loc_at 1; new_loc := pl_loc_at 2 |}], 1).
Proof.
  unfold scenario_propose_router_swap. split_and!.
  - apply (proj1 (propose_router_swap_aborts
             nat scenario_irand unit unit (λ _, tt) (λ _ _ _, tt) (λ _ _, true)
             (list t_block_loc) (λ registry, registry) unit (list t_pl_moved_block) Z
             (scenario_find_to_loc_uniform true) scenario_create_move (λ _, true)
             scenario_default_loc (no_router_clusters (R := float)) [] 1%Z scenario_locs tt 0)).
    reflexivity.
  - apply (proj1 (proj2 (propose_router_swap_aborts
             nat scenario_irand unit unit (λ _, tt) (λ _ _ _, tt) (λ _ _, true)
             (list t_block_loc) (λ registry, registry) unit (list t_pl_moved_block) Z
             (scenario_find_to_loc_uniform true) scenario_create_move (λ _, true)
             scenario_default_loc (scenario_flows 2 0.7 0.1)%float [] 1%Z
             scenario_locs_A_fixed tt 0))
           0%Z 1 0 {| loc := pl_loc_at 1; is_fixed := true |});
      [discriminate|reflexivity..].
  - apply (proj1 (proj2 (proj2 (propose_router_swap_aborts
             nat scenario_irand unit unit (λ _, tt) (λ _ _ _, tt) (λ _ _, true)
             (list t_block_loc) (λ registry, registry) unit (list t_pl_moved_block) Z
             (scenario_find_to_loc_uniform false) scenario_create_move (λ _, true)
             scenario_default_loc (scenario_flows 2 0.7 0.1)%float [] 1%Z
             scenario_locs tt 0)))
           0 (pl_loc_at 1) tt 1
           {| loc_x := 2; loc_y := 0; loc_sub_tile := 0; loc_layer := 0 |} 1);
      reflexivity.
  - apply (proj2 (proj2 (proj2 (propose_router_swap_aborts
             nat scenario_irand unit unit (λ _, tt) (λ _ _ _, tt) (λ _ _, true)
             (list t_block_loc) (λ registry, registry) unit (list t_pl_moved_block) Z
             (scenario_find_to_loc_uniform true) scenario_create_move (λ _, false)
             scenario_default_loc (scenario_flows 2 0.7 0.1)%float [] 1%Z
             scenario_locs tt 0)))
           0 (pl_loc_at 1) tt 1
           {| loc_x := 2; loc_y := 0; loc_sub_tile := 0; loc_layer := 0 |} 1 VALID);
      reflexivity.
Defined.

Lemma initial_routing_and_reinitialization_witness :
  let h := scenario_routed 2%float 0.7%float 0.1%float in
  let h1 := scenario_routed_twice 2%float 0.7%float 0.1%float in
  let costs := scenario_routed_costs 2%float 0.7%float 0.1%float in
  (same_cost_caches h h1
   ∧ traffic_flow_routes h1 !! 1 = scenario_seed_routes !! 1
   ∧ link_bandwidth_usages h1
     = fold_left (λ u f, add_along_route (route_of h1 f)
                           (usage_weight 1 (bandwidth_of (scenario_flows 2 0.7 0.1)%float f)) u)
                 [0; 1; 2] (link_bandwidth_usages h))
  ∧ ([0; 1; 2] = [] ++ [0; 1; 2]
     ∧ link_bandwidth_usages h
       = fold_left (λ u f, add_along_route (route_of h f)
                             (usage_weight 1 (bandwidth_of (scenario_flows 2 0.7 0.1)%float f)) u)
                   [0; 1; 2] (replicate 5 0%float)
     ∧ (∃ route lat over,
          traffic_flow_routes h !! 1 = Some route
          ∧ calculate_traffic_flow_latency_cost route (scenario_model false false)
              (scenario_flow 2 1 0.7%float) = Some (lat, over)
          ∧ traffic_flow_costs h !! 1
            = Some {| flow_aggregate_bandwidth :=
                        calculate_traffic_flow_aggregate_bandwidth_cost route
                          (scenario_flow 2 1 0.7%float);
                      flow_latency := lat;
                      flow_latency_overrun := over |})
     ∧ aggregate_bandwidth (noc_cost_terms costs)
       = sum_of ((λ f, flow_aggregate_bandwidth (flow_cost_of h f)) <$> [0; 1; 2])
     ∧ (∃ cost, get_link_congestion_cost (scenario_link 0 1 2) h = Some cost
                ∧ link_congestion_costs h !! 0 = Some cost)
     ∧ congestion (noc_cost_terms costs)
       = sum_of ((λ link : NocLink float, link_congestion_of h (link_id link))
                 <$> link_storage (scenario_model false false))).
Proof.
  intros h h1 costs.
  destruct (initial_routing_and_reinitialization (scenario_model false false)
              (scenario_flows 2 0.7 0.1)%float unit scenario_route_flow)
    as [Hinitial Hreinitialize].
  split.
  - destruct (Hinitial scenario_seed_routes scenario_locs h tt [] h1 tt [])
      as (Hcaches & Hseeds & _ & Husages).
    + vm_compute. reflexivity.
    + split_and!; [exact Hcaches| |exact Husages].
      apply Hseeds; [discriminate|vm_compute; lia].
  - destruct (Hreinitialize zero_placer_costs [] scenario_locs
                (scenario_new 2 0.7 0.1)%float tt [] h costs tt [0; 1; 2])
      as (_ & Hlog & Husages & Hflows & Haggregate & _ & _ & Hlinks).
    + vm_compute. reflexivity.
    + destruct Hlinks as [Hcached Hcongestion]; [reflexivity|].
      split_and!; [exact Hlog|exact Husages| |exact Haggregate| |exact Hcongestion].
      * apply Hflows. reflexivity.
      * apply Hcached. reflexivity.
Defined.

(** C2, counterexample: run on the handler that is already routed,
    [initial_noc_routing] adds the bandwidths to the usage that is there
    (link 0 goes from 2.8000000000000003 to 5.6000000000000005); run on the
    fresh handler, it leaves every cached cost at the sentinel -1 and
    returns no cost terms. *)
Lemma initial_noc_routing_neither_zeroes_nor_computes_costs :
  (∃ h1,
     initial_noc_routing (scenario_model false false) (scenario_flows 2 0.7 0.1)%float
       scenario_route_flow scenario_seed_routes scenario_locs
       (scenario_routed 2 0.7 0.1)%float tt = Some (h1, tt)
     ∧ link_bandwidth_usages (scenario_routed 2 0.7 0.1)%float !! 0
       = Some 2.8000000000000003%float
     ∧ link_bandwidth_usages h1 !! 0 = Some 5.6000000000000005%float)
  ∧ (∃ h1,
       initial_noc_routing (scenario_model false false) (scenario_flows 2 0.7 0.1)%float
         scenario_route_flow [] scenario_locs (scenario_new 2 0.7 0.1)%float tt
         = Some (h1, tt)
       ∧ traffic_flow_costs h1 = replicate 3 (invalid_traffic_flow_cost (-1)%float)
       ∧ link_congestion_costs h1 = replicate 5 (-1)%float
       ∧ traffic_flow_costs h1 !! 1
         ≠ Some {| flow_aggregate_bandwidth := 1.3999999999999999%float;
                   flow_latency := 7%float; flow_latency_overrun := 0%float |}).
Proof.
  split; eexists; split_and!; try (vm_compute; reflexivity).
  vm_compute. discriminate.
Qed.
